(** * montage-core: the split-settlement ledger

    A shallow embedding of the expenditure model (models/Expenditure) and of
    the expenditure route handlers (routes/expenditures), together with the
    application-level error handler of app.ts.

    Conventions of the embedding.
    - A JavaScript number is a binary64 value, held as the rational it
      denotes ([Q]).  A literal and the result of [+], [-], [*] and [/] are
      rounded to the nearest binary64 value, ties to even ([double], [fadd],
      [fsub], [fmul], [fdiv]); [Math.abs] and the comparisons are exact.
      Magnitudes from 2^1024 on, where the runtime has Infinity and then NaN,
      are outside the embedding, and so is the sign of zero, which no handler
      reads.  The accumulators of an aggregation pipeline ([$sum], [$avg])
      add in binary64 in the order in which the documents reach them.
    - A string is the sequence of its UTF-8 bytes; [js_length] counts its
      UTF-16 code units, which is what [.length] and [maxlength] see.
    - A Boolean path holds true, false or null ([option bool]): a null that
      is written to it is stored, the default applies to a missing key only.
    - An ObjectId is its 96-bit value ([N]); [a.toString() === b.toString()]
      is equality of the values.  A [Date] is its time value in milliseconds.
    - A collection is a finite map from [_id] to the document's other paths.
    - A request body is a JavaScript object: a finite map from keys to JSON
      values.  The coercions Mongoose applies when a value is written to a
      schema path are the fields of the class [Casters]; every result below
      holds for all of them.
    - The message of a CastError that validation reports under a path is
      given by its first words ("Cast to Number failed"); the text Mongoose
      adds names the value and the path.  The CastError of a query by [_id]
      carries its whole text.
    - Mongoose's bookkeeping that no handler reads (timestamps, [__v], the
      [_id] of a sub-document, virtuals, [populate]) is left out of the
      records; the [_id] of a new document is an argument ([fresh]). *)

From Stdlib Require Import QArith Qabs Qround Floats.
From Stdlib Require Import Sorting.Sorted.
From stdpp Require Import gmap strings list fin_maps pretty.

#[local] Set Warnings "-register-all,-inexact-float".
#[local] Open Scope Q_scope.

(** ** Numbers *)

(** The integer nearest to [n / d], ties to even, for [0 <= n] and [0 < d]. *)
Definition round_half_even (n d : Z) : Z :=
  let q := (n / d)%Z in
  match (2 * (n mod d) ?= d)%Z with
  | Lt => q
  | Gt => (q + 1)%Z
  | Eq => if Z.even q then q else (q + 1)%Z
  end.

(** The exponent [k] with [2^k <= n / d < 2^(k+1)], for [0 < n] and [0 < d]. *)
Definition binade (n d : Z) : Z :=
  let k := (Z.log2 n - Z.log2 d)%Z in
  if (n * 2 ^ Z.max 0 (- k) <? d * 2 ^ Z.max 0 k)%Z then (k - 1)%Z else k.

(** The binary64 value nearest to [x], ties to even: a significand of 53
    bits, or of fewer bits at the least exponent, -1074.  The result is in
    lowest terms. *)
Definition double (x : Q) : Q :=
  let x := Qred x in
  let n := Z.abs (Qnum x) in
  let d := Z.pos (Qden x) in
  if (n =? 0)%Z then 0
  else
    let e := Z.max (binade n d - 52) (-1074) in
    let m := round_half_even (n * 2 ^ Z.max 0 (- e)) (d * 2 ^ Z.max 0 e) in
    let v := Qmake (m * 2 ^ Z.max 0 e) (Z.to_pos (2 ^ Z.max 0 (- e))) in
    Qred (if (Qnum x <? 0)%Z then - v else v).

(** [a + b], [a - b], [a * b] and [a / b] of the runtime. *)
Definition fadd (a b : Q) : Q := double (a + b).
Definition fsub (a b : Q) : Q := double (a - b).
Definition fmul (a b : Q) : Q := double (a * b).
Definition fdiv (a b : Q) : Q := double (a / b).
Arguments double : simpl never.
Arguments fadd : simpl never.
Arguments fsub : simpl never.
Arguments fmul : simpl never.
Arguments fdiv : simpl never.

(** The sum of a list of numbers, from 0 and from left to right, as
    [reduce((sum, x) => sum + x, 0)] and [$sum] compute it. *)
Definition fsum (l : list Q) : Q := fold_left fadd l 0.

(** The rational a finite float of the kernel denotes, to compare [double]
    with the arithmetic of the machine. *)
Definition Q_of_float (f : float) : Q :=
  match Prim2SF f with
  | S754_finite s m e =>
      let v := Qmake (Z.pos m * 2 ^ Z.max 0 e) (Z.to_pos (2 ^ Z.max 0 (- e))) in
      Qred (if s then - v else v)
  | _ => 0
  end.

(** [x > y] and [x < y] on numbers, and [$ne]. *)
Definition Qgtb (x y : Q) : bool := negb (Qle_bool x y).
Definition Qltb (x y : Q) : bool := Qgtb y x.
Definition Qneb (x y : Q) : bool := negb (Qeq_bool x y).

(** ** JavaScript values and Mongoose casting *)

Abbreviation ObjectId := N (only parsing).
Abbreviation Date := Z (only parsing).

(** A JSON value; [VNum q] is the number whose text denotes [q], which the
    runtime reads as [double q]. *)
Inductive Value :=
| VNull
| VBool (b : bool)
| VNum (q : Q)
| VStr (s : string)
| VArr (l : list Value)
| VObj (o : gmap string Value).

Abbreviation Obj := (gmap string Value) (only parsing).

(** JavaScript truthiness, for [a || b]. *)
Definition truthy (v : option Value) : bool :=
  match v with
  | None | Some VNull => false
  | Some (VBool b) => b
  | Some (VNum q) => Qneb (double q) 0
  | Some (VStr s) => negb (String.eqb s "")
  | Some (VArr _) | Some (VObj _) => true
  end.

Definition or_js (a b : option Value) : option Value :=
  if truthy a then a else b.

(** The outcome of casting a value to the type of a schema path: the cast
    value, null (kept as "no value"), or a CastError. *)
Inductive Cast (A : Type) :=
| CastOk (a : A)
| CastNull
| CastError.
Arguments CastOk {A} a.
Arguments CastNull {A}.
Arguments CastError {A}.

Class Casters := {
  castNumber : Value → Cast Q;
  castString : Value → Cast string;
  castBoolean : Value → Cast bool;
  castDate : Value → Cast Date;
  castObjectId : Value → Cast ObjectId;
  castStrings : Value → Cast (list string);   (* a [String] array path *)
  castArray : Value → Cast (list Value);      (* a document array path *)
  castObject : Value → Cast Obj               (* one embedded document *)
}.

(** ** The schema (models/Expenditure) *)

Record Split := mkSplit {
  split_user : ObjectId;
  split_amount : Q;
  paid : option bool;
  settledAt : option Date
}.

Record Expenditure := mkExpenditure {
  user : ObjectId;
  amount : Q;
  category : string;
  description : string;
  date : Date;
  paymentMethod : string;
  tags : list string;
  location : option string;
  splits : list Split;
  totalAmount : Q;
  paidBy : ObjectId;
  isSettled : option bool
}.

(** The truthiness of a Boolean path: [if (s.paid)]. *)
Definition holds (flag : option bool) : bool :=
  match flag with
  | Some true => true
  | _ => false
  end.

Abbreviation Collection := (gmap N Expenditure) (only parsing).

(** Field assignments, [this.f = v]. *)
Definition set_amount (v : Q) (e : Expenditure) : Expenditure :=
  mkExpenditure (user e) v (category e) (description e) (date e)
    (paymentMethod e) (tags e) (location e) (splits e) (totalAmount e)
    (paidBy e) (isSettled e).
Definition set_category (v : string) (e : Expenditure) : Expenditure :=
  mkExpenditure (user e) (amount e) v (description e) (date e)
    (paymentMethod e) (tags e) (location e) (splits e) (totalAmount e)
    (paidBy e) (isSettled e).
Definition set_description (v : string) (e : Expenditure) : Expenditure :=
  mkExpenditure (user e) (amount e) (category e) v (date e)
    (paymentMethod e) (tags e) (location e) (splits e) (totalAmount e)
    (paidBy e) (isSettled e).
Definition set_date (v : Date) (e : Expenditure) : Expenditure :=
  mkExpenditure (user e) (amount e) (category e) (description e) v
    (paymentMethod e) (tags e) (location e) (splits e) (totalAmount e)
    (paidBy e) (isSettled e).
Definition set_paymentMethod (v : string) (e : Expenditure) : Expenditure :=
  mkExpenditure (user e) (amount e) (category e) (description e)
    (date e) v (tags e) (location e) (splits e) (totalAmount e)
    (paidBy e) (isSettled e).
Definition set_tags (v : list string) (e : Expenditure) : Expenditure :=
  mkExpenditure (user e) (amount e) (category e) (description e)
    (date e) (paymentMethod e) v (location e) (splits e) (totalAmount e)
    (paidBy e) (isSettled e).
Definition set_location (v : option string) (e : Expenditure) : Expenditure :=
  mkExpenditure (user e) (amount e) (category e) (description e)
    (date e) (paymentMethod e) (tags e) v (splits e) (totalAmount e)
    (paidBy e) (isSettled e).
Definition set_splits (v : list Split) (e : Expenditure) : Expenditure :=
  mkExpenditure (user e) (amount e) (category e) (description e)
    (date e) (paymentMethod e) (tags e) (location e) v (totalAmount e)
    (paidBy e) (isSettled e).
Definition set_isSettled (v : option bool) (e : Expenditure) : Expenditure :=
  mkExpenditure (user e) (amount e) (category e) (description e)
    (date e) (paymentMethod e) (tags e) (location e) (splits e)
    (totalAmount e) (paidBy e) v.

Definition categories : list string :=
  ["food"; "transportation"; "housing"; "utilities"; "healthcare";
   "entertainment"; "shopping"; "education"; "personal_care";
   "debt_payments"; "savings"; "gifts"; "other"].

Definition paymentMethods : list string :=
  ["cash"; "credit_card"; "debit_card"; "upi"; "bank_transfer"; "other"].

(** *** Errors *)

(** The [errors] object of a ValidationError: path and message. *)
Abbreviation Errors := (list (string * string)) (only parsing).

(** A thrown error, as far as the handlers look at it: [name], [message],
    [status] (read by the error handler of app.ts) and [errors]. *)
Record JsError := mkError {
  err_name : string;
  err_message : string;
  err_status : option N;
  err_errors : list (string * string)
}.

Definition ValidationError (errors : list (string * string)) : JsError :=
  mkError "ValidationError" "Expenditure validation failed" None errors.

(** [new Error(message)] *)
Definition Error (message : string) : JsError :=
  mkError "Error" message None [].

(** The double quote. *)
Definition dquote : string := String (Ascii.ascii_of_N 34) EmptyString.

(** The CastError a query throws when the string [id] of its filter cannot
    be cast to the ObjectId of [_id]; the value is printed as [util.inspect]
    prints a string without control characters and backslashes. *)
Definition QueryCastError (id : string) : JsError :=
  mkError "CastError"
    ("Cast to ObjectId failed for value " +:+ dquote +:+ id +:+ dquote
     +:+ " (type string) at path " +:+ dquote +:+ "_id" +:+ dquote
     +:+ " for model " +:+ dquote +:+ "Expenditure" +:+ dquote)
    None [].

(** *** Validators of the schema paths *)

Inductive Checked (A : Type) :=
| Valid (a : A)
| Invalid (message : string).
Arguments Valid {A} a.
Arguments Invalid {A} message.

Definition errs_of {A} (path : string) (r : Checked A) : list (string * string) :=
  match r with
  | Valid _ => []
  | Invalid m => [(path, m)]
  end.

(** [s.length]: the UTF-16 code units of a string of UTF-8 bytes.  A byte
    below 0x80 or a lead byte of a sequence of two or three bytes starts one
    unit, a lead byte of four bytes a surrogate pair, a continuation byte
    none. *)
Fixpoint js_length (s : string) : nat :=
  match s with
  | EmptyString => 0
  | String c s' =>
      let n := Ascii.N_of_ascii c in
      ((if (n <? 128)%N then 1
        else if (n <? 192)%N then 0
        else if (n <? 240)%N then 1
        else 2) + js_length s')%nat
  end.

(** The bytes of a string, and back. *)
Fixpoint bytes_of (s : string) : list N :=
  match s with
  | EmptyString => []
  | String c s' => Ascii.N_of_ascii c :: bytes_of s'
  end.

Fixpoint string_of (l : list N) : string :=
  match l with
  | [] => EmptyString
  | n :: l' => String (Ascii.ascii_of_N n) (string_of l')
  end.

(** The number of bytes of the white space or line terminator that [l]
    starts with, 0 if it starts with none: U+0009 to U+000D, U+0020, U+00A0,
    U+1680, U+2000 to U+200A, U+2028, U+2029, U+202F, U+205F, U+3000 and
    U+FEFF. *)
Definition space_width (l : list N) : nat :=
  match l with
  | b1 :: rest =>
      if (((9 <=? b1) && (b1 <=? 13)) || (b1 =? 32))%N then 1
      else
        match rest with
        | b2 :: rest' =>
            if ((b1 =? 194) && (b2 =? 160))%N then 2
            else
              match rest' with
              | b3 :: _ =>
                  if (((b1 =? 225) && (b2 =? 154) && (b3 =? 128))
                      || ((b1 =? 226) && (b2 =? 128)
                          && (((128 <=? b3) && (b3 <=? 138))
                              || (b3 =? 168) || (b3 =? 169) || (b3 =? 175)))
                      || ((b1 =? 226) && (b2 =? 129) && (b3 =? 159))
                      || ((b1 =? 227) && (b2 =? 128) && (b3 =? 128))
                      || ((b1 =? 239) && (b2 =? 187) && (b3 =? 191)))%N
                  then 3 else 0
              | [] => 0
              end
        | [] => 0
        end
  | [] => 0
  end.

(** The same for the white space that [l] ends with, [l] being given from
    its last byte backwards. *)
Definition space_width_rev (l : list N) : nat :=
  match l with
  | b1 :: _ =>
      if (((9 <=? b1) && (b1 <=? 13)) || (b1 =? 32))%N then 1
      else
        match space_width (rev (take 2 l)), space_width (rev (take 3 l)) with
        | 2%nat, _ => 2
        | _, 3%nat => 3
        | _, _ => 0
        end
  | [] => 0
  end.

(** Leading white space dropped; [fuel] bounds the number of characters. *)
Fixpoint drop_spaces (width : list N → nat) (fuel : nat) (l : list N)
  : list N :=
  match fuel with
  | O => l
  | S fuel' =>
      match width l with
      | O => l
      | w => drop_spaces width fuel' (drop w l)
      end
  end.

(** String.prototype.trimStart, which [parseInt] and [parseFloat] apply. *)
Definition trim_start (s : string) : string :=
  let l := bytes_of s in
  string_of (drop_spaces space_width (length l) l).

(** String.prototype.trim *)
Definition trim (s : string) : string :=
  let l := bytes_of s in
  let l := drop_spaces space_width (length l) l in
  let r := drop_spaces space_width_rev (length l) (rev l) in
  string_of (rev r).

Definition str_in (s : string) (l : list string) : bool :=
  existsb (String.eqb s) l.

Section Model.
Context {casters : Casters}.

Definition cast_path {A} (cast : Value → Cast A) (v : option Value) : Cast A :=
  match v with
  | None => CastNull
  | Some v => cast v
  end.

(** [type: Number, required: [true, required_msg], min: [0, min_msg]] *)
Definition number_path (required_msg min_msg : string) (v : option Value)
  : Checked Q :=
  match cast_path castNumber v with
  | CastError => Invalid "Cast to Number failed"
  | CastNull => Invalid required_msg
  | CastOk q => if Qltb q 0 then Invalid min_msg else Valid q
  end.

(** [type: String, required: [true, required_msg], enum: {values, message}] *)
Definition enum_path (required_msg : string) (values : list string)
    (enum_msg : string) (v : option Value) : Checked string :=
  match cast_path castString v with
  | CastError => Invalid "Cast to string failed"
  | CastNull => Invalid required_msg
  | CastOk s =>
      if String.eqb s "" then Invalid required_msg
      else if str_in s values then Valid s
      else Invalid (s +:+ enum_msg)
  end.

(** [description]: required, trimmed, at most 500 characters. *)
Definition description_path (v : option Value) : Checked string :=
  match cast_path castString v with
  | CastError => Invalid "Cast to string failed"
  | CastNull => Invalid "Description is required"
  | CastOk s =>
      let s := trim s in
      if String.eqb s "" then Invalid "Description is required"
      else if (500 <? js_length s)%nat
      then Invalid "Description cannot exceed 500 characters"
      else Valid s
  end.

(** [date]: required; the default [Date.now] applies when the key is absent. *)
Definition date_value (v : Value) : Checked Date :=
  match castDate v with
  | CastError => Invalid "Cast to date failed"
  | CastNull => Invalid "Date is required"
  | CastOk d => Valid d
  end.

Definition date_path (now : Date) (v : option Value) : Checked Date :=
  match v with
  | None => Valid now
  | Some v => date_value v
  end.

(** [tags]: every tag has at most 20 characters.  A missing key gives the
    empty array; on a null the validator throws the TypeError of
    [tags.every], whose message Mongoose reports under the path. *)
Definition tags_path (v : option Value) : Checked (list string) :=
  match v with
  | None => Valid []
  | Some v =>
      match castStrings v with
      | CastError => Invalid "Cast to Array failed"
      | CastNull =>
          Invalid "Cannot read properties of null (reading 'every')"
      | CastOk tags =>
          if forallb (λ tag, js_length tag <=? 20)%nat tags then Valid tags
          else Invalid "Each tag must be 20 characters or less"
      end
  end.

(** [location]: optional, trimmed, at most 100 characters. *)
Definition location_path (v : option Value) : Checked (option string) :=
  match cast_path castString v with
  | CastError => Invalid "Cast to string failed"
  | CastNull => Valid None
  | CastOk s =>
      let s := trim s in
      if (100 <? js_length s)%nat
      then Invalid "Location cannot exceed 100 characters"
      else Valid (Some s)
  end.

(** [type: Boolean, default: false]: the default is for a missing key; a
    null is stored as it is. *)
Definition boolean_path (v : option Value) : Checked (option bool) :=
  match v with
  | None => Valid (Some false)
  | Some v =>
      match castBoolean v with
      | CastError => Invalid "Cast to Boolean failed"
      | CastNull => Valid None
      | CastOk b => Valid (Some b)
      end
  end.

(** [type: ObjectId, required: true] *)
Definition objectid_path (required_msg : string) (v : option Value)
  : Checked ObjectId :=
  match cast_path castObjectId v with
  | CastError => Invalid "Cast to ObjectId failed"
  | CastNull => Invalid required_msg
  | CastOk o => Valid o
  end.

(** [settledAt: { type: Date }] *)
Definition optional_date_path (v : option Value) : Checked (option Date) :=
  match cast_path castDate v with
  | CastError => Invalid "Cast to date failed"
  | CastNull => Valid None
  | CastOk d => Valid (Some d)
  end.

(** One element of [splits], against splitSchema; [i] is its index. *)
Definition split_doc (i : nat) (v : Value) : list (string * string) + Split :=
  let path := "splits." +:+ pretty i in
  match castObject v with
  | CastOk o =>
      let r_user := objectid_path "Path `user` is required." (o !! "user") in
      let r_amount :=
        number_path "Path `amount` is required."
          "Split amount cannot be negative" (o !! "amount") in
      let r_paid := boolean_path (o !! "paid") in
      let r_settledAt := optional_date_path (o !! "settledAt") in
      match r_user, r_amount, r_paid, r_settledAt with
      | Valid u, Valid a, Valid p, Valid s => inr (mkSplit u a p s)
      | _, _, _, _ =>
          inl (errs_of (path +:+ ".user") r_user
               ++ errs_of (path +:+ ".amount") r_amount
               ++ errs_of (path +:+ ".paid") r_paid
               ++ errs_of (path +:+ ".settledAt") r_settledAt)
      end
  | _ => inl [(path, "Cast to embedded failed")]
  end.

Fixpoint split_docs (i : nat) (vs : list Value)
  : list (string * string) * list Split :=
  match vs with
  | [] => ([], [])
  | v :: vs' =>
      let (errs, docs) := split_docs (S i) vs' in
      match split_doc i v with
      | inl e => (e ++ errs, docs)
      | inr s => (errs, s :: docs)
      end
  end.

(** [splits: { type: [splitSchema], default: [] }] *)
Definition splits_path (v : option Value) : list (string * string) + list Split :=
  match cast_path castArray v with
  | CastError => inl [("splits", "Cast to Array failed")]
  | CastNull => inr []
  | CastOk vs =>
      match split_docs 0 vs with
      | ([], docs) => inr docs
      | (errs, _) => inl errs
      end
  end.

(** [new Expenditure(obj)] followed by validation: the document, or the
    [errors] of the ValidationError.  [user] and [paidBy] are ObjectIds the
    handler supplies. *)
Definition new_document (now : Date) (obj : Obj) (user paidBy : ObjectId)
  : list (string * string) + Expenditure :=
  let r_amount :=
    number_path "Amount is required" "Amount cannot be negative"
      (obj !! "amount") in
  let r_category :=
    enum_path "Category is required" categories " is not a valid category"
      (obj !! "category") in
  let r_description := description_path (obj !! "description") in
  let r_date := date_path now (obj !! "date") in
  let r_paymentMethod :=
    enum_path "Payment method is required" paymentMethods
      " is not a valid payment method" (obj !! "paymentMethod") in
  let r_tags := tags_path (obj !! "tags") in
  let r_location := location_path (obj !! "location") in
  let r_splits := splits_path (obj !! "splits") in
  let r_totalAmount :=
    number_path "Total amount is required" "Total amount cannot be negative"
      (obj !! "totalAmount") in
  let r_isSettled := boolean_path (obj !! "isSettled") in
  match r_amount, r_category, r_description, r_date, r_paymentMethod,
        r_tags, r_location, r_splits, r_totalAmount, r_isSettled with
  | Valid a, Valid c, Valid d, Valid dt, Valid pm,
    Valid tg, Valid loc, inr sp, Valid ta, Valid st =>
      inr (mkExpenditure user a c d dt pm tg loc sp ta paidBy st)
  | _, _, _, _, _, _, _, _, _, _ =>
      inl (errs_of "amount" r_amount
           ++ errs_of "category" r_category
           ++ errs_of "description" r_description
           ++ errs_of "date" r_date
           ++ errs_of "paymentMethod" r_paymentMethod
           ++ errs_of "tags" r_tags
           ++ errs_of "location" r_location
           ++ match r_splits with inl e => e | inr _ => [] end
           ++ errs_of "totalAmount" r_totalAmount
           ++ errs_of "isSettled" r_isSettled)
  end.

(** *** expenditureSchema.pre('save') *)

(** The hook: the Error handed to [next], if any. *)
Definition pre_save (this : Expenditure) : option JsError :=
  if (0 <? length (splits this))%nat then
    let totalSplitAmount :=
      fold_left (λ sum split, fadd sum (split_amount split)) (splits this) 0 in
    if Qgtb (Qabs (fsub totalSplitAmount (totalAmount this))) (double 0.01)
    then Some (Error "Split amounts must add up to the total amount")
    else None
  else None.

(** The same test on the floats of the kernel, which are those of the
    machine: [this.splits.length > 0] and
    [Math.abs(totalSplitAmount - this.totalAmount) > 0.01], for the amounts
    of the splits and the total. *)
Definition hook_rejects_binary64 (amounts : list float) (totalAmount : float)
  : bool :=
  (0 <? length amounts)%nat
  && PrimFloat.ltb 0.01%float
       (PrimFloat.abs
          (PrimFloat.sub (fold_left PrimFloat.add amounts 0%float)
             totalAmount)).

(** [doc.save()] of a validated document with [_id] [id]: the hook runs,
    then the write. *)
Definition save (db : gmap N Expenditure) (id : ObjectId) (doc : Expenditure)
  : JsError + gmap N Expenditure :=
  match pre_save doc with
  | Some error => inl error
  | None => inr (<[id := doc]> db)
  end.

(** [Expenditure.create(obj)]: validation runs before the save hooks. *)
Definition Expenditure_create (db : gmap N Expenditure) (fresh : ObjectId)
    (now : Date) (obj : Obj) (user paidBy : ObjectId)
  : JsError + (Expenditure * gmap N Expenditure) :=
  match new_document now obj user paidBy with
  | inl errors => inl (ValidationError errors)
  | inr doc =>
      match save db fresh doc with
      | inl error => inl error
      | inr db' => inr (doc, db')
      end
  end.

End Model.

(** ** Responses *)

Record Transaction := mkTransaction {
  tx_id : ObjectId;
  tx_description : string;
  tx_amount : option Q;
  tx_date : Date
}.

(** One row of the settlement aggregation: [_id.userId], [totalOwed],
    [transactions] and [userDetails] (the [_id] of the payer's user record). *)
Record Settlement := mkSettlement {
  counterparty : option ObjectId;
  totalOwed : Q;
  transactions : list Transaction;
  userDetails : ObjectId
}.

Record SettlementSummary := mkSummary {
  settlements : list Settlement;
  totalToReceive : Q;
  totalToPay : Q
}.

Inductive Payload :=
| PDoc (id : ObjectId) (expenditure : Expenditure)
                                             (* res.json(expenditure) *)
| PError (error : string)                    (* { error } *)
| PValidation (details : list (string * string))
                                             (* { error: 'Validation failed', details } *)
| PUnhandled (message : string)              (* app.ts: { error: { message } } *)
| PSettlements (summary : SettlementSummary).

Record Response := mkResponse {
  status : N;
  payload : Payload
}.

(** The error handler of app.ts, reached through [next(error)]. *)
Definition errorHandler (err : JsError) : Response :=
  let statusCode :=
    match err_status err with
    | Some s => if (s =? 0)%N then 500%N else s
    | None => 500%N
    end in
  let message :=
    if String.eqb (err_message err) "" then "Internal Server Error"
    else err_message err in
  mkResponse statusCode (PUnhandled message).

(** The catch block shared by createExpenditure and updateExpenditure. *)
Definition catch_validation (error : JsError) : Response :=
  if String.eqb (err_name error) "ValidationError"
  then mkResponse 400 (PValidation (err_errors error))
  else errorHandler error.

(** ** The route handlers (routes/expenditures) *)

Definition allowedUpdates : list string :=
  ["amount"; "category"; "description"; "date"; "paymentMethod"; "tags";
   "location"].

Section Handlers.
Context {casters : Casters}.

(** *** createExpenditure *)

(** The object literal handed to [Expenditure.create], without [user] and
    [paidBy]:
    [{ ...expenditureData, totalAmount: totalAmount || expenditureData.amount,
       splits: splits || [] }]. *)
Definition create_input (body : Obj) : Obj :=
  let splits := body !! "splits" in
  let totalAmount := body !! "totalAmount" in
  let expenditureData := delete "splits" (delete "totalAmount" body) in
  let with_total :=
    match or_js totalAmount (expenditureData !! "amount") with
    | Some v => <["totalAmount" := v]> expenditureData
    | None => expenditureData
    end in
  match or_js splits (Some (VArr [])) with
  | Some v => <["splits" := v]> with_total
  | None => with_total
  end.

Definition createExpenditure (db : gmap N Expenditure)
    (caller fresh : ObjectId) (now : Date) (body : Obj)
  : Response * gmap N Expenditure :=
  match Expenditure_create db fresh now (create_input body) caller caller with
  | inr (expenditure, db') => (mkResponse 201 (PDoc fresh expenditure), db')
  | inl error => (catch_validation error, db)
  end.

(** *** updateExpenditure *)

(** [Expenditure.findOne({ _id: id, user: caller })]: a CastError when [id]
    is no ObjectId, else the document if there is one. *)
Definition findOne_owned (db : gmap N Expenditure) (id : string)
    (caller : ObjectId) : JsError + option (ObjectId * Expenditure) :=
  match castObjectId (VStr id) with
  | CastError => inl (QueryCastError id)
  | CastNull => inr None
  | CastOk oid =>
      match db !! oid with
      | Some e => if (user e =? caller)%N then inr (Some (oid, e)) else inr None
      | None => inr None
      end
  end.

(** [expenditure[update] = value], with the validation the next save runs
    on the modified path. *)
Definition assign (update : string) (value : Value)
    (acc : Expenditure * list (string * string))
  : Expenditure * list (string * string) :=
  let (expenditure, errs) := acc in
  let keep {A} (set : A → Expenditure → Expenditure) (r : Checked A) :=
    match r with
    | Valid v => (set v expenditure, errs)
    | Invalid m => (expenditure, errs ++ [(update, m)])
    end in
  if String.eqb update "amount" then
    keep set_amount
      (number_path "Amount is required" "Amount cannot be negative" (Some value))
  else if String.eqb update "category" then
    keep set_category
      (enum_path "Category is required" categories " is not a valid category"
         (Some value))
  else if String.eqb update "description" then
    keep set_description (description_path (Some value))
  else if String.eqb update "date" then
    keep set_date (date_value value)
  else if String.eqb update "paymentMethod" then
    keep set_paymentMethod
      (enum_path "Payment method is required" paymentMethods
         " is not a valid payment method" (Some value))
  else if String.eqb update "tags" then
    keep set_tags (tags_path (Some value))
  else if String.eqb update "location" then
    keep set_location (location_path (Some value))
  else acc.

Definition updateExpenditure (db : gmap N Expenditure) (caller : ObjectId)
    (id : string) (body : Obj) : Response * gmap N Expenditure :=
  let updates := (map_to_list body).*1 in
  let isValidOperation :=
    forallb (λ update, str_in update allowedUpdates) updates in
  if negb isValidOperation then (mkResponse 400 (PError "Invalid updates"), db)
  else
    match findOne_owned db id caller with
    | inl error => (catch_validation error, db)
    | inr None => (mkResponse 404 (PError "Expenditure not found"), db)
    | inr (Some (oid, expenditure)) =>
        let (expenditure', errs) :=
          fold_left (λ acc kv, assign kv.1 kv.2 acc) (map_to_list body)
            (expenditure, []) in
        match errs with
        | _ :: _ => (catch_validation (ValidationError errs), db)
        | [] =>
            match save db oid expenditure' with
            | inl error => (catch_validation error, db)
            | inr db' => (mkResponse 200 (PDoc oid expenditure'), db')
            end
        end
    end.

(** The paths that are not in [allowedUpdates] and that the ledger reads. *)
Definition protected_paths (e : Expenditure)
  : list Split * Q * ObjectId * option bool :=
  (splits e, totalAmount e, paidBy e, isSettled e).

(** *** markSplitAsPaid *)

(** [Expenditure.findOne({ _id, 'splits.user': caller, isSettled: false })] *)
Definition findOne_unsettled (db : gmap N Expenditure) (expenditureId : string)
    (caller : ObjectId) : JsError + option (ObjectId * Expenditure) :=
  match castObjectId (VStr expenditureId) with
  | CastError => inl (QueryCastError expenditureId)
  | CastNull => inr None
  | CastOk oid =>
      match db !! oid with
      | Some e =>
          if existsb (λ s, (split_user s =? caller)%N) (splits e)
             && bool_decide (isSettled e = Some false)
          then inr (Some (oid, e)) else inr None
      | None => inr None
      end
  end.

Definition markSplitAsPaid (db : gmap N Expenditure) (caller : ObjectId)
    (expenditureId : string) (now : Date) : Response * gmap N Expenditure :=
  match findOne_unsettled db expenditureId caller with
  | inl error => (errorHandler error, db)
  | inr None =>
      (mkResponse 404 (PError "Expenditure not found or already settled"), db)
  | inr (Some (oid, expenditure)) =>
      match list_find (λ s, split_user s = caller) (splits expenditure) with
      | None => (mkResponse 404 (PError "Split not found for this user"), db)
      | Some (i, split) =>
          let split' :=
            mkSplit (split_user split) (split_amount split) (Some true)
              (Some now) in
          let expenditure1 :=
            set_splits (<[i := split']> (splits expenditure)) expenditure in
          let allPaid := forallb (λ s, holds (paid s)) (splits expenditure1) in
          let expenditure2 :=
            if allPaid then set_isSettled (Some true) expenditure1
            else expenditure1 in
          match save db oid expenditure2 with
          | inl error => (errorHandler error, db)
          | inr db' => (mkResponse 200 (PDoc oid expenditure2), db')
          end
      end
  end.

End Handlers.

(** *** getSettlementSummary *)

(** The first [$match] stage. *)
Definition match_unsettled (U : ObjectId) (e : Expenditure) : bool :=
  bool_decide (isSettled e = Some false)
  && ((paidBy e =? U)%N || existsb (λ s, (split_user s =? U)%N) (splits e)).

(** [$lookup] of the payer in [users], then [$unwind]: a document whose payer
    has no user record is dropped. *)
Definition lookup_unwind (users : gset N) (docs : list (N * Expenditure))
  : list (N * Expenditure) :=
  filter (λ d, paidBy d.2 ∈ users) docs.

(** [$arrayElemAt: [{ $filter: splits with user = U }, 0]] *)
Definition userSplit (U : ObjectId) (e : Expenditure) : option Split :=
  head (filter (λ s, split_user s = U) (splits e)).

(** The [_id.userId] expression of the [$group] stage. *)
Definition group_userId (U : ObjectId) (e : Expenditure) : option ObjectId :=
  if (paidBy e =? U)%N then split_user <$> head (splits e)
  else Some (paidBy e).

(** The amount expression of [totalOwed] and of [transactions.amount]. *)
Definition owed_amount (U : ObjectId) (e : Expenditure) : option Q :=
  if (paidBy e =? U)%N then split_amount <$> head (splits e)
  else (λ s, fmul (split_amount s) (-1)) <$> userSplit U e.

(** [$sum] skips a missing operand. *)
Definition sum_step (acc : Q) (v : option Q) : Q :=
  match v with
  | Some q => fadd acc q
  | None => acc
  end.

(** The element [$push]ed to [transactions] for one document. *)
Definition tx_of (U : ObjectId) (d : N * Expenditure) : Transaction :=
  mkTransaction d.1 (description d.2) (owed_amount U d.2) (date d.2).

(** One document entering the [$group] stage; groups are kept in order of
    first appearance. *)
Fixpoint group_add (U : ObjectId) (d : N * Expenditure)
    (groups : list Settlement) : list Settlement :=
  match groups with
  | [] =>
      [mkSettlement (group_userId U d.2) (sum_step 0 (owed_amount U d.2))
         [tx_of U d] (paidBy d.2)]
  | g :: gs =>
      if decide (counterparty g = group_userId U d.2) then
        mkSettlement (counterparty g)
          (sum_step (totalOwed g) (owed_amount U d.2))
          (transactions g ++ [tx_of U d]) (userDetails g) :: gs
      else g :: group_add U d gs
  end.

Definition group_stage (U : ObjectId) (docs : list (N * Expenditure))
  : list Settlement :=
  fold_left (λ groups d, group_add U d groups) docs [].

(** [$sort: { totalOwed: -1 }], as a stable insertion sort: rows of equal net
    keep the order of the grouping. *)
Fixpoint insert_desc (s : Settlement) (l : list Settlement) : list Settlement :=
  match l with
  | [] => [s]
  | x :: l' =>
      if Qltb (totalOwed s) (totalOwed x) then x :: insert_desc s l'
      else s :: l
  end.

Definition sort_desc (l : list Settlement) : list Settlement :=
  foldr insert_desc [] l.

(** The pipeline of getSettlementSummary up to its [$group] stage: one row per
    counterparty, with its net amount. *)
Definition settlement_groups (db : gmap N Expenditure) (users : gset N)
    (U : ObjectId) : list Settlement :=
  let matched :=
    filter (λ d, match_unsettled U d.2 = true) (map_to_list db) in
  group_stage U (lookup_unwind users matched).

(** The whole pipeline: the rows with [totalOwed] not 0, sorted. *)
Definition aggregate_settlements (db : gmap N Expenditure) (users : gset N)
    (U : ObjectId) : list Settlement :=
  sort_desc
    (filter (λ s, Qneb (totalOwed s) 0 = true) (settlement_groups db users U)).

Definition getSettlementSummary (db : gmap N Expenditure) (users : gset N)
    (caller : ObjectId) : Response :=
  let summary := aggregate_settlements db users caller in
  mkResponse 200 (PSettlements
    (mkSummary summary
       (fold_left (λ sum s, fadd sum (totalOwed s))
          (filter (λ s, Qgtb (totalOwed s) 0 = true) summary) 0)
       (fold_left (λ sum s, fadd sum (Qabs (totalOwed s)))
          (filter (λ s, Qltb (totalOwed s) 0 = true) summary) 0))).

(** ** The other handlers of routes/expenditures *)

(** The answer of deleteExpenditure: [{ message }] with status 200, or one of
    the error responses. *)
Inductive DeleteReply :=
| Deleted (message : string)
| NotDeleted (response : Response).

Section OwnerHandlers.
Context {casters : Casters}.

(** *** getExpenditure *)

Definition getExpenditure (db : gmap N Expenditure) (caller : ObjectId)
    (id : string) : Response :=
  match findOne_owned db id caller with
  | inl error => errorHandler error
  | inr None => mkResponse 404 (PError "Expenditure not found")
  | inr (Some (oid, expenditure)) => mkResponse 200 (PDoc oid expenditure)
  end.

(** *** deleteExpenditure *)

(** [Expenditure.findOneAndDelete({ _id: id, user: caller })] *)
Definition deleteExpenditure (db : gmap N Expenditure) (caller : ObjectId)
    (id : string) : DeleteReply * gmap N Expenditure :=
  match findOne_owned db id caller with
  | inl error => (NotDeleted (errorHandler error), db)
  | inr None =>
      (NotDeleted (mkResponse 404 (PError "Expenditure not found")), db)
  | inr (Some (oid, _)) =>
      (Deleted "Expenditure deleted successfully", delete oid db)
  end.

(** *** Sequences of requests *)

(** The requests that write to the collection, with what the handler reads
    of each: the authenticated caller, the route parameter, the body, the
    time of the call and, for a creation, the [_id] the driver draws. *)
Inductive Request :=
| PostExpenditure (caller fresh : ObjectId) (now : Date) (body : Obj)
| PatchExpenditure (caller : ObjectId) (id : string) (body : Obj)
| PostMarkPaid (caller : ObjectId) (expenditureId : string) (now : Date)
| DeleteExpenditure (caller : ObjectId) (id : string).

(** The collection after one request. *)
Definition handle (db : gmap N Expenditure) (req : Request)
  : gmap N Expenditure :=
  match req with
  | PostExpenditure caller fresh now body =>
      (createExpenditure db caller fresh now body).2
  | PatchExpenditure caller id body => (updateExpenditure db caller id body).2
  | PostMarkPaid caller id now => (markSplitAsPaid db caller id now).2
  | DeleteExpenditure caller id => (deleteExpenditure db caller id).2
  end.

(** The collection after a sequence of requests, from an empty one. *)
Definition serve (reqs : list Request) : gmap N Expenditure :=
  fold_left handle reqs ∅.

End OwnerHandlers.

(** ** The listing and the statistics (getExpenditures, getStatistics) *)

(** What the JavaScript runtime makes of a query-string parameter:
    [parseInt] and [parseFloat] ([None] is NaN) and [new Date(s)] ([None] is
    an Invalid Date). *)
Class Runtime := {
  parseInt : string → option Z;
  parseFloat : string → option Q;
  newDate : string → option Date;
  (** an Invalid Date inside an aggregation pipeline, which Mongoose does
      not cast: the error or the date the driver makes of it *)
  invalidDate : JsError + Date;
  (** the error with which a query of negative [skip] is refused *)
  negativeSkip : JsError
}.

(** [req.query], each parameter a string or absent. *)
Record ListQuery := mkListQuery {
  q_page : option string;
  q_limit : option string;
  q_startDate : option string;
  q_endDate : option string;
  q_category : option string;
  q_tag : option string;
  q_minAmount : option string;
  q_maxAmount : option string;
  q_splitType : option string;
  q_isSettled : option string
}.

(** The [query] object once built: the bounds and values that are set. *)
Record Filter := mkFilter {
  f_date_gte : option Date;
  f_date_lte : option Date;
  f_category : option string;
  f_tags : option string;
  f_total_gte : option Q;
  f_total_lte : option Q;
  f_splitType : option string;
  f_isSettled : option bool
}.

Record Pagination := mkPagination {
  total : Z;
  page : Z;
  pages : Z;
  hasMore : bool
}.

(** The result of the [$group] with [_id: null] over an amount;
    [sum_amount] is its [totalAmount]. *)
Record Summary := mkAmounts {
  sum_amount : Q;
  avgAmount : Q;
  maxAmount : Q;
  minAmount : Q;
  count : Z
}.

(** [splitSummary]; [totalOwedToOthers] is its [totalOwed], and [balance]
    is a key of the default object only. *)
Record SplitSummary := mkSplitSummary {
  totalPaid : Q;
  totalOwedToOthers : Q;
  balance : option Q
}.

Record ExpenditureList := mkList {
  expenditures : list (N * Expenditure);
  pagination : Pagination;
  summary : Summary;
  splitSummary : SplitSummary
}.

Inductive ListReply :=
| Listed (body : ExpenditureList)            (* res.json({ ... }), status 200 *)
| NotListed (response : Response).

(** One row of [byCategory] or [byMonth]: [_id], [totalAmount], [count]. *)
Record Bucket (K : Type) := mkBucket {
  bucket_id : K;
  bucket_total : Q;
  bucket_count : Z
}.
Arguments mkBucket {K} _ _ _.
Arguments bucket_id {K} _.
Arguments bucket_total {K} _.
Arguments bucket_count {K} _.

Record Statistics := mkStatistics {
  overall : Summary;
  byCategory : list (Bucket string);
  byMonth : list (Bucket (Z * Z))
}.

Inductive StatisticsReply :=
| Computed (body : Statistics)
| NotComputed (response : Response).

(** The CastError of a query whose date bound is an Invalid Date. *)
Definition DateCastError : JsError :=
  mkError "CastError"
    ("Cast to date failed for value " +:+ dquote +:+ "Invalid Date" +:+ dquote
     +:+ " (type Date) at path " +:+ dquote +:+ "date" +:+ dquote
     +:+ " for model " +:+ dquote +:+ "Expenditure" +:+ dquote)
    None [].

(** A parameter that is given and not the empty string ([if (s)]). *)
Definition present (s : option string) : option string :=
  match s with
  | Some s => if String.eqb s "" then None else Some s
  | None => None
  end.

(** A number that is neither NaN nor 0 ([if (n)]). *)
Definition nonzero (n : option Q) : option Q :=
  match n with
  | Some q => if Qeq_bool q 0 then None else Some q
  | None => None
  end.

(** [$max] and [$min] of two numbers. *)
Definition Qmax2 (a b : Q) : Q := if Qle_bool a b then b else a.
Definition Qmin2 (a b : Q) : Q := if Qle_bool a b then a else b.

(** [{ $sum, $avg, $max, $min, $sum: 1 }] over the amounts of the matched
    documents, in the order in which they reach the stage, or the default
    object when there is none. *)
Definition summarize (amounts : list Q) : Summary :=
  match amounts with
  | [] => mkAmounts 0 0 0 0 0
  | a :: rest =>
      let sum := fold_left fadd amounts 0 in
      mkAmounts sum (fdiv sum (inject_Z (Z.of_nat (length amounts))))
        (fold_left Qmax2 rest a) (fold_left Qmin2 rest a)
        (Z.of_nat (length amounts))
  end.

(** [.sort({ date: -1 })], as a stable insertion sort: documents of equal
    date, whose order the server leaves open, keep the order of the
    collection, the same on every request. *)
Fixpoint insert_by_date (d : N * Expenditure) (l : list (N * Expenditure))
  : list (N * Expenditure) :=
  match l with
  | [] => [d]
  | x :: l' =>
      if (date d.2 <? date x.2)%Z then x :: insert_by_date d l' else d :: l
  end.

Definition sort_by_date (l : list (N * Expenditure))
  : list (N * Expenditure) :=
  foldr insert_by_date [] l.

(** [.skip(skip).limit(limit)]: a negative skip is refused with [refusal];
    the driver sends a negative limit as its absolute value. *)
Definition skip_limit {A} (refusal : JsError) (skip limit : Z) (l : list A)
  : JsError + list A :=
  if (skip <? 0)%Z then inl refusal
  else inr (take (Z.to_nat (Z.abs limit)) (drop (Z.to_nat skip) l)).

(** [Math.ceil(total / limit)] for [limit] not 0. *)
Definition ceil_div (total limit : Z) : Z := (- ((- total) / limit))%Z.

(** [splits] has an element of user [U]. *)
Definition has_split (U : ObjectId) (e : Expenditure) : bool :=
  existsb (λ s, (split_user s =? U)%N) (splits e).

(** Whether a document matches the [query] object. *)
Definition matches (U : ObjectId) (f : Filter) (e : Expenditure) : bool :=
  ((user e =? U)%N || has_split U e)
  && match f_date_gte f with Some d => (d <=? date e)%Z | None => true end
  && match f_date_lte f with Some d => (date e <=? d)%Z | None => true end
  && match f_category f with
     | Some c => String.eqb (category e) c
     | None => true
     end
  && match f_tags f with Some t => str_in t (tags e) | None => true end
  && match f_total_gte f with
     | Some q => Qle_bool q (totalAmount e)
     | None => true
     end
  && match f_total_lte f with
     | Some q => Qle_bool (totalAmount e) q
     | None => true
     end
  && match f_splitType f with
     | Some "paid" => (paidBy e =? U)%N
     | Some "owed" => has_split U e && negb (paidBy e =? U)%N
     | _ => true
     end
  && match f_isSettled f with
     | Some b => bool_decide (isSettled e = Some b)
     | None => true
     end.

(** The [$group] stage of [splitSummary] over the unsettled expenditures of
    the caller, or the default object when there is none. *)
Definition split_summary (db : gmap N Expenditure) (U : ObjectId)
  : SplitSummary :=
  let matched := filter (λ d, match_unsettled U d.2 = true) (map_to_list db) in
  match matched with
  | [] => mkSplitSummary 0 0 (Some 0)
  | _ =>
      mkSplitSummary
        (fold_left
           (λ sum d,
              fadd sum (if (paidBy d.2 =? U)%N then totalAmount d.2 else 0))
           matched 0)
        (fold_left
           (λ sum d,
              if (paidBy d.2 =? U)%N then fadd sum 0
              else sum_step sum (split_amount <$> userSplit U d.2))
           matched 0)
        None
  end.

(** One document entering a [$group] by key. *)
Fixpoint bucket_add {K} `{EqDecision K} (k : K) (a : Q)
    (buckets : list (Bucket K)) : list (Bucket K) :=
  match buckets with
  | [] => [mkBucket k (fadd 0 a) 1]
  | b :: bs =>
      if decide (bucket_id b = k)
      then mkBucket k (fadd (bucket_total b) a) (bucket_count b + 1) :: bs
      else b :: bucket_add k a bs
  end.

Definition group_by {K} `{EqDecision K} (key : Expenditure → K)
    (docs : list (N * Expenditure)) : list (Bucket K) :=
  fold_left (λ buckets d, bucket_add (key d.2) (amount d.2) buckets) docs [].

(** A stable insertion sort of rows, [before a b] telling that [a] must come
    before [b]. *)
Fixpoint insert_row {K} (before : Bucket K → Bucket K → bool) (r : Bucket K)
    (l : list (Bucket K)) : list (Bucket K) :=
  match l with
  | [] => [r]
  | x :: l' => if before x r then x :: insert_row before r l' else r :: l
  end.

Definition sort_rows {K} (before : Bucket K → Bucket K → bool)
    (l : list (Bucket K)) : list (Bucket K) :=
  foldr (insert_row before) [] l.

(** [$sort: { totalAmount: -1 }] *)
Definition by_total_desc {K} (a b : Bucket K) : bool :=
  Qltb (bucket_total b) (bucket_total a).

(** [$sort: { '_id.year': -1, '_id.month': -1 }] *)
Definition by_month_desc (a b : Bucket (Z * Z)) : bool :=
  ((bucket_id b).1 <? (bucket_id a).1)%Z
  || (((bucket_id b).1 =? (bucket_id a).1)%Z
      && ((bucket_id b).2 <? (bucket_id a).2)%Z).

(** [$year] and [$month] of a date, in UTC: the civil date of the day
    number, counted from 1970-01-01. *)
Definition civil_of_ms (ms : Z) : Z * Z :=
  let days := (ms / 86400000)%Z in
  let z := (days + 719468)%Z in
  let era := (z / 146097)%Z in
  let doe := (z mod 146097)%Z in
  let yoe := ((doe - doe / 1460 + doe / 36524 - doe / 146096) / 365)%Z in
  let doy := (doe - (365 * yoe + yoe / 4 - yoe / 100))%Z in
  let mp := ((5 * doy + 2) / 153)%Z in
  let m := (if mp <? 10 then mp + 3 else mp - 9)%Z in
  let y := (yoe + era * 400 + (if m <=? 2 then 1 else 0))%Z in
  (y, m).

Section Listing.
Context {runtime : Runtime}.

(** [parseInt(s) || default] *)
Definition int_or (s : option string) (default : Z) : Z :=
  match s with
  | Some s =>
      match parseInt s with
      | Some n => if (n =? 0)%Z then default else n
      | None => default
      end
  | None => default
  end.

(** [s ? parseFloat(s) : undefined], then [if (n)]. *)
Definition bound_of (s : option string) : option Q :=
  match present s with
  | Some s => nonzero (parseFloat s)
  | None => None
  end.

(** A date bound: absent, or the cast of [new Date(s)], which fails for an
    Invalid Date. *)
Definition date_bound (s : option string) : JsError + option Date :=
  match present s with
  | Some s =>
      match newDate s with
      | Some d => inr (Some d)
      | None => inl DateCastError
      end
  | None => inr None
  end.

(** The [query] of getExpenditures, but for the caller's identity. *)
Definition build_filter (q : ListQuery) : JsError + Filter :=
  match date_bound (q_startDate q), date_bound (q_endDate q) with
  | inr gte, inr lte =>
      inr (mkFilter gte lte (present (q_category q)) (present (q_tag q))
             (bound_of (q_minAmount q)) (bound_of (q_maxAmount q))
             (q_splitType q)
             (match q_isSettled q with
              | Some s => Some (String.eqb s "true")
              | None => None
              end))
  | inl error, _ => inl error
  | _, inl error => inl error
  end.

(** The documents are listed as they are stored, before [populate] puts the
    user records in the place of [paidBy] and [splits.user]. *)
Definition getExpenditures (db : gmap N Expenditure) (caller : ObjectId)
    (q : ListQuery) : ListReply :=
  let page := int_or (q_page q) 1 in
  let limit := int_or (q_limit q) 10 in
  match build_filter q with
  | inl error => NotListed (errorHandler error)
  | inr query =>
      let matched :=
        filter (λ d, matches caller query d.2 = true) (map_to_list db) in
      let total := Z.of_nat (length matched) in
      match
        skip_limit negativeSkip ((page - 1) * limit) limit
          (sort_by_date matched)
      with
      | inl error => NotListed (errorHandler error)
      | inr expenditures =>
          Listed
            (mkList expenditures
               (mkPagination total page (ceil_div total limit)
                  (page * limit <? total)%Z)
               (summarize ((λ d, totalAmount d.2) <$> matched))
               (split_summary db caller))
      end
  end.

(** The [query] of getStatistics: the caller's own documents in the range. *)
Definition own_in_range (U : ObjectId) (gte lte : option Date)
    (e : Expenditure) : bool :=
  (user e =? U)%N
  && match gte with Some d => (d <=? date e)%Z | None => true end
  && match lte with Some d => (date e <=? d)%Z | None => true end.

(** A date bound of a pipeline, which goes to the driver as it is. *)
Definition pipeline_bound (s : option string) : JsError + option Date :=
  match present s with
  | Some s =>
      match newDate s with
      | Some d => inr (Some d)
      | None =>
          match invalidDate with
          | inl error => inl error
          | inr d => inr (Some d)
          end
      end
  | None => inr None
  end.

Definition getStatistics (db : gmap N Expenditure) (caller : ObjectId)
    (startDate endDate : option string) : StatisticsReply :=
  match pipeline_bound startDate, pipeline_bound endDate with
  | inr gte, inr lte =>
      let matched :=
        filter (λ d, own_in_range caller gte lte d.2 = true)
          (map_to_list db) in
      Computed
        (mkStatistics
           (summarize ((λ d, amount d.2) <$> matched))
           (sort_rows by_total_desc (group_by category matched))
           (sort_rows by_month_desc
              (group_by (λ e, civil_of_ms (date e)) matched)))
  | inl error, _ => NotComputed (errorHandler error)
  | _, inl error => NotComputed (errorHandler error)
  end.

End Listing.

(** ** The authentication middleware (auth, generateToken) *)

(** What [jwt.verify(token, JWT_SECRET)] does: it returns the payload, whose
    [userId] the middleware reads, or throws. *)
Inductive Verdict :=
| Verified (userId : string)
| TokenExpiredError
| JsonWebTokenError
| OtherError.

Class Jwt := {
  jwt_sign : string → string;          (* jwt.sign({ userId }, JWT_SECRET, options) *)
  jwt_verify : string → Verdict
}.

(** How the middleware ends: [next()] with [req.user] and [req.token] set,
    or [res.status(status).json({ error })]. *)
Inductive AuthOutcome (User : Type) :=
| Next (id : ObjectId) (user : User) (token : string)
| Refused (status : N) (error : string).
Arguments Next {User} _ _ _.
Arguments Refused {User} _ _.

(** [s.startsWith(p)] *)
Fixpoint startsWith (p s : string) : bool :=
  match p, s with
  | EmptyString, _ => true
  | String a p', String b s' => Ascii.eqb a b && startsWith p' s'
  | String _ _, EmptyString => false
  end.

(** [s] without its first [n] characters. *)
Fixpoint string_drop (n : nat) (s : string) : string :=
  match n, s with
  | O, _ => s
  | S n', String _ s' => string_drop n' s'
  | S _, EmptyString => EmptyString
  end.

(** [s.replace(p, r)] for a string pattern: the first occurrence only. *)
Fixpoint replace (p r s : string) : string :=
  if startsWith p s then r +:+ string_drop (String.length p) s
  else
    match s with
    | EmptyString => EmptyString
    | String c s' => String c (replace p r s')
    end.

Section Auth.
Context {casters : Casters} {jwt : Jwt}.
Variable User : Type.

Definition generateToken (userId : string) : string := jwt_sign userId.

Definition auth (users : gmap N User) (authHeader : option string)
  : AuthOutcome User :=
  match present authHeader with
  | None => Refused 401 "No authorization token provided"
  | Some authHeader =>
      if negb (startsWith "Bearer " authHeader)
      then Refused 401 "Invalid token format. Use Bearer scheme"
      else
        let token := replace "Bearer " "" authHeader in
        match jwt_verify token with
        | Verified userId =>
            match castObjectId (VStr userId) with
            | CastOk id =>
                match users !! id with
                | Some user => Next id user token
                | None => Refused 401 "User not found"
                end
            | CastNull => Refused 401 "User not found"
            | CastError =>
                Refused 500 "Internal server error during authentication"
            end
        | TokenExpiredError => Refused 401 "Token has expired"
        | JsonWebTokenError => Refused 401 "Invalid token"
        | OtherError =>
            Refused 500 "Internal server error during authentication"
        end
  end.

End Auth.

(** ** A concrete instance of the casts

    The casts of JSON values that need no coercion: a number for a Number
    path, a string for a String path, 24 hexadecimal digits for an ObjectId,
    a number of milliseconds for a Date.  It is used to run the handlers on
    concrete requests. *)

Definition hex_digit (c : Ascii.ascii) : option N :=
  let n := Ascii.N_of_ascii c in
  if ((48 <=? n) && (n <=? 57))%N then Some (n - 48)%N
  else if ((97 <=? n) && (n <=? 102))%N then Some (n - 87)%N
  else if ((65 <=? n) && (n <=? 70))%N then Some (n - 55)%N
  else None.

Fixpoint hex_value (s : string) (acc : N) : option N :=
  match s with
  | EmptyString => Some acc
  | String c s' =>
      match hex_digit c with
      | Some d => hex_value s' (16 * acc + d)%N
      | None => None
      end
  end.

Definition parse_oid (s : string) : option N :=
  if (String.length s =? 24)%nat then hex_value s 0%N else None.

Fixpoint strings_of (l : list Value) : option (list string) :=
  match l with
  | [] => Some []
  | VStr s :: l' => cons s <$> strings_of l'
  | _ => None
  end.

#[global] Instance json_casts : Casters := {|
  castNumber v :=
    match v with
    | VNum q => CastOk (double q)
    | VNull => CastNull
    | _ => CastError
    end;
  castString v :=
    match v with VStr s => CastOk s | VNull => CastNull | _ => CastError end;
  castBoolean v :=
    match v with VBool b => CastOk b | VNull => CastNull | _ => CastError end;
  castDate v :=
    match v with
    | VNum q =>
        CastOk (if Qle_bool 0 q then Qfloor (double q)
                else Qceiling (double q))
    | VNull => CastNull
    | _ => CastError
    end;
  castObjectId v :=
    match v with
    | VStr s => match parse_oid s with Some o => CastOk o | None => CastError end
    | VNull => CastNull
    | _ => CastError
    end;
  castStrings v :=
    match v with
    | VArr l => match strings_of l with Some ss => CastOk ss | None => CastError end
    | VNull => CastNull
    | _ => CastError
    end;
  castArray v :=
    match v with VArr l => CastOk l | VNull => CastNull | _ => CastOk [v] end;
  castObject v :=
    match v with VObj o => CastOk o | _ => CastError end
|}.

(** ** Sample data *)

Definition payer : ObjectId := 1%N.
Definition friend : ObjectId := 2%N.
Definition guest : ObjectId := 3%N.
Definition payer_hex : string := "000000000000000000000001".
Definition friend_hex : string := "000000000000000000000002".
Definition guest_hex : string := "000000000000000000000003".
Definition dinner_id : ObjectId := 10%N.
Definition dinner_hex : string := "00000000000000000000000a".

(** [{ user, amount, paid }] *)
Definition split_json (user : string) (amount : Q) (paid : bool) : Value :=
  VObj (<["user" := VStr user]>
        (<["amount" := VNum amount]> (<["paid" := VBool paid]> ∅))).

(** The body of the route tests, for a bill of [total], without splits. *)
Definition dinner_body (total : Q) : gmap string Value :=
  <["amount" := VNum total]>
  (<["category" := VStr "food"]>
   (<["description" := VStr "Dinner"]>
    (<["date" := VNum 1700000000000]>
     (<["paymentMethod" := VStr "cash"]>
      (<["totalAmount" := VNum total]> ∅))))).

Definition dinner_with (total : Q) (splits : list Value) : gmap string Value :=
  <["splits" := VArr splits]> (dinner_body total).

(** A stored bill, paid by [payer]. *)
Definition dinner_doc (splits : list Split) (settled : bool) : Expenditure :=
  mkExpenditure payer 100 "food" "Dinner" 1700000000000 "cash" [] None
    splits 100 payer (Some settled).

(** A collection holding that bill alone. *)
Definition dinner_db (splits : list Split) (settled : bool)
  : gmap N Expenditure :=
  {[dinner_id := dinner_doc splits settled]}.

(** ** The split check, as the specification writes it *)

(** The sum of the amounts of a split list, in exact arithmetic. *)
Definition sum_amounts (S : list Split) : Q :=
  foldr (λ s acc, split_amount s + acc) 0 S.

(** The amounts of a split list are within the tolerance of the total, in
    the arithmetic of the runtime: the sum from left to right, the difference
    and the literal 0.01 are binary64 values. *)
Definition within_tolerance (S : list Split) (T : Q) : Prop :=
  Qabs (fsub (fsum (split_amount <$> S)) T) <= double 0.01.

(** ** The sums of the settlement summary, as the specification writes them *)

(** The nets of the rows that are positive, and the absolute values of those
    that are negative, in the order of the rows. *)
Definition positive_nets (rows : list Settlement) : list Q :=
  omap (λ s, if Qgtb (totalOwed s) 0 then Some (totalOwed s) else None) rows.

Definition negative_nets_abs (rows : list Settlement) : list Q :=
  omap (λ s, if Qltb (totalOwed s) 0 then Some (Qabs (totalOwed s)) else None)
    rows.

(** Descending order of net amount. *)
Definition net_ge (a b : Settlement) : Prop := totalOwed b <= totalOwed a.

(** The users of the sample data. *)
Definition everyone : gset N := {[payer; friend; guest]}.

(** A ledger with two open bills: the dinner paid by [payer], of which the
    friend owes 60, and a taxi paid by [guest], of which [payer] owes 25. *)
Definition taxi_id : ObjectId := 11%N.

Definition taxi_doc : Expenditure :=
  mkExpenditure guest 50 "transportation" "Taxi" 1700000100000 "cash" [] None
    [mkSplit payer 25 (Some false) None; mkSplit guest 25 (Some true) None] 50 guest (Some false).

Definition two_bills : gmap N Expenditure :=
  <[taxi_id := taxi_doc]>
    (dinner_db [mkSplit friend 60 (Some false) None; mkSplit payer 40 (Some true) None]
       false).

(** Ledgers on which binary64 shows.  An open bill of one split: [who] paid
    [q] and [first] owes it. *)
Definition open_bill (who first : ObjectId) (q : Q) : Expenditure :=
  mkExpenditure who q "food" "Dinner" 1700000000000 "cash" [] None
    [mkSplit first q (Some false) None] q who (Some false).

(** The friend owes [payer] 10^16 and 1, and [payer] owes the friend 10^16
    and 1; the documents reach the aggregator in the order 10, 12, 13, 11. *)
Definition cancelling_bills : gmap N Expenditure :=
  {[ 10%N := open_bill payer friend 10000000000000000;
     12%N := open_bill payer friend 1;
     13%N := open_bill friend payer 10000000000000000;
     11%N := open_bill friend payer 1 ]}.

(** Three participants owe [payer] 10^16, 1 and 1. *)
Definition large_and_small_bills : gmap N Expenditure :=
  {[ 10%N := open_bill payer friend 10000000000000000;
     11%N := open_bill payer guest 1;
     12%N := open_bill payer 4%N 1 ]}.

(** The friend owes [payer] 0.1 and 0.2, and [payer] owes the friend 0.3. *)
Definition tenths_bills : gmap N Expenditure :=
  {[ 10%N := open_bill payer friend (double 0.1);
     12%N := open_bill payer friend (double 0.2);
     13%N := open_bill friend payer (double 0.3) ]}.

(** The body of the summary. *)
Definition summary_of (r : Response) : SettlementSummary :=
  match payload r with
  | PSettlements summary => summary
  | _ => mkSummary [] 0 0
  end.

(** A sum in exact arithmetic. *)
Definition exact_sum (l : list Q) : Q := foldr Qplus 0 l.

(** ** What the handlers keep true of a stored document *)

(** What the validators of expenditureSchema and of splitSchema demand. *)
Definition schema_valid (e : Expenditure) : Prop :=
  0 <= amount e
  ∧ 0 <= totalAmount e
  ∧ category e ∈ categories
  ∧ paymentMethod e ∈ paymentMethods
  ∧ description e ≠ ""
  ∧ (js_length (description e) ≤ 500)%nat
  ∧ Forall (λ tag, (js_length tag ≤ 20)%nat) (tags e)
  ∧ (∀ l, location e = Some l → (js_length l ≤ 100)%nat)
  ∧ Forall (λ s, 0 <= split_amount s) (splits e).

(** Valid for the schema, accepted by the save hook, and paid by its owner. *)
Definition ledger_ok (e : Expenditure) : Prop :=
  schema_valid e
  ∧ (splits e = [] ∨ within_tolerance (splits e) (totalAmount e))
  ∧ paidBy e = user e.

(** A participant holds two splits of the bill and the later one is unpaid. *)
Definition shadowed_split (e : Expenditure) : Prop :=
  ∃ (i j : nat) (s t : Split),
    (i < j)%nat
    ∧ splits e !! i = Some s
    ∧ splits e !! j = Some t
    ∧ split_user s = split_user t
    ∧ holds (paid t) = false.

(** The documents that reach the [$group] stage of the aggregator: the
    unsettled bills that [U] paid or holds a split of, whose payer has a user
    record. *)
Definition open_bills (db : gmap N Expenditure) (users : gset N)
    (U : ObjectId) : list (N * Expenditure) :=
  filter (λ d, paidBy d.2 ∈ users)
    (filter (λ d, match_unsettled U d.2 = true) (map_to_list db)).

(** What the [$group] stage makes of [docs]: one row per counterparty that
    occurs, holding the transactions of the documents of that counterparty in
    their order, the sum of their amounts, a missing amount counting for
    nothing, and the payer of the first of them. *)
Definition groups_of (U : ObjectId) (docs : list (N * Expenditure))
    (groups : list Settlement) : Prop :=
  NoDup (counterparty <$> groups)
  ∧ (∀ g, g ∈ groups →
       transactions g
       = tx_of U <$> filter (λ d, group_userId U d.2 = counterparty g) docs
       ∧ totalOwed g = fsum (omap tx_amount (transactions g))
       ∧ Some (userDetails g)
         = (λ d : N * Expenditure, paidBy d.2)
             <$> head (filter (λ d, group_userId U d.2 = counterparty g) docs)
       ∧ transactions g ≠ [])
  ∧ (∀ d, d ∈ docs → group_userId U d.2 ∈ counterparty <$> groups).

(** ** Sample requests *)

(** The bill of the route tests as stored: 60 owed by the friend, the
    payer's own 40 paid. *)
Definition dinner_splits : list Split :=
  [mkSplit friend 60 (Some false) None; mkSplit payer 40 (Some true) None].

Definition dinner_request : gmap string Value :=
  dinner_with 100 [split_json friend_hex 60 false;
                   split_json payer_hex 40 true].

(** A PATCH of the description and the amount. *)
Definition rename_body : gmap string Value :=
  <["description" := VStr "  Team dinner "]> (<["amount" := VNum 120]> ∅).

(** The payer records the dinner and renames it; the friend pays. *)
Definition session : list Request :=
  [PostExpenditure payer dinner_id 0 dinner_request;
   PatchExpenditure payer dinner_hex rename_body;
   PostMarkPaid friend dinner_hex 77].

(** The dinner at the end of [session]. *)
Definition dinner_settled : Expenditure :=
  mkExpenditure payer 120 "food" "Team dinner" 1700000000000 "cash" [] None
    [mkSplit friend 60 (Some true) (Some 77%Z); mkSplit payer 40 (Some true) None] 100
    payer (Some true).

(** [session] before the friend pays. *)
Definition open_session : list Request :=
  [PostExpenditure payer dinner_id 0 dinner_request;
   PatchExpenditure payer dinner_hex rename_body].

Definition dinner_renamed : Expenditure :=
  mkExpenditure payer 120 "food" "Team dinner" 1700000000000 "cash" [] None
    dinner_splits 100 payer (Some false).

(** A bill that lists the friend twice. *)
Definition twice_listed : Expenditure :=
  dinner_doc [mkSplit friend 30 (Some false) None; mkSplit friend 30 (Some false) None;
              mkSplit payer 40 (Some true) None] false.

(** ** A concrete runtime *)

Definition digit_of (c : Ascii.ascii) : option Z :=
  let n := Z.of_N (Ascii.N_of_ascii c) in
  if ((48 <=? n) && (n <=? 57))%Z then Some (n - 48)%Z else None.

(** The number written by the leading digits of [s], how many they are, and
    what follows them. *)
Fixpoint read_digits (s : string) (acc : Z) (n : nat) : Z * nat * string :=
  match s with
  | String c s' =>
      match digit_of c with
      | Some d => read_digits s' (10 * acc + d)%Z (S n)
      | None => (acc, n, s)
      end
  | EmptyString => (acc, n, s)
  end.

(** Whether [c] is the character of code [n]. *)
Definition is_char (n : N) (c : Ascii.ascii) : bool :=
  (Ascii.N_of_ascii c =? n)%N.

Definition read_sign (s : string) : bool * string :=
  match s with
  | String c s' =>
      if is_char 45 c then (true, s')          (* - *)
      else if is_char 43 c then (false, s')    (* + *)
      else (false, s)
  | EmptyString => (false, s)
  end.

(** [parseInt] on decimal notation. *)
Definition decimal_parseInt (s : string) : option Z :=
  let (negative, s) := read_sign (trim_start s) in
  let '(v, n, _) := read_digits s 0 0 in
  if (n =? 0)%nat then None else Some (if negative then - v else v)%Z.

(** [parseFloat] on decimal notation without exponent: the double nearest
    to the number written. *)
Definition decimal_parseFloat (s : string) : option Q :=
  let (negative, s) := read_sign (trim_start s) in
  let '(int, n, rest) := read_digits s 0 0 in
  let '(frac, k) :=
    match rest with
    | String c rest' =>
        if is_char 46 c                          (* . *)
        then let '(f, k, _) := read_digits rest' 0 0 in (f, k)
        else (0%Z, O)
    | EmptyString => (0%Z, O)
    end in
  if (n + k =? 0)%nat then None
  else
    let q := Qmake (int * 10 ^ Z.of_nat k + frac)
               (Z.to_pos (10 ^ Z.of_nat k)) in
    Some (double (if negative then - q else q)).

(** The day number of a civil date, counted from 1970-01-01. *)
Definition days_from_civil (y m d : Z) : Z :=
  let y := (if m <=? 2 then y - 1 else y)%Z in
  let era := (y / 400)%Z in
  let yoe := (y - era * 400)%Z in
  let doy := ((153 * (if 2 <? m then m - 3 else m + 9) + 2) / 5 + d - 1)%Z in
  let doe := (yoe * 365 + yoe / 4 - yoe / 100 + doy)%Z in
  (era * 146097 + doe - 719468)%Z.

(** [new Date(s)] on the date-only form YYYY-MM-DD, which is UTC midnight;
    a day up to 31 is accepted in every month and counted on from the first
    of the month. *)
Definition iso_newDate (s : string) : option Date :=
  let '(y, ny, s1) := read_digits s 0 0 in
  match s1 with
  | String c1 s2 =>
      let '(m, nm, s3) := read_digits s2 0 0 in
      match s3 with
      | String c2 s4 =>
          let '(d, nd, s5) := read_digits s4 0 0 in
          if is_char 45 c1 && is_char 45 c2
             && (ny =? 4)%nat && (nm =? 2)%nat && (nd =? 2)%nat
             && String.eqb s5 ""
             && ((1 <=? m) && (m <=? 12) && (1 <=? d) && (d <=? 31))%Z
          then Some (days_from_civil y m d * 86400000)%Z
          else None
      | EmptyString => None
      end
  | EmptyString => None
  end.

(** The decimal and ISO date-only readings; the driver writes the time value
    of an Invalid Date, NaN, as 0. *)
#[global] Instance decimal_runtime : Runtime := {|
  parseInt := decimal_parseInt;
  parseFloat := decimal_parseFloat;
  newDate := iso_newDate;
  invalidDate := inr 0%Z;
  negativeSkip :=
    mkError "MongoServerError" "skip value must be non-negative" None []
|}.

(** A token that carries its payload in the clear, for running [auth]. *)
#[global] Instance plain_jwt : Jwt := {|
  jwt_sign userId := "signed." +:+ userId;
  jwt_verify token :=
    if startsWith "signed." token then Verified (string_drop 7 token)
    else if startsWith "expired." token then TokenExpiredError
    else JsonWebTokenError
|}.

(** ** Queries *)

Definition no_query : ListQuery :=
  mkListQuery None None None None None None None None None None.

Definition with_page (s : option string) (q : ListQuery) : ListQuery :=
  mkListQuery s (q_limit q) (q_startDate q) (q_endDate q) (q_category q)
    (q_tag q) (q_minAmount q) (q_maxAmount q) (q_splitType q) (q_isSettled q).

Definition with_limit (s : option string) (q : ListQuery) : ListQuery :=
  mkListQuery (q_page q) s (q_startDate q) (q_endDate q) (q_category q)
    (q_tag q) (q_minAmount q) (q_maxAmount q) (q_splitType q) (q_isSettled q).

Definition with_minAmount (s : option string) (q : ListQuery) : ListQuery :=
  mkListQuery (q_page q) (q_limit q) (q_startDate q) (q_endDate q)
    (q_category q) (q_tag q) s (q_maxAmount q) (q_splitType q) (q_isSettled q).

Definition with_maxAmount (s : option string) (q : ListQuery) : ListQuery :=
  mkListQuery (q_page q) (q_limit q) (q_startDate q) (q_endDate q)
    (q_category q) (q_tag q) (q_minAmount q) s (q_splitType q) (q_isSettled q).

Definition with_isSettled (s : option string) (q : ListQuery) : ListQuery :=
  mkListQuery (q_page q) (q_limit q) (q_startDate q) (q_endDate q)
    (q_category q) (q_tag q) (q_minAmount q) (q_maxAmount q) (q_splitType q) s.

(** The documents that match a query, as [find] and [countDocuments] see
    them. *)
Definition matching (db : gmap N Expenditure) (U : ObjectId) (f : Filter)
  : list (N * Expenditure) :=
  filter (λ d, matches U f d.2 = true) (map_to_list db).

(** The body of a listing, none when the request failed. *)
Definition listed (r : ListReply) : list (N * Expenditure) :=
  match r with
  | Listed body => expenditures body
  | NotListed _ => []
  end.

(** The order of a listing: no document before a newer one. *)
Definition newer_first (a b : N * Expenditure) : Prop :=
  (date b.2 ≤ date a.2)%Z.

(** The caller's own documents in a range of dates, as [$match] sees them. *)
Definition own_docs (db : gmap N Expenditure) (U : ObjectId)
    (gte lte : option Date) : list (N * Expenditure) :=
  filter (λ d, own_in_range U gte lte d.2 = true) (map_to_list db).

(** The amounts of the documents of key [k]. *)
Definition amounts_of {K} `{EqDecision K} (key : Expenditure → K) (k : K)
    (docs : list (N * Expenditure)) : list Q :=
  (λ d, amount d.2) <$> filter (λ d, key d.2 = k) docs.

Definition Zsum (l : list Z) : Z := foldr Z.add 0%Z l.

(** The orders of the rows of the statistics. *)
Definition larger_first {K} (a b : Bucket K) : Prop :=
  bucket_total b <= bucket_total a.

Definition later_first (a b : Bucket (Z * Z)) : Prop :=
  ((bucket_id b).1 < (bucket_id a).1
   ∨ ((bucket_id b).1 = (bucket_id a).1
      ∧ (bucket_id b).2 ≤ (bucket_id a).2))%Z.

(** What a [$group] by [key] makes of [docs]: one row per key that occurs,
    with the sum, in the order of [docs], and the number of the amounts of
    the documents of that key. *)
Definition rows_of {K} `{EqDecision K} (key : Expenditure → K)
    (docs : list (N * Expenditure)) (rows : list (Bucket K)) : Prop :=
  NoDup (bucket_id <$> rows)
  ∧ (∀ row, row ∈ rows →
       bucket_total row = fsum (amounts_of key (bucket_id row) docs)
       ∧ bucket_count row
         = Z.of_nat (length (amounts_of key (bucket_id row) docs))
       ∧ (1 ≤ bucket_count row)%Z)
  ∧ (∀ d, d ∈ docs → key d.2 ∈ bucket_id <$> rows).

(** ** A listing and the statistics of the two bills *)

(** The first page of one, of the food that is not settled; the lower bound
    of 0 and the isSettled of [no] are read as the text says. *)
Definition food_query : ListQuery :=
  mkListQuery (Some "1") (Some "1") None None (Some "food") None (Some "0")
    None None (Some "no").

(** The [query] object of [food_query]. *)
Definition food_filter : Filter :=
  mkFilter None None (Some "food") None None None None (Some false).

(** The body of a listing, empty when the request failed. *)
Definition listing_of (r : ListReply) : ExpenditureList :=
  match r with
  | Listed body => body
  | NotListed _ =>
      mkList [] (mkPagination 0 0 0 false) (mkAmounts 0 0 0 0 0)
        (mkSplitSummary 0 0 None)
  end.

(** The body of the statistics, empty when the request failed. *)
Definition statistics_of (r : StatisticsReply) : Statistics :=
  match r with
  | Computed body => body
  | NotComputed _ => mkStatistics (mkAmounts 0 0 0 0 0) [] []
  end.

(** The users, by name. *)
Definition names : gmap N string :=
  {[payer := "ann"; friend := "bob"; guest := "cid"]}.

(** * Properties *)

(** ** Comparisons *)

Lemma Qgtb_true_iff (x y : Q) : Qgtb x y = true ↔ y < x.
Proof.
  unfold Qgtb. rewrite negb_true_iff.
  split; intros H.
  - apply Qnot_le_lt. intros Hle. apply Qle_bool_iff in Hle. congruence.
  - destruct (Qle_bool x y) eqn:E; [|done].
    apply Qle_bool_iff in E. exfalso. exact (Qlt_not_le _ _ H E).
Qed.

Lemma Qgtb_false_iff (x y : Q) : Qgtb x y = false ↔ x <= y.
Proof.
  unfold Qgtb. rewrite negb_false_iff. apply Qle_bool_iff.
Qed.

Lemma Qneb_true_iff (x y : Q) : Qneb x y = true ↔ ¬ x == y.
Proof.
  unfold Qneb. rewrite negb_true_iff. split; intros H.
  - intros Heq. apply Qeq_bool_iff in Heq. congruence.
  - destruct (Qeq_bool x y) eqn:E; [|done].
    apply Qeq_bool_iff in E. contradiction.
Qed.

(** ** Numbers *)

(** [double] and the four operations agree with the floats of the kernel,
    which are those of the machine, on numbers around the tolerance of the
    save hook, at the ends of the exponent range and where a tie is
    rounded. *)
Example double_agrees_with_the_machine :
  double 0.1 = Q_of_float 0.1
  ∧ double 0.01 = Q_of_float 0.01
  ∧ double 100.01 = Q_of_float 100.01
  ∧ double (1 # 3) = Q_of_float (1 / 3)
  ∧ double 2.2250738585072014e-308 = Q_of_float 2.2250738585072014e-308
  ∧ fadd (double 0.1) (double 0.2) = Q_of_float (0.1 + 0.2)
  ∧ fsub (fadd (double 0.1) (double 0.2)) (double 0.3)
    = Q_of_float (0.1 + 0.2 - 0.3)
  ∧ fadd 10000000000000000 1 = Q_of_float (10000000000000000 + 1)
  ∧ fadd 10000000000000002 1 = Q_of_float (10000000000000002 + 1)
  ∧ fsub (double 100.01) 100 = Q_of_float (100.01 - 100)
  ∧ fsub (double 0.07) (double 0.06) = Q_of_float (0.07 - 0.06)
  ∧ fmul (double 0.1) (double 0.7) = Q_of_float (0.1 * 0.7)
  ∧ fdiv 1 3 = Q_of_float (1 / 3)
  ∧ fdiv (fadd (fadd (double 0.1) (double 0.1)) (double 0.1)) 3
    = Q_of_float ((0.1 + 0.1 + 0.1) / 3)
  ∧ fdiv (double 5e-324) 2 = Q_of_float (5e-324 / 2)
  ∧ fdiv (double 1.5e-323) 2 = Q_of_float (1.5e-323 / 2).
Proof. repeat split; vm_compute; reflexivity. Qed.

(** The [reduce] of the hook computes the sum of the amounts from left to
    right. *)
Lemma reduce_sum_from (S : list Split) (acc : Q) :
  fold_left (λ sum split, fadd sum (split_amount split)) S acc
  = fold_left fadd (split_amount <$> S) acc.
Proof.
  revert acc. induction S as [|s S IH]; intros acc; [done|].
  cbn [fold_left fmap list_fmap]. apply IH.
Qed.

Lemma reduce_sum (S : list Split) :
  fold_left (λ sum split, fadd sum (split_amount split)) S 0
  = fsum (split_amount <$> S).
Proof. apply reduce_sum_from. Qed.

(** ** The split validator *)

Lemma pre_save_accepts_iff (doc : Expenditure) :
  pre_save doc = None ↔
  splits doc = [] ∨ within_tolerance (splits doc) (totalAmount doc).
Proof.
  unfold pre_save, within_tolerance. rewrite reduce_sum.
  destruct (splits doc) as [|s S] eqn:E.
  - cbn [length Nat.ltb Nat.leb]. split; [by left | done].
  - cbn [length Nat.ltb Nat.leb].
    rewrite <- (Qgtb_false_iff (Qabs _) (double 0.01)).
    destruct (Qgtb _ _) eqn:G.
    + split; [done|]. by intros [?|?].
    + split; [|done]. intros _. by right.
Qed.

Lemma pre_save_refuses_iff (doc : Expenditure) :
  pre_save doc = Some (Error "Split amounts must add up to the total amount")
  ↔ splits doc ≠ []
    ∧ double 0.01 < Qabs (fsub (fsum (split_amount <$> splits doc))
                            (totalAmount doc)).
Proof.
  unfold pre_save. rewrite reduce_sum.
  destruct (splits doc) as [|s S] eqn:E.
  - cbn [length Nat.ltb Nat.leb]. split; [done|]. by intros [? _].
  - cbn [length Nat.ltb Nat.leb].
    rewrite <- (Qgtb_true_iff (Qabs _) (double 0.01)).
    destruct (Qgtb _ _) eqn:G.
    + split; [|done]. intros _. split; [done|reflexivity].
    + split; [done|]. by intros [_ ?].
Qed.

Lemma pre_save_error (doc : Expenditure) (error : JsError) :
  pre_save doc = Some error →
  error = Error "Split amounts must add up to the total amount".
Proof.
  unfold pre_save. repeat case_match; congruence.
Qed.

Lemma not_within_tolerance (S : list Split) (T : Q) :
  ¬ within_tolerance S T
  ↔ double 0.01 < Qabs (fsub (fsum (split_amount <$> S)) T).
Proof.
  unfold within_tolerance. split.
  - apply Qnot_le_lt.
  - intros Hlt Hle. exact (Qlt_not_le _ _ Hlt Hle).
Qed.

(** ** The handlers, case by case *)

Section HandlerFacts.
Context {casters : Casters}.

Lemma catch_validation_ValidationError (errors : list (string * string)) :
  catch_validation (ValidationError errors) = mkResponse 400 (PValidation errors).
Proof. reflexivity. Qed.

Lemma catch_validation_hook (doc : Expenditure) (error : JsError) :
  pre_save doc = Some error →
  catch_validation error = errorHandler error
  ∧ errorHandler error
    = mkResponse 500 (PUnhandled "Split amounts must add up to the total amount").
Proof. intros ->%pre_save_error. split; reflexivity. Qed.

(** createExpenditure has three outcomes: a ValidationError (400), an Error
    of the save hook (handed to [next]), or the created document (201). *)
Lemma createExpenditure_cases (db : gmap N Expenditure) (caller fresh : N)
    (now : Z) (body : gmap string Value) :
  createExpenditure db caller fresh now body =
  match new_document now (create_input body) caller caller with
  | inl errors => (mkResponse 400 (PValidation errors), db)
  | inr doc =>
      match pre_save doc with
      | Some error =>
          (mkResponse 500
             (PUnhandled "Split amounts must add up to the total amount"), db)
      | None => (mkResponse 201 (PDoc fresh doc), <[fresh := doc]> db)
      end
  end.
Proof.
  unfold createExpenditure, Expenditure_create, save.
  destruct (new_document _ _ _ _) as [errors|doc]; [done|].
  destruct (pre_save doc) as [error|] eqn:E; [|done].
  destruct (catch_validation_hook _ _ E) as [-> ->]. done.
Qed.

End HandlerFacts.

Section UpdateFacts.
Context {casters : Casters}.

Lemma str_in_spec (s : string) (l : list string) : str_in s l = true ↔ s ∈ l.
Proof.
  unfold str_in. rewrite existsb_exists, list_elem_of_In. split.
  - intros (x & Hx & ->%String.eqb_eq). done.
  - intros Hs. exists s. by rewrite String.eqb_refl.
Qed.

(** An assignment of updateExpenditure writes one of the allowed paths. *)
Lemma assign_protected (update : string) (value : Value)
    (acc : Expenditure * list (string * string)) :
  protected_paths (assign update value acc).1 = protected_paths acc.1
  ∧ user (assign update value acc).1 = user acc.1.
Proof.
  destruct acc as [e errs]. unfold assign.
  repeat case_match; done.
Qed.

Lemma assign_all_protected (l : list (string * Value))
    (acc : Expenditure * list (string * string)) :
  protected_paths (fold_left (λ acc kv, assign kv.1 kv.2 acc) l acc).1
  = protected_paths acc.1.
Proof.
  revert acc. induction l as [|[k v] l IH]; intros acc; [done|].
  cbn [fold_left]. rewrite IH. apply assign_protected.
Qed.

(** A body with a key outside [allowedUpdates] is answered before any query. *)
Lemma updateExpenditure_invalid (db : gmap N Expenditure) (caller : N)
    (id : string) (body : gmap string Value) (k : string) :
  is_Some (body !! k) → k ∉ allowedUpdates →
  updateExpenditure db caller id body
  = (mkResponse 400 (PError "Invalid updates"), db).
Proof.
  intros [v Hv] Hk. unfold updateExpenditure.
  destruct (forallb _ _) eqn:E; [|done].
  rewrite forallb_forall in E.
  exfalso. apply Hk, str_in_spec, E, list_elem_of_In.
  apply list_elem_of_fmap. exists (k, v). split; [done|].
  by apply elem_of_map_to_list.
Qed.

(** updateExpenditure either leaves the collection as it is, or replaces one
    document of the caller by one that passed the save hook and that agrees
    with it on the protected paths. *)
Lemma updateExpenditure_cases (db : gmap N Expenditure) (caller : N)
    (id : string) (body : gmap string Value) :
  let r := updateExpenditure db caller id body in
  (r.2 = db ∧ status r.1 ≠ 200%N)
  ∨ ∃ oid e e',
      db !! oid = Some e
      ∧ protected_paths e' = protected_paths e
      ∧ pre_save e' = None
      ∧ r = (mkResponse 200 (PDoc oid e'), <[oid := e']> db).
Proof.
  cbv zeta. unfold updateExpenditure.
  destruct (negb _); [by left|].
  unfold findOne_owned.
  destruct (castObjectId (VStr id)) as [oid| |]; try by left.
  destruct (db !! oid) as [e|] eqn:Hdb; [|by left].
  destruct (user e =? caller)%N; [|by left].
  pose proof (assign_all_protected (map_to_list body) (e, [])) as Hp.
  destruct (fold_left _ _ _) as [e' errs]. cbn [fst] in Hp.
  destruct errs as [|err errs]; [|by left].
  unfold save. destruct (pre_save e') as [error|] eqn:Hs.
  - left. destruct (catch_validation_hook _ _ Hs) as [-> ->]. done.
  - right. by exists oid, e, e'.
Qed.

End UpdateFacts.

(** ** Split validation on the write paths *)

Section SplitValidation.
Context {casters : Casters}.

Lemma createExpenditure_writes (db : gmap N Expenditure) (caller fresh : N)
    (now : Z) (body : gmap string Value) :
  let r := createExpenditure db caller fresh now body in
  (r.2 = db ∧ status r.1 ≠ 201%N)
  ∨ ∃ doc,
      new_document now (create_input body) caller caller = inr doc
      ∧ pre_save doc = None
      ∧ r = (mkResponse 201 (PDoc fresh doc), <[fresh := doc]> db).
Proof.
  cbv zeta. rewrite createExpenditure_cases.
  destruct (new_document _ _ _ _) as [errors|doc]; [by left|].
  destruct (pre_save doc) eqn:E; [by left|].
  right. by exists doc.
Qed.

(** updateExpenditure on a document of the caller, with a body of allowed
    keys whose assignments pass the validators: the save decides. *)
Lemma updateExpenditure_saves (db : gmap N Expenditure) (caller : N)
    (id : string) (body : gmap string Value) (oid : N) (e e' : Expenditure) :
  (∀ k, is_Some (body !! k) → k ∈ allowedUpdates) →
  castObjectId (VStr id) = CastOk oid →
  db !! oid = Some e →
  user e = caller →
  fold_left (λ acc kv, assign kv.1 kv.2 acc) (map_to_list body) (e, [])
  = (e', []) →
  updateExpenditure db caller id body
  = match pre_save e' with
    | Some error =>
        (mkResponse 500
           (PUnhandled "Split amounts must add up to the total amount"), db)
    | None => (mkResponse 200 (PDoc oid e'), <[oid := e']> db)
    end.
Proof.
  intros Hkeys Hc Hdb Hu Hfold. unfold updateExpenditure.
  assert (Hall : forallb (λ update, str_in update allowedUpdates)
                   (map_to_list body).*1 = true).
  { apply forallb_forall. intros k Hk. apply str_in_spec, Hkeys.
    apply list_elem_of_In, list_elem_of_fmap in Hk as ([k' v] & -> & Hin).
    apply elem_of_map_to_list in Hin. by exists v. }
  rewrite Hall. cbn [negb]. unfold findOne_owned.
  rewrite Hc, Hdb, Hu, N.eqb_refl, Hfold. unfold save.
  destruct (pre_save e') as [error|] eqn:Hs; [|done].
  by destruct (catch_validation_hook _ _ Hs) as [-> ->].
Qed.


(** A valid candidate whose splits miss the total by more than the
    tolerance, as the hook computes it. *)
Lemma create_refused_by_hook (db : gmap N Expenditure) (caller fresh : N)
    (now : Z) (body : gmap string Value) (doc : Expenditure) :
  new_document now (create_input body) caller caller = inr doc →
  splits doc ≠ [] →
  double 0.01
  < Qabs (fsub (fsum (split_amount <$> splits doc)) (totalAmount doc)) →
  createExpenditure db caller fresh now body
  = (mkResponse 500
       (PUnhandled "Split amounts must add up to the total amount"), db).
Proof.
  intros Hdoc Hne Hgt. rewrite createExpenditure_cases, Hdoc.
  assert (Hs : pre_save doc
               = Some (Error "Split amounts must add up to the total amount"))
    by by apply pre_save_refuses_iff.
  by rewrite Hs.
Qed.

(** C7 — POST /expenditures with splits that fail the split-sum check (the
    check being the one the hook computes on binary64 numbers): the handler
    does not answer 400 with field-level errors.  The hook's Error is no
    ValidationError, so the catch block hands it to [next] and the error
    handler of app.ts answers 500; nothing is persisted. *)
Theorem create_split_mismatch_status (db : gmap N Expenditure)
    (caller fresh : N) (now : Z) (body : gmap string Value)
    (doc : Expenditure) :
  new_document now (create_input body) caller caller = inr doc →
  splits doc ≠ [] →
  double 0.01
  < Qabs (fsub (fsum (split_amount <$> splits doc)) (totalAmount doc)) →
  let r := createExpenditure db caller fresh now body in
  status r.1 = 500%N
  ∧ r.1 = errorHandler (Error "Split amounts must add up to the total amount")
  ∧ (∀ details, payload r.1 ≠ PValidation details)
  ∧ r.2 = db.
Proof.
  intros Hdoc Hne Hgt. cbv zeta.
  rewrite (create_refused_by_hook _ _ _ _ _ _ Hdoc Hne Hgt). done.
Qed.


End SplitValidation.

(** The scenario of the specification: splits summing to 70 against a total
    of 100. *)
Lemma create_split_mismatch_status_witness :
  let body := dinner_with 100 [split_json friend_hex 70 false] in
  let r := createExpenditure ∅ payer dinner_id 0 body in
  status r.1 = 500%N
  ∧ r.1 = errorHandler (Error "Split amounts must add up to the total amount")
  ∧ (∀ details, payload r.1 ≠ PValidation details)
  ∧ r.2 = ∅.
Proof.
  apply (create_split_mismatch_status ∅ payer dinner_id 0
           (dinner_with 100 [split_json friend_hex 70 false])
           (mkExpenditure payer 100 "food" "Dinner" 1700000000000 "cash" []
              None [mkSplit friend 70 (Some false) None] 100 payer
              (Some false))).
  - vm_compute. reflexivity.
  - discriminate.
  - vm_compute. reflexivity.
Defined.




(** The hook on binary64 numbers and the floats of the machine agree on the
    requests of the mismatch scenarios (70 against 100, and 70 + 40 against
    100) and on amounts at the tolerance: 100.01 against 100 and 0.07 against
    0.06 are refused, 0.02 against 0.01 is accepted. *)
Lemma mismatch_scenarios_binary64 :
  let refused (amounts : list Q) (total : Q) :=
    match
      pre_save
        (mkExpenditure payer (double total) "food" "Dinner" 0 "cash" [] None
           ((λ a, mkSplit friend (double a) (Some false) None) <$> amounts)
           (double total) payer (Some false))
    with
    | Some _ => true
    | None => false
    end in
  (refused [70] 100, hook_rejects_binary64 [70%float] 100%float) = (true, true)
  ∧ (refused [70; 40] 100, hook_rejects_binary64 [70%float; 40%float] 100%float)
    = (true, true)
  ∧ (refused [100.01] 100, hook_rejects_binary64 [100.01%float] 100%float)
    = (true, true)
  ∧ (refused [0.07] 0.06, hook_rejects_binary64 [0.07%float] 0.06%float)
    = (true, true)
  ∧ (refused [0.01] 0.02, hook_rejects_binary64 [0.01%float] 0.02%float)
    = (false, false).
Proof. repeat split; vm_compute; reflexivity. Qed.

(** ** The settled flag on the create path *)

Section CreatePath.
Context {casters : Casters}.

(** The object literal of createExpenditure rewrites [totalAmount] and
    [splits] only. *)
Lemma create_input_other (body : gmap string Value) (k : string) :
  k ≠ "splits" → k ≠ "totalAmount" → create_input body !! k = body !! k.
Proof.
  intros Hs Ht. unfold create_input.
  repeat case_match;
    rewrite ?lookup_insert_ne, ?lookup_delete_ne by done; done.
Qed.

(** The flag of a new document is the body's [isSettled], cast, or the
    schema default. *)
Lemma new_document_isSettled (now : Z) (obj : gmap string Value)
    (user paidBy : N) (doc : Expenditure) :
  new_document now obj user paidBy = inr doc →
  boolean_path (obj !! "isSettled") = Valid (isSettled doc).
Proof.
  unfold new_document. intros Hdoc.
  repeat case_match; try discriminate.
  by injection Hdoc as <-.
Qed.

Lemma new_document_splits (now : Z) (obj : gmap string Value)
    (user paidBy : N) (doc : Expenditure) :
  new_document now obj user paidBy = inr doc →
  splits_path (obj !! "splits") = inr (splits doc).
Proof.
  unfold new_document. intros Hdoc.
  repeat case_match; try discriminate.
  by injection Hdoc as <-.
Qed.

(** C10, as the code has it — after a successful POST /expenditures whose
    body carries no [isSettled] key, the created document is stored with
    [isSettled] false, whatever the [paid] flags of the splits in the body:
    the create path never computes the flag from the splits. *)
Theorem create_leaves_unsettled (db : gmap N Expenditure) (caller fresh : N)
    (now : Z) (body : gmap string Value) (id : N) (e : Expenditure)
    (db' : gmap N Expenditure) :
  body !! "isSettled" = None →
  createExpenditure db caller fresh now body
  = (mkResponse 201 (PDoc id e), db') →
  isSettled e = Some false ∧ db' !! id = Some e.
Proof.
  intros Hkey Hr.
  destruct (createExpenditure_writes db caller fresh now body)
    as [[_ Hst]|(doc & Hdoc & _ & Hw)].
  - rewrite Hr in Hst. done.
  - rewrite Hr in Hw. injection Hw as -> -> ->.
    split; [|by rewrite lookup_insert_eq].
    apply new_document_isSettled in Hdoc.
    rewrite create_input_other, Hkey in Hdoc by done.
    unfold boolean_path in Hdoc. simpl in Hdoc. congruence.
Qed.

End CreatePath.

(** Every split of the body is already paid; the flag is false all the same. *)
Lemma create_leaves_unsettled_witness :
  let body :=
    dinner_with 100 [split_json friend_hex 60 true;
                     split_json payer_hex 40 true] in
  let e := dinner_doc [mkSplit friend 60 (Some true) None;
                       mkSplit payer 40 (Some true) None] false in
  forallb (λ s, holds (paid s)) (splits e) = true
  ∧ isSettled e = Some false
  ∧ (<[dinner_id := e]> ∅ : gmap N Expenditure) !! dinner_id = Some e.
Proof.
  split; [reflexivity|].
  apply (create_leaves_unsettled ∅ payer dinner_id 0
           (dinner_with 100 [split_json friend_hex 60 true;
                             split_json payer_hex 40 true])).
  - vm_compute. reflexivity.
  - vm_compute. reflexivity.
Defined.

(** C10, as stated, fails: [isSettled] is one of the body's keys that
    createExpenditure spreads into the new document. *)
Lemma create_settled_from_body :
  let body :=
    <["isSettled" := VBool true]>
      (dinner_with 100 [split_json friend_hex 60 false;
                        split_json payer_hex 40 true]) in
  let r := createExpenditure ∅ payer dinner_id 0 body in
  ∃ e, r = (mkResponse 201 (PDoc dinner_id e), <[dinner_id := e]> ∅)
       ∧ isSettled e = Some true.
Proof.
  eexists. split; [vm_compute; reflexivity|]. reflexivity.
Qed.

(** C2, as stated, fails on the create path: every split is paid and the
    stored flag is false. *)
Lemma create_all_paid_not_settled :
  let body :=
    dinner_with 100 [split_json friend_hex 60 true;
                     split_json payer_hex 40 true] in
  let r := createExpenditure ∅ payer dinner_id 0 body in
  ∃ e, r = (mkResponse 201 (PDoc dinner_id e), <[dinner_id := e]> ∅)
       ∧ splits e ≠ []
       ∧ Forall (λ s, paid s = Some true) (splits e)
       ∧ isSettled e = Some false.
Proof.
  eexists. split; [vm_compute; reflexivity|].
  split; [discriminate|]. split; [|reflexivity].
  repeat constructor.
Qed.

(** ** The settlement state machine (markSplitAsPaid) *)

Lemma holds_true (flag : option bool) : holds flag = true ↔ flag = Some true.
Proof. destruct flag as [[]|]; cbn; split; congruence. Qed.

Lemma all_paid_spec (S : list Split) :
  forallb (λ s, holds (paid s)) S = true
  ↔ Forall (λ s, paid s = Some true) S.
Proof.
  rewrite forallb_forall, Forall_forall. split; intros H s Hs.
  - by apply holds_true, H, list_elem_of_In.
  - by apply holds_true, H, list_elem_of_In.
Qed.

Section MarkPaid.
Context {casters : Casters}.

Lemma has_split_spec (caller : N) (S : list Split) :
  existsb (λ s, (split_user s =? caller)%N) S = true
  ↔ ∃ s, s ∈ S ∧ split_user s = caller.
Proof.
  rewrite existsb_exists. split.
  - intros (s & Hs & Heq). exists s. split; [by apply list_elem_of_In|].
    by apply N.eqb_eq.
  - intros (s & Hs & Heq). exists s. split; [by apply list_elem_of_In|].
    by apply N.eqb_eq.
Qed.

(** The query of markSplitAsPaid. *)
Lemma findOne_unsettled_Some (db : gmap N Expenditure) (id : string)
    (caller oid : N) (e : Expenditure) :
  findOne_unsettled db id caller = inr (Some (oid, e))
  ↔ castObjectId (VStr id) = CastOk oid
    ∧ db !! oid = Some e
    ∧ (∃ s, s ∈ splits e ∧ split_user s = caller)
    ∧ isSettled e = Some false.
Proof.
  unfold findOne_unsettled. rewrite <- has_split_spec.
  destruct (castObjectId (VStr id)) as [o| |].
  2,3: split; [discriminate | intros [[=] _]].
  destruct (db !! o) as [e0|] eqn:Hdb.
  2:{ split; [discriminate|]. intros ([= ->] & Hl & _). congruence. }
  destruct (existsb _ (splits e0) && bool_decide (isSettled e0 = Some false))
    eqn:Hc.
  - apply andb_true_iff in Hc as [Hex Hst%bool_decide_eq_true].
    split.
    + intros [= -> ->]. done.
    + intros ([= ->] & Hl & _). rewrite Hdb in Hl. by injection Hl as ->.
  - split; [discriminate|]. intros ([= ->] & Hl & Hex & Hst).
    rewrite Hdb in Hl. injection Hl as ->.
    rewrite Hex, bool_decide_eq_true_2 in Hc by done. discriminate.
Qed.

Lemma findOne_unsettled_error (db : gmap N Expenditure) (id : string)
    (caller : N) (error : JsError) :
  findOne_unsettled db id caller = inl error → error = QueryCastError id.
Proof.
  unfold findOne_unsettled. repeat case_match; congruence.
Qed.

(** The document a successful markSplitAsPaid stores, read off the code. *)
Lemma markSplitAsPaid_cases (db : gmap N Expenditure) (caller : N)
    (id : string) (now : Z) :
  let r := markSplitAsPaid db caller id now in
  (r.2 = db ∧ status r.1 ≠ 200%N
   ∧ payload r.1 ≠ PError "Split not found for this user")
  ∨ ∃ oid e i s e',
      findOne_unsettled db id caller = inr (Some (oid, e))
      ∧ list_find (λ s, split_user s = caller) (splits e) = Some (i, s)
      ∧ splits e'
        = <[i := mkSplit (split_user s) (split_amount s) (Some true)
                  (Some now)]>
            (splits e)
      ∧ isSettled e' = Some (forallb (λ s, holds (paid s)) (splits e'))
      ∧ (user e', amount e', category e', description e', date e',
         paymentMethod e', tags e', location e', totalAmount e', paidBy e')
        = (user e, amount e, category e, description e, date e,
           paymentMethod e, tags e, location e, totalAmount e, paidBy e)
      ∧ pre_save e' = None
      ∧ r = (mkResponse 200 (PDoc oid e'), <[oid := e']> db).
Proof.
  cbv zeta. unfold markSplitAsPaid.
  destruct (findOne_unsettled db id caller) as [error|[[oid e]|]] eqn:Hq.
  - left. rewrite (findOne_unsettled_error _ _ _ _ Hq). done.
  - pose proof Hq as (_ & _ & (s0 & Hs0 & Hu) & Hst)%findOne_unsettled_Some.
    destruct (list_find _ (splits e)) as [[i s]|] eqn:Hf.
    2:{ exfalso. apply list_find_None in Hf.
        rewrite Forall_forall in Hf. by apply (Hf s0). }
    set (S' := <[i := _]> (splits e)).
    unfold save.
    destruct (forallb (λ s, holds (paid s)) (splits (set_splits S' e)))
      eqn:Hall.
    + destruct (pre_save _) as [error|] eqn:Hs.
      * left. destruct (catch_validation_hook _ _ Hs) as [_ ->]. done.
      * right.
        exists oid, e, i, s, (set_isSettled (Some true) (set_splits S' e)).
        split_and!; try done.
        cbn [isSettled set_isSettled set_splits splits] in *.
        by rewrite Hall.
    + destruct (pre_save _) as [error|] eqn:Hs.
      * left. destruct (catch_validation_hook _ _ Hs) as [_ ->]. done.
      * right. exists oid, e, i, s, (set_splits S' e).
        split_and!; try done.
        cbn [isSettled set_isSettled set_splits splits] in *.
        by rewrite Hst, Hall.
  - by left.
Qed.

End MarkPaid.

Section Settlement.
Context {casters : Casters}.

Lemma findOne_unsettled_None (db : gmap N Expenditure) (id : string)
    (caller oid : N) :
  castObjectId (VStr id) = CastOk oid →
  (db !! oid = None
   ∨ ∃ e, db !! oid = Some e
          ∧ ((∀ s, s ∈ splits e → split_user s ≠ caller)
             ∨ isSettled e ≠ Some false)) →
  findOne_unsettled db id caller = inr None.
Proof.
  intros Hc Hno.
  destruct (findOne_unsettled db id caller) as [error|[[oid' e']|]] eqn:Hq.
  - unfold findOne_unsettled in Hq. rewrite Hc in Hq.
    repeat case_match; discriminate.
  - exfalso.
    apply findOne_unsettled_Some in Hq as (Hc' & Hdb & (s & Hs & Hu) & Hst).
    rewrite Hc in Hc'. injection Hc' as <-.
    destruct Hno as [Hn|(e & He & [Hn|Hn])].
    + congruence.
    + rewrite Hdb in He. injection He as <-. by apply (Hn s).
    + rewrite Hdb in He. injection He as <-. done.
  - done.
Qed.

Lemma markSplitAsPaid_not_found (db : gmap N Expenditure) (caller : N)
    (id : string) (now : Z) :
  findOne_unsettled db id caller = inr None →
  markSplitAsPaid db caller id now
  = (mkResponse 404 (PError "Expenditure not found or already settled"), db).
Proof. intros Hq. unfold markSplitAsPaid. by rewrite Hq. Qed.

(** C2, as the code has it — after a successful mark-paid the stored
    expenditure has a non-empty split list and its isSettled flag is true if
    and only if every split is paid; a successful field update changes
    neither the split list nor the flag. *)
Theorem settled_iff_all_paid_after_mark_paid :
  (∀ (db : gmap N Expenditure) (caller : N) (id : string) (now : Z) (oid : N)
     (e' : Expenditure) (db' : gmap N Expenditure),
     markSplitAsPaid db caller id now = (mkResponse 200 (PDoc oid e'), db') →
     db' !! oid = Some e'
     ∧ splits e' ≠ []
     ∧ (isSettled e' = Some true
        ↔ Forall (λ s, paid s = Some true) (splits e'))
     ∧ (isSettled e' = Some true ∨ isSettled e' = Some false))
  ∧ (∀ (db : gmap N Expenditure) (caller : N) (id : string)
       (body : gmap string Value) (oid : N) (e' : Expenditure)
       (db' : gmap N Expenditure),
       updateExpenditure db caller id body
       = (mkResponse 200 (PDoc oid e'), db') →
       ∃ e, db !! oid = Some e ∧ db' !! oid = Some e'
            ∧ splits e' = splits e ∧ isSettled e' = isSettled e).
Proof.
  split.
  - intros db caller id now oid e' db' Hr.
    destruct (markSplitAsPaid_cases db caller id now)
      as [(_ & Hst & _)|(o & e & i & s & e2 & Hq & Hf & HS & Hset & _ & _ & Hw)].
    { rewrite Hr in Hst. done. }
    rewrite Hr in Hw. injection Hw as ? ? ?. subst.
    split; [by rewrite lookup_insert_eq|]. split_and!.
    + rewrite HS. apply list_find_Some in Hf as (Hi & _).
      apply lookup_lt_Some in Hi. intros Hnil.
      apply (f_equal length) in Hnil. rewrite length_insert in Hnil.
      simpl in Hnil. lia.
    + rewrite Hset, <- all_paid_spec. split; [by intros [= ->]|by intros ->].
    + rewrite Hset. destruct (forallb _ _); [by left|by right].
  - intros db caller id body oid e' db' Hr.
    destruct (updateExpenditure_cases db caller id body)
      as [[_ Hst]|(o & e & e2 & Hdb & Hp & _ & Hw)].
    { rewrite Hr in Hst. done. }
    rewrite Hr in Hw. injection Hw as ? ? ?. subst.
    exists e. unfold protected_paths in Hp. injection Hp as -> _ _ ->.
    by rewrite lookup_insert_eq.
Qed.

(** C3, as the code has it — mark-paid succeeds only when the caller holds a
    split of the target expenditure and that expenditure's isSettled flag is
    false; when the (well-formed) id names no expenditure, the caller has no
    split in it, or its flag is not false (it is settled, or the flag is
    null), the answer is a 404 whose message is in each case "Expenditure
    not found or already settled"; the message "Split not found for this
    user" is never sent. *)
Theorem mark_paid_guard (db : gmap N Expenditure) (caller : N) (id : string)
    (now : Z) :
  let r := markSplitAsPaid db caller id now in
  (status r.1 = 200%N →
   ∃ oid e, castObjectId (VStr id) = CastOk oid
            ∧ db !! oid = Some e
            ∧ (∃ s, s ∈ splits e ∧ split_user s = caller)
            ∧ isSettled e = Some false)
  ∧ (∀ oid,
       castObjectId (VStr id) = CastOk oid →
       (db !! oid = None
        ∨ ∃ e, db !! oid = Some e
               ∧ ((∀ s, s ∈ splits e → split_user s ≠ caller)
                  ∨ isSettled e ≠ Some false)) →
       r = (mkResponse 404
              (PError "Expenditure not found or already settled"), db))
  ∧ payload r.1 ≠ PError "Split not found for this user".
Proof.
  cbv zeta. split; [|split].
  - intros Hst.
    destruct (markSplitAsPaid_cases db caller id now)
      as [(_ & Hne & _)|(o & e & i & s & e2 & Hq & _)]; [done|].
    apply findOne_unsettled_Some in Hq. by exists o, e.
  - intros oid Hc Hno.
    by apply markSplitAsPaid_not_found, (findOne_unsettled_None _ _ _ oid).
  - destruct (markSplitAsPaid_cases db caller id now)
      as [(_ & _ & Hne)|(o & e & i & s & e2 & _ & _ & _ & _ & _ & _ & ->)];
      done.
Qed.

(** C6, as the code has it — a successful mark-paid writes one split, the
    first split of the caller in the list: it sets that split paid and its
    settledAt to the time of the call, whether or not the split was paid
    before, and leaves every other split as it was, a later split of the
    same participant included; once every split is paid the expenditure is
    settled, every further mark-paid on it is answered 404 and nothing,
    settledAt included, is written. *)
Theorem mark_paid_sets_settledAt (db : gmap N Expenditure) (caller : N)
    (id : string) (now : Z) (oid : N) (e' : Expenditure)
    (db' : gmap N Expenditure) :
  markSplitAsPaid db caller id now = (mkResponse 200 (PDoc oid e'), db') →
  ∃ e i s,
    db !! oid = Some e ∧ db' = <[oid := e']> db
    ∧ splits e !! i = Some s ∧ split_user s = caller
    ∧ (∀ j t, (j < i)%nat → splits e !! j = Some t → split_user t ≠ caller)
    ∧ splits e' !! i
      = Some (mkSplit caller (split_amount s) (Some true) (Some now))
    ∧ (∀ j, j ≠ i → splits e' !! j = splits e !! j)
    ∧ length (splits e') = length (splits e)
    ∧ (Forall (λ s, paid s = Some true) (splits e') →
       ∀ caller2 now2,
         markSplitAsPaid db' caller2 id now2
         = (mkResponse 404
              (PError "Expenditure not found or already settled"), db')).
Proof.
  intros Hr.
  destruct (markSplitAsPaid_cases db caller id now)
    as [(_ & Hst & _)|(o & e & i & s & e2 & Hq & Hf & HS & Hset & _ & _ & Hw)].
  { rewrite Hr in Hst. done. }
  rewrite Hr in Hw. injection Hw as ? ? ?. subst.
  apply findOne_unsettled_Some in Hq as (Hc & Hdb & _ & _).
  apply list_find_Some in Hf as (Hi & Hu & Hfirst).
  exists e, i, s. split_and!; try done.
  - intros j t Hj Ht. by apply (Hfirst j).
  - rewrite HS, <- Hu. apply list_lookup_insert_eq. by eapply lookup_lt_Some.
  - intros j Hj. rewrite HS. by apply list_lookup_insert_ne.
  - by rewrite HS, length_insert.
  - intros Hall caller2 now2.
    apply markSplitAsPaid_not_found, (findOne_unsettled_None _ _ _ o); [done|].
    right. exists e2. split; [by rewrite lookup_insert_eq|]. right.
    apply all_paid_spec in Hall. by rewrite Hset, Hall.
Qed.

End Settlement.

(** The stored bill of the route tests: the friend owes 60, the payer's own
    share of 40 is paid. *)
Lemma settled_iff_all_paid_after_mark_paid_witness :
  let db := dinner_db [mkSplit friend 60 (Some false) None;
                       mkSplit payer 40 (Some true) None] false in
  let e' := dinner_doc [mkSplit friend 60 (Some true) (Some 77%Z);
                        mkSplit payer 40 (Some true) None] true in
  (<[dinner_id := e']> db) !! dinner_id = Some e'
  ∧ splits e' ≠ []
  ∧ (isSettled e' = Some true ↔ Forall (λ s, paid s = Some true) (splits e'))
  ∧ (isSettled e' = Some true ∨ isSettled e' = Some false).
Proof.
  apply (proj1 settled_iff_all_paid_after_mark_paid
           (dinner_db [mkSplit friend 60 (Some false) None;
                       mkSplit payer 40 (Some true) None] false)
           friend dinner_hex 77%Z).
  vm_compute. reflexivity.
Defined.

Lemma mark_paid_guard_witness :
  let db := dinner_db [mkSplit friend 60 (Some false) None;
                       mkSplit payer 40 (Some true) None] true in
  markSplitAsPaid db friend dinner_hex 77%Z
  = (mkResponse 404 (PError "Expenditure not found or already settled"), db).
Proof.
  apply (proj1 (proj2 (mark_paid_guard
           (dinner_db [mkSplit friend 60 (Some false) None;
                       mkSplit payer 40 (Some true) None] true)
           friend dinner_hex 77%Z)) dinner_id).
  - vm_compute. reflexivity.
  - right. eexists. split; [vm_compute; reflexivity|]. right. discriminate.
Defined.

Lemma mark_paid_sets_settledAt_witness :
  let db := dinner_db [mkSplit friend 60 (Some false) None;
                       mkSplit payer 40 (Some true) None] false in
  let e' := dinner_doc [mkSplit friend 60 (Some true) (Some 77%Z);
                        mkSplit payer 40 (Some true) None] true in
  ∃ e i s,
    db !! dinner_id = Some e ∧ <[dinner_id := e']> db = <[dinner_id := e']> db
    ∧ splits e !! i = Some s ∧ split_user s = friend
    ∧ (∀ j t, (j < i)%nat → splits e !! j = Some t → split_user t ≠ friend)
    ∧ splits e' !! i
      = Some (mkSplit friend (split_amount s) (Some true) (Some 77%Z))
    ∧ (∀ j, j ≠ i → splits e' !! j = splits e !! j)
    ∧ length (splits e') = length (splits e)
    ∧ (Forall (λ s, paid s = Some true) (splits e') →
       ∀ caller2 now2,
         markSplitAsPaid (<[dinner_id := e']> db) caller2 dinner_hex now2
         = (mkResponse 404
              (PError "Expenditure not found or already settled"),
            <[dinner_id := e']> db)).
Proof.
  apply (mark_paid_sets_settledAt
           (dinner_db [mkSplit friend 60 (Some false) None;
                       mkSplit payer 40 (Some true) None] false)
           friend dinner_hex 77%Z).
  vm_compute. reflexivity.
Defined.

(** C3, as stated, fails: a caller without a split is answered by the query
    guard, with the message it shares with the other two cases. *)
Lemma mark_paid_without_split_message :
  let db := dinner_db [mkSplit friend 60 (Some false) None;
                       mkSplit payer 40 (Some true) None] false in
  let r := markSplitAsPaid db guest dinner_hex 77%Z in
  Forall (λ s, split_user s ≠ guest)
    [mkSplit friend 60 (Some false) None; mkSplit payer 40 (Some true) None]
  ∧ r = (mkResponse 404 (PError "Expenditure not found or already settled"), db)
  ∧ payload r.1 ≠ PError "Split not found for this user".
Proof.
  split; [repeat constructor; discriminate|].
  split; [vm_compute; reflexivity|]. vm_compute. discriminate.
Qed.

(** C6, as stated, fails: with another split still unpaid the expenditure is
    not settled, the friend's second mark-paid is accepted, and it replaces
    the settledAt of a split that was already paid. *)
Lemma mark_paid_twice_overwrites_settledAt :
  let db := dinner_db [mkSplit friend 60 (Some false) None;
                       mkSplit guest 40 (Some false) None] false in
  let r1 := markSplitAsPaid db friend dinner_hex 1000%Z in
  let r2 := markSplitAsPaid r1.2 friend dinner_hex 2000%Z in
  status r1.1 = 200%N
  ∧ splits <$> r1.2 !! dinner_id
    = Some [mkSplit friend 60 (Some true) (Some 1000%Z); mkSplit guest 40 (Some false) None]
  ∧ status r2.1 = 200%N
  ∧ splits <$> r2.2 !! dinner_id
    = Some [mkSplit friend 60 (Some true) (Some 2000%Z); mkSplit guest 40 (Some false) None].
Proof. repeat split; vm_compute; reflexivity. Qed.

(** A participant listed twice: every mark-paid of the friend stamps the
    first of their splits again, the second one is never paid, and the bill
    never settles. *)
Example mark_paid_stamps_first_split_only :
  let db := dinner_db [mkSplit friend 60 (Some false) None;
                       mkSplit friend 40 (Some false) None] false in
  let r1 := markSplitAsPaid db friend dinner_hex 1000%Z in
  let r2 := markSplitAsPaid r1.2 friend dinner_hex 2000%Z in
  status r1.1 = 200%N
  ∧ status r2.1 = 200%N
  ∧ (λ e, (splits e, isSettled e)) <$> r2.2 !! dinner_id
    = Some ([mkSplit friend 60 (Some true) (Some 2000%Z);
             mkSplit friend 40 (Some false) None], Some false).
Proof. repeat split; vm_compute; reflexivity. Qed.

(** ** The field-update path (updateExpenditure) *)

Section UpdatePath.
Context {casters : Casters}.

(** C9 — PATCH /expenditures/:id.  A body with a key outside
    {amount, category, description, date, paymentMethod, tags, location} is
    answered 400 "Invalid updates" and the collection is unchanged; and
    whatever the body and the outcome, every stored expenditure keeps its
    splits, totalAmount, paidBy and isSettled (no document appears or
    disappears either). *)
Theorem update_whitelist (db : gmap N Expenditure) (caller : N) (id : string)
    (body : gmap string Value) :
  let r := updateExpenditure db caller id body in
  ((∃ k, is_Some (body !! k) ∧ k ∉ allowedUpdates) →
   r = (mkResponse 400 (PError "Invalid updates"), db))
  ∧ (∀ oid, protected_paths <$> r.2 !! oid = protected_paths <$> db !! oid).
Proof.
  cbv zeta. split.
  - intros (k & Hk & Hout). by apply (updateExpenditure_invalid _ _ _ _ k).
  - intros oid.
    destruct (updateExpenditure_cases db caller id body)
      as [[-> _]|(o & e & e' & Hdb & Hp & _ & ->)]; [done|].
    cbn [snd]. destruct (decide (o = oid)) as [->|Hne].
    + rewrite lookup_insert_eq, Hdb. cbn [fmap option_fmap option_map].
      by rewrite Hp.
    + by rewrite lookup_insert_ne.
Qed.

End UpdatePath.

(** An update that tries to settle the bill directly. *)
Lemma update_whitelist_witness :
  let db := dinner_db [mkSplit friend 60 (Some false) None;
                       mkSplit payer 40 (Some true) None] false in
  let body : gmap string Value :=
    <["amount" := VNum 5]> (<["isSettled" := VBool true]> ∅) in
  updateExpenditure db payer dinner_hex body
  = (mkResponse 400 (PError "Invalid updates"), db).
Proof.
  apply (proj1 (update_whitelist
           (dinner_db [mkSplit friend 60 (Some false) None;
                       mkSplit payer 40 (Some true) None] false)
           payer dinner_hex
           (<["amount" := VNum 5]> (<["isSettled" := VBool true]> ∅)))).
  exists "isSettled". split.
  - vm_compute. eexists. reflexivity.
  - unfold allowedUpdates. rewrite !elem_of_cons, elem_of_nil.
    intros [?|[?|[?|[?|[?|[?|[?|[]]]]]]]]; discriminate.
Defined.

(** ** The balance aggregator (getSettlementSummary) *)

(** *** The [$sort] stage *)

Lemma insert_desc_perm (s : Settlement) (l : list Settlement) :
  insert_desc s l ≡ₚ s :: l.
Proof.
  induction l as [|x l IH]; [done|]. cbn [insert_desc].
  destruct (Qltb _ _); [|done].
  rewrite IH. apply perm_swap.
Qed.

Lemma sort_desc_perm (l : list Settlement) : sort_desc l ≡ₚ l.
Proof.
  induction l as [|x l IH]; [done|]. cbn [sort_desc foldr].
  fold (sort_desc l). by rewrite insert_desc_perm, IH.
Qed.

Lemma insert_desc_sorted (s : Settlement) (l : list Settlement) :
  StronglySorted net_ge l → StronglySorted net_ge (insert_desc s l).
Proof.
  induction l as [|x l IH]; intros Hl; cbn [insert_desc].
  - repeat constructor.
  - apply StronglySorted_inv in Hl as [Hl Hx].
    destruct (Qltb (totalOwed s) (totalOwed x)) eqn:E.
    + apply Qgtb_true_iff, Qlt_le_weak in E. constructor; [by apply IH|].
      rewrite insert_desc_perm. by constructor.
    + apply Qgtb_false_iff in E.
      constructor; [by constructor|].
      constructor; [done|].
      eapply Forall_impl; [exact Hx|]. intros y Hy. unfold net_ge in *.
      by eapply Qle_trans.
Qed.

Lemma sort_desc_sorted (l : list Settlement) :
  StronglySorted net_ge (sort_desc l).
Proof.
  induction l as [|x l IH]; [constructor|].
  cbn [sort_desc foldr]. by apply insert_desc_sorted.
Qed.

(** *** Sums in binary64 *)

Lemma fsum_snoc (l : list Q) (x : Q) : fsum (l ++ [x]) = fadd (fsum l) x.
Proof. unfold fsum. by rewrite fold_left_app. Qed.

(** *** The two scalar summaries *)

Lemma receive_sum_from (l : list Settlement) (acc : Q) :
  fold_left (λ sum s, fadd sum (totalOwed s))
    (filter (λ s, Qgtb (totalOwed s) 0 = true) l) acc
  = fold_left fadd (positive_nets l) acc.
Proof.
  revert acc. induction l as [|x l IH]; intros acc; [done|].
  rewrite filter_cons. unfold positive_nets. cbn [omap list_omap].
  destruct (Qgtb (totalOwed x) 0) eqn:G.
  - rewrite decide_True by done. cbn [fold_left]. apply IH.
  - rewrite decide_False by done. apply IH.
Qed.

Lemma pay_sum_from (l : list Settlement) (acc : Q) :
  fold_left (λ sum s, fadd sum (Qabs (totalOwed s)))
    (filter (λ s, Qltb (totalOwed s) 0 = true) l) acc
  = fold_left fadd (negative_nets_abs l) acc.
Proof.
  revert acc. induction l as [|x l IH]; intros acc; [done|].
  rewrite filter_cons. unfold negative_nets_abs. cbn [omap list_omap].
  destruct (Qltb (totalOwed x) 0) eqn:G.
  - rewrite decide_True by done. cbn [fold_left]. apply IH.
  - rewrite decide_False by done. apply IH.
Qed.

(** *** The [$group] stage *)

Lemma NoDup_fmap_eq {A B} (f : A → B) (l : list A) (x y : A) :
  NoDup (f <$> l) → x ∈ l → y ∈ l → f x = f y → x = y.
Proof.
  induction l as [|a l IH]; intros Hnd Hx Hy Hf; [by apply elem_of_nil in Hx|].
  rewrite fmap_cons in Hnd. apply NoDup_cons in Hnd as [Ha Hnd].
  apply elem_of_cons in Hx as [->|Hx]; apply elem_of_cons in Hy as [->|Hy].
  - done.
  - exfalso. apply Ha. rewrite Hf. apply list_elem_of_fmap. by exists y.
  - exfalso. apply Ha. rewrite <- Hf. apply list_elem_of_fmap. by exists x.
  - by apply IH.
Qed.

Lemma group_add_counterparties (U : N) (d : N * Expenditure)
    (groups : list Settlement) :
  counterparty <$> group_add U d groups
  = if decide (group_userId U d.2 ∈ counterparty <$> groups)
    then counterparty <$> groups
    else (counterparty <$> groups) ++ [group_userId U d.2].
Proof.
  induction groups as [|g gs IH]; cbn [group_add].
  - rewrite decide_False; [done|]. cbn. apply not_elem_of_nil.
  - destruct (decide (counterparty g = group_userId U d.2)) as [Hk|Hk].
    + rewrite decide_True; [done|]. cbn. rewrite Hk. left.
    + cbn [fmap list_fmap]. fold (list_fmap _ _ counterparty).
      change (list_fmap _ _ counterparty ?l) with (counterparty <$> l).
      rewrite IH.
      destruct (decide (group_userId U d.2 ∈ counterparty <$> gs)) as [Hin|Hin].
      * rewrite decide_True; [done|]. by right.
      * rewrite decide_False; [done|].
        intros [?|?]%elem_of_cons; [congruence|done].
Qed.

(** A row after one more document: a row of another counterparty as it was,
    the row of the document's counterparty with the document added, or a new
    row when that counterparty had none. *)
Lemma group_add_elem (U : N) (d : N * Expenditure) (groups : list Settlement)
    (g' : Settlement) :
  NoDup (counterparty <$> groups) →
  g' ∈ group_add U d groups →
  (g' ∈ groups ∧ counterparty g' ≠ group_userId U d.2)
  ∨ (∃ g, g ∈ groups ∧ counterparty g = group_userId U d.2
          ∧ g' = mkSettlement (counterparty g)
                   (sum_step (totalOwed g) (owed_amount U d.2))
                   (transactions g ++ [tx_of U d]) (userDetails g))
  ∨ ((group_userId U d.2 ∉ counterparty <$> groups)
     ∧ g' = mkSettlement (group_userId U d.2)
              (sum_step 0 (owed_amount U d.2)) [tx_of U d] (paidBy d.2)).
Proof.
  induction groups as [|g1 gs IH]; cbn [group_add]; intros Hnd Hg.
  - apply list_elem_of_singleton in Hg as ->. right; right.
    split; [apply not_elem_of_nil|done].
  - rewrite fmap_cons in Hnd. apply NoDup_cons in Hnd as [Hg1 Hnd].
    destruct (decide (counterparty g1 = group_userId U d.2)) as [Hk|Hk].
    + apply elem_of_cons in Hg as [->|Hg].
      * right; left. exists g1. split; [left|done].
      * left. split; [by right|]. intros Heq. apply Hg1.
        rewrite Hk, <- Heq. apply list_elem_of_fmap. by exists g'.
    + apply elem_of_cons in Hg as [->|Hg].
      * left. split; [left|done].
      * destruct (IH Hnd Hg) as [[? ?]|[(g & ? & ? & ?)|[? ?]]].
        -- left. split; [by right|done].
        -- right; left. exists g. split; [by right|done].
        -- right; right. split; [|done].
           rewrite fmap_cons. intros [?|?]%elem_of_cons; [congruence|done].
Qed.

Lemma filter_key_snoc (U : N) (k : option N) (docs : list (N * Expenditure))
    (d : N * Expenditure) :
  filter (λ d, group_userId U d.2 = k) (docs ++ [d])
  = filter (λ d, group_userId U d.2 = k) docs
    ++ (if decide (group_userId U d.2 = k) then [d] else []).
Proof.
  by rewrite filter_app.
Qed.

Lemma groups_of_step (U : N) (docs : list (N * Expenditure))
    (d : N * Expenditure) (groups : list Settlement) :
  groups_of U docs groups →
  groups_of U (docs ++ [d]) (group_add U d groups).
Proof.
  intros (Hnd & Hrows & Hcov).
  pose proof (group_add_counterparties U d groups) as Hcps.
  split_and!.
  - rewrite Hcps. case_decide; [done|]. apply NoDup_app.
    split_and!; [done| |apply NoDup_singleton].
    intros x Hx Hin. apply list_elem_of_singleton in Hin as ->. done.
  - intros g' Hg'. rewrite filter_key_snoc.
    destruct (group_add_elem _ _ _ _ Hnd Hg')
      as [[Hg Hk]|[(g & Hg & Hk & ->)|[Hk ->]]].
    + destruct (Hrows g' Hg) as (Htx & Htot & Hud & Hne).
      rewrite decide_False by congruence. by rewrite app_nil_r.
    + destruct (Hrows g Hg) as (Htx & Htot & Hud & Hne).
      cbn [counterparty transactions totalOwed userDetails].
      rewrite decide_True by done. split_and!.
      * by rewrite fmap_app, Htx.
      * rewrite omap_app, Htot. cbn [omap list_omap tx_of tx_amount].
        unfold sum_step. destruct (owed_amount U d.2).
        -- by rewrite fsum_snoc.
        -- by rewrite app_nil_r.
      * rewrite Hud.
        destruct (filter _ docs) as [|d0 l0] eqn:E; [|done].
        exfalso. apply Hne. by rewrite Htx.
      * intros Heq. by apply app_eq_nil in Heq as [_ [=]].
    + cbn [counterparty transactions totalOwed userDetails].
      assert (Hnone : filter (λ d0 : N * Expenditure,
                                group_userId U d0.2 = group_userId U d.2)
                        docs = []).
      { destruct (filter _ docs) as [|d0 l0] eqn:E; [done|].
        exfalso. apply Hk.
        assert (Hd0 : d0 ∈ filter (λ d0 : N * Expenditure,
                                     group_userId U d0.2 = group_userId U d.2)
                             docs) by (rewrite E; left).
        apply list_elem_of_filter in Hd0 as [<- Hd0]. by apply Hcov. }
      rewrite Hnone, decide_True by done. split_and!; try done.
      cbn [omap list_omap tx_of tx_amount]. unfold sum_step.
      by destruct (owed_amount U d.2).
  - intros d' Hd'. rewrite Hcps. apply elem_of_app in Hd' as [Hd'|Hd'].
    + case_decide; [by apply Hcov|]. apply elem_of_app. left. by apply Hcov.
    + apply list_elem_of_singleton in Hd' as ->.
      case_decide; [done|]. apply elem_of_app. right. left.
Qed.

(** The grouping is the one [groups_of] describes. *)
Lemma group_stage_groups_of (U : N) (docs : list (N * Expenditure)) :
  groups_of U docs (group_stage U docs).
Proof.
  induction docs as [|d docs IH] using rev_ind.
  - split_and!; [constructor| |].
    + intros g Hg. by apply elem_of_nil in Hg.
    + intros d Hd. by apply elem_of_nil in Hd.
  - unfold group_stage. rewrite fold_left_app. cbn [fold_left].
    by apply groups_of_step.
Qed.

(** The documents that reach the [$group] stage. *)
Lemma pipeline_docs (db : gmap N Expenditure) (users : gset N) (U : N)
    (d : N * Expenditure) :
  d ∈ open_bills db users U
  ↔ db !! d.1 = Some d.2 ∧ match_unsettled U d.2 = true ∧ paidBy d.2 ∈ users.
Proof.
  unfold open_bills. rewrite !list_elem_of_filter.
  destruct d as [id e]. rewrite elem_of_map_to_list. cbn [fst snd]. tauto.
Qed.

Lemma open_bills_spec (db : gmap N Expenditure) (users : gset N) (U : N)
    (id : N) (e : Expenditure) :
  (id, e) ∈ open_bills db users U
  ↔ db !! id = Some e
    ∧ isSettled e = Some false
    ∧ (paidBy e = U ∨ ∃ s, s ∈ splits e ∧ split_user s = U)
    ∧ paidBy e ∈ users.
Proof.
  rewrite pipeline_docs. cbn [fst snd]. unfold match_unsettled.
  rewrite andb_true_iff, bool_decide_eq_true, orb_true_iff, N.eqb_eq,
    has_split_spec.
  tauto.
Qed.

Lemma open_bills_NoDup (db : gmap N Expenditure) (users : gset N) (U : N) :
  NoDup (open_bills db users U).*1.
Proof.
  eapply sublist_NoDup; [apply (NoDup_fst_map_to_list db)|].
  apply fmap_sublist. unfold open_bills.
  etrans; apply sublist_filter.
Qed.

Lemma settlement_groups_of (db : gmap N Expenditure) (users : gset N)
    (U : N) :
  groups_of U (open_bills db users U) (settlement_groups db users U).
Proof. apply group_stage_groups_of. Qed.

(** A transaction of the grouping comes from a document of the pipeline,
    under that document's counterparty. *)
Lemma group_stage_sound (U : N) (docs : list (N * Expenditure))
    (g : Settlement) (tx : Transaction) :
  g ∈ group_stage U docs → tx ∈ transactions g →
  ∃ d, d ∈ docs ∧ tx = tx_of U d ∧ counterparty g = group_userId U d.2.
Proof.
  intros Hg Htx.
  destruct (group_stage_groups_of U docs) as (_ & Hrows & _).
  destruct (Hrows g Hg) as (Heq & _). rewrite Heq in Htx.
  apply list_elem_of_fmap in Htx as (d & -> & Hd).
  apply list_elem_of_filter in Hd as [Hk Hd]. by exists d.
Qed.

(** A document of the pipeline is recorded once: in the row of its
    counterparty, by one transaction, and in no other row. *)
Lemma bill_recorded_once (U : N) (k : option N) (id : N)
    (docs : list (N * Expenditure)) :
  id ∉ docs.*1 →
  filter (λ tx, tx_id tx = id)
    (tx_of U <$> filter (λ d, group_userId U d.2 = k) docs) = [].
Proof.
  induction docs as [|[id' e'] docs IH]; intros Hid; [done|].
  rewrite fmap_cons, not_elem_of_cons in Hid. destruct Hid as [Hne Hid].
  rewrite filter_cons. cbn [fst snd] in *. case_decide.
  - rewrite fmap_cons, filter_cons. cbn [tx_of tx_id fst].
    rewrite decide_False by done. by apply IH.
  - by apply IH.
Qed.

Lemma bill_recorded (U : N) (id : N) (e : Expenditure)
    (docs : list (N * Expenditure)) :
  NoDup docs.*1 → (id, e) ∈ docs →
  filter (λ tx, tx_id tx = id)
    (tx_of U <$> filter (λ d, group_userId U d.2 = group_userId U e) docs)
  = [tx_of U (id, e)].
Proof.
  induction docs as [|[id' e'] docs IH]; intros Hnd Hin;
    [by apply elem_of_nil in Hin|].
  rewrite fmap_cons in Hnd. apply NoDup_cons in Hnd as [Hfresh Hnd].
  cbn [fst] in Hfresh.
  apply elem_of_cons in Hin as [[= <- <-]|Hin].
  - rewrite filter_cons. cbn [snd]. rewrite decide_True by done.
    rewrite fmap_cons, filter_cons. cbn [tx_of tx_id fst].
    rewrite decide_True by done. f_equal. by apply bill_recorded_once.
  - assert (Hne : id' ≠ id).
    { intros ->. apply Hfresh. apply list_elem_of_fmap. by exists (id, e). }
    rewrite filter_cons. cbn [snd]. case_decide.
    + rewrite fmap_cons, filter_cons. cbn [tx_of tx_id fst].
      rewrite decide_False by done. by apply IH.
    + by apply IH.
Qed.

Lemma bill_in_one_row (U : N) (docs : list (N * Expenditure))
    (groups : list Settlement) (id : N) (e : Expenditure) :
  groups_of U docs groups → NoDup docs.*1 → (id, e) ∈ docs →
  ∃ g, g ∈ groups
       ∧ counterparty g = group_userId U e
       ∧ filter (λ tx, tx_id tx = id) (transactions g) = [tx_of U (id, e)]
       ∧ totalOwed g = fsum (omap tx_amount (transactions g))
       ∧ (∀ g' tx, g' ∈ groups → tx ∈ transactions g' → tx_id tx = id →
                   g' = g).
Proof.
  intros (Hnd & Hrows & Hcov) Hids Hin.
  pose proof (Hcov _ Hin) as Hk. cbn [snd] in Hk.
  apply list_elem_of_fmap in Hk as (g & Hk & Hg).
  exists g. destruct (Hrows g Hg) as (Htx & Htot & _ & _).
  split_and!; try done.
  - rewrite Htx, <- Hk. by apply bill_recorded.
  - intros g' tx Hg' Htx' Hid.
    destruct (Hrows g' Hg') as (Heq & _). rewrite Heq in Htx'.
    apply list_elem_of_fmap in Htx' as ([id' e'] & -> & Hd).
    apply list_elem_of_filter in Hd as [Hk' Hd].
    cbn [tx_of tx_id fst snd] in *. subst id'.
    assert (He : (id, e') = (id, e))
      by (by apply (NoDup_fmap_eq fst docs)).
    injection He as ->.
    apply (NoDup_fmap_eq counterparty groups); [done..|congruence].
Qed.


(** C4, as the code has it — for an unsettled expenditure whose payer is the
    querying user U (a known user) and whose split list is not empty, the
    aggregator records the bill once: by one transaction, of the amount of
    the first split of the list, in the row of the participant of that first
    split, whatever its paid flag and whoever its participant; no other row
    holds a transaction of the bill, so the other splits contribute nothing,
    and the net of the row is the sum of the amounts of its transactions,
    each counted once. *)
Theorem payer_records_first_split (db : gmap N Expenditure) (users : gset N)
    (U id : N) (e : Expenditure) (s : Split) (rest : list Split) :
  db !! id = Some e →
  isSettled e = Some false →
  paidBy e = U →
  U ∈ users →
  splits e = s :: rest →
  ∃ g, g ∈ settlement_groups db users U
       ∧ counterparty g = Some (split_user s)
       ∧ filter (λ tx, tx_id tx = id) (transactions g)
         = [mkTransaction id (description e) (Some (split_amount s)) (date e)]
       ∧ totalOwed g = fsum (omap tx_amount (transactions g))
       ∧ (∀ g' tx, g' ∈ settlement_groups db users U →
                   tx ∈ transactions g' → tx_id tx = id → g' = g).
Proof.
  intros Hdb Hst Hpayer HU HS.
  assert (Hkey : group_userId U e = Some (split_user s)).
  { unfold group_userId. by rewrite Hpayer, N.eqb_refl, HS. }
  assert (Hamt : owed_amount U e = Some (split_amount s)).
  { unfold owed_amount. by rewrite Hpayer, N.eqb_refl, HS. }
  assert (Hin : (id, e) ∈ open_bills db users U).
  { apply pipeline_docs. cbn [fst snd]. split; [done|]. split; [|by subst].
    unfold match_unsettled.
    by rewrite bool_decide_eq_true_2, Hpayer, N.eqb_refl. }
  destruct (bill_in_one_row U _ _ id e (settlement_groups_of db users U)
              (open_bills_NoDup db users U) Hin)
    as (g & Hg & Hk & Hone & Htot & Honly).
  exists g. split_and!; try done.
  - congruence.
  - rewrite Hone. unfold tx_of. cbn [fst snd]. by rewrite Hamt.
Qed.

(** The friend's split comes first and is already paid; it is recorded all
    the same, and the guest's unpaid split is not. *)
Lemma payer_records_first_split_witness :
  let db := dinner_db [mkSplit friend 60 (Some true) None;
                       mkSplit guest 40 (Some false) None] false in
  ∃ g, g ∈ settlement_groups db everyone payer
       ∧ counterparty g = Some friend
       ∧ filter (λ tx, tx_id tx = dinner_id) (transactions g)
         = [mkTransaction dinner_id "Dinner" (Some 60) 1700000000000%Z]
       ∧ totalOwed g = fsum (omap tx_amount (transactions g))
       ∧ (∀ g' tx, g' ∈ settlement_groups db everyone payer →
                   tx ∈ transactions g' → tx_id tx = dinner_id → g' = g).
Proof.
  apply (payer_records_first_split
           (dinner_db [mkSplit friend 60 (Some true) None;
                       mkSplit guest 40 (Some false) None] false)
           everyone payer dinner_id
           (dinner_doc [mkSplit friend 60 (Some true) None;
                        mkSplit guest 40 (Some false) None] false)
           (mkSplit friend 60 (Some true) None)
           [mkSplit guest 40 (Some false) None]).
  - vm_compute. reflexivity.
  - reflexivity.
  - reflexivity.
  - apply (bool_decide_unpack (payer ∈ everyone)). vm_compute. exact I.
  - reflexivity.
Defined.

(** C4, as stated, fails.  The payer's bill has two unpaid splits of other
    participants: the grouping holds the friend's 60 and nothing for the
    guest's 40.  With the friend's split already paid, the 60 is recorded
    nevertheless; with the payer's own split first, that one is recorded. *)
Lemma payer_other_splits_not_recorded :
  let row (who : N) (q : Q) :=
    mkSettlement (Some who) q
      [mkTransaction dinner_id "Dinner" (Some q) 1700000000000%Z] payer in
  let groups S := settlement_groups (dinner_db S false) everyone payer in
  groups [mkSplit friend 60 (Some false) None; mkSplit guest 40 (Some false) None]
  = [row friend 60]
  ∧ (∀ g, g ∈ groups [mkSplit friend 60 (Some false) None;
                       mkSplit guest 40 (Some false) None] →
          counterparty g ≠ Some guest)
  ∧ groups [mkSplit friend 60 (Some true) None; mkSplit guest 40 (Some false) None]
    = [row friend 60]
  ∧ groups [mkSplit payer 40 (Some true) None; mkSplit friend 60 (Some false) None]
    = [row payer 40].
Proof.
  cbv zeta.
  assert (H1 : settlement_groups
                 (dinner_db [mkSplit friend 60 (Some false) None;
                             mkSplit guest 40 (Some false) None] false)
                 everyone payer
               = [mkSettlement (Some friend) 60
                    [mkTransaction dinner_id "Dinner" (Some 60)
                       1700000000000%Z] payer])
    by (vm_compute; reflexivity).
  split; [exact H1|]. split.
  - intros g Hg. rewrite H1 in Hg.
    apply list_elem_of_singleton in Hg as ->. discriminate.
  - split; vm_compute; reflexivity.
Qed.

(** *** The handlers on the sample data *)


(** The summary of [payer] over the two open bills: the friend's 60 first,
    then the 25 owed to the guest. *)
Example settlement_summary_two_bills :
  getSettlementSummary two_bills everyone payer
  = mkResponse 200
      (PSettlements
         (mkSummary
            [mkSettlement (Some friend) 60
               [mkTransaction dinner_id "Dinner" (Some 60) 1700000000000%Z]
               payer;
             mkSettlement (Some guest) (-25)
               [mkTransaction taxi_id "Taxi" (Some (-25)) 1700000100000%Z]
               guest]
            60 25)).
Proof. vm_compute. reflexivity. Qed.

(** The properties of the specification's list for the aggregator: with 60
    of a bill of 100 owed by the friend, [payer] sees the friend at 60 and
    the friend sees [payer] at -60. *)
Example settlement_summary_symmetric :
  let db := dinner_db [mkSplit friend 60 (Some false) None] false in
  (totalOwed <$> aggregate_settlements db everyone payer,
   counterparty <$> aggregate_settlements db everyone payer)
  = ([60], [Some friend])
  ∧ (totalOwed <$> aggregate_settlements db everyone friend,
     counterparty <$> aggregate_settlements db everyone friend)
    = ([-60], [Some payer]).
Proof. split; vm_compute; reflexivity. Qed.


(** * Further properties of the handlers *)

(** ** What validation leaves in a document *)

Section Validators.
Context {casters : Casters}.

Lemma number_path_Valid (m1 m2 : string) (v : option Value) (q : Q) :
  number_path m1 m2 v = Valid q →
  cast_path castNumber v = CastOk q ∧ 0 <= q.
Proof.
  unfold number_path. destruct (cast_path castNumber v) as [q'| |]; try done.
  destruct (Qltb q' 0) eqn:E; [done|]. intros [= ->].
  split; [done|]. by apply Qgtb_false_iff in E.
Qed.

Lemma enum_path_Valid (m : string) (values : list string) (em : string)
    (v : option Value) (s : string) :
  enum_path m values em v = Valid s → s ∈ values.
Proof.
  unfold enum_path. destruct (cast_path castString v) as [s'| |]; try done.
  destruct (String.eqb s' ""); [done|].
  destruct (str_in s' values) eqn:E; [|done]. intros [= ->].
  by apply str_in_spec.
Qed.

Lemma description_path_Valid (v : option Value) (s : string) :
  description_path v = Valid s → s ≠ "" ∧ (js_length s ≤ 500)%nat.
Proof.
  unfold description_path.
  destruct (cast_path castString v) as [s'| |]; try done.
  destruct (String.eqb (trim s') "") eqn:E1; [done|].
  destruct (500 <? js_length (trim s'))%nat eqn:E2; [done|].
  intros [= <-]. split.
  - by apply String.eqb_neq.
  - by apply Nat.ltb_ge.
Qed.

Lemma tags_path_Valid (v : option Value) (tags : list string) :
  tags_path v = Valid tags →
  Forall (λ tag, (js_length tag ≤ 20)%nat) tags.
Proof.
  unfold tags_path. destruct v as [v|]; [|intros [= <-]; constructor].
  destruct (castStrings v) as [l| |]; try done.
  destruct (forallb _ l) eqn:E; [|done]. intros [= <-].
  apply Forall_forall. intros tag Htag.
  rewrite forallb_forall in E. apply Nat.leb_le, E.
  by apply list_elem_of_In.
Qed.

Lemma location_path_Valid (v : option Value) (loc : option string) :
  location_path v = Valid loc →
  ∀ l, loc = Some l → (js_length l ≤ 100)%nat.
Proof.
  unfold location_path. destruct (cast_path castString v) as [s| |]; try done.
  - destruct (100 <? js_length (trim s))%nat eqn:E; [done|].
    intros [= <-] l [= <-]. by apply Nat.ltb_ge.
  - intros [= <-] l [=].
Qed.

Lemma split_doc_amount (i : nat) (v : Value) (s : Split) :
  split_doc i v = inr s → 0 <= split_amount s.
Proof.
  unfold split_doc. destruct (castObject v) as [o| |]; try done.
  destruct (number_path _ _ (o !! "amount")) as [a|] eqn:Ha.
  - apply number_path_Valid in Ha as [_ Ha].
    repeat case_match; try done. by intros [= <-].
  - repeat case_match; done.
Qed.

Lemma split_docs_amounts (i : nat) (vs : list Value) (docs : list Split) :
  split_docs i vs = ([], docs) → Forall (λ s, 0 <= split_amount s) docs.
Proof.
  revert i docs. induction vs as [|v vs IH]; intros i docs; cbn [split_docs].
  - intros [= <-]. constructor.
  - destruct (split_docs (S i) vs) as [errs ds] eqn:E.
    destruct (split_doc i v) as [e|s] eqn:Es.
    + intros [= He <-]. apply app_eq_nil in He as [_ ->]. by eapply IH.
    + intros [= -> <-]. constructor; [by eapply split_doc_amount|].
      by eapply IH.
Qed.

Lemma splits_path_amounts (v : option Value) (docs : list Split) :
  splits_path v = inr docs → Forall (λ s, 0 <= split_amount s) docs.
Proof.
  unfold splits_path. destruct (cast_path castArray v) as [vs| |]; try done.
  - destruct (split_docs 0 vs) as [[|err errs] ds] eqn:E; [|done].
    intros [= <-]. by eapply split_docs_amounts.
  - intros [= <-]. constructor.
Qed.

(** The paths of a new document, one by one. *)
Lemma new_document_paths (now : Z) (obj : gmap string Value)
    (u p : N) (doc : Expenditure) :
  new_document now obj u p = inr doc →
  user doc = u ∧ paidBy doc = p
  ∧ number_path "Amount is required" "Amount cannot be negative"
      (obj !! "amount") = Valid (amount doc)
  ∧ number_path "Total amount is required" "Total amount cannot be negative"
      (obj !! "totalAmount") = Valid (totalAmount doc)
  ∧ enum_path "Category is required" categories " is not a valid category"
      (obj !! "category") = Valid (category doc)
  ∧ enum_path "Payment method is required" paymentMethods
      " is not a valid payment method" (obj !! "paymentMethod")
    = Valid (paymentMethod doc)
  ∧ description_path (obj !! "description") = Valid (description doc)
  ∧ tags_path (obj !! "tags") = Valid (tags doc)
  ∧ location_path (obj !! "location") = Valid (location doc).
Proof.
  unfold new_document. intros Hdoc.
  repeat case_match; try discriminate.
  by injection Hdoc as <-.
Qed.

Lemma new_document_valid (now : Z) (obj : gmap string Value)
    (u p : N) (doc : Expenditure) :
  new_document now obj u p = inr doc → schema_valid doc.
Proof.
  intros Hdoc.
  pose proof (new_document_splits _ _ _ _ _ Hdoc) as Hs.
  apply new_document_paths in Hdoc
    as (_ & _ & Ha & Ht & Hc & Hp & Hd & Htg & Hl).
  apply number_path_Valid in Ha as [_ Ha].
  apply number_path_Valid in Ht as [_ Ht].
  apply description_path_Valid in Hd as [Hd1 Hd2].
  repeat split; try done.
  - by eapply enum_path_Valid.
  - by eapply enum_path_Valid.
  - by eapply tags_path_Valid.
  - by eapply location_path_Valid.
  - by eapply splits_path_amounts.
Qed.

End Validators.

(** ** More on createExpenditure *)

Section CreateMore.
Context {casters : Casters}.

Lemma createExpenditure_created (db : gmap N Expenditure) (caller fresh : N)
    (now : Z) (body : gmap string Value) (id : N) (e : Expenditure)
    (db' : gmap N Expenditure) :
  createExpenditure db caller fresh now body
  = (mkResponse 201 (PDoc id e), db') →
  id = fresh
  ∧ new_document now (create_input body) caller caller = inr e
  ∧ pre_save e = None
  ∧ db' = <[fresh := e]> db.
Proof.
  intros Hr.
  destruct (createExpenditure_writes db caller fresh now body)
    as [[_ Hst]|(doc & Hdoc & Hs & Hw)].
  - rewrite Hr in Hst. done.
  - rewrite Hr in Hw. by injection Hw as -> -> ->.
Qed.

Lemma createExpenditure_stored (db : gmap N Expenditure) (caller fresh : N)
    (now : Z) (body : gmap string Value) (id : N) (e : Expenditure)
    (db' : gmap N Expenditure) :
  createExpenditure db caller fresh now body
  = (mkResponse 201 (PDoc id e), db') →
  user e = caller ∧ db' !! id = Some e.
Proof.
  intros (-> & Hdoc & _ & ->)%createExpenditure_created.
  apply new_document_paths in Hdoc as (Hu & _).
  split; [done|]. by rewrite lookup_insert_eq.
Qed.

(** A created expenditure belongs to the caller and is paid by the caller,
    whatever the body says; it is stored under the new [_id] and no other
    document of the collection is touched. *)
Theorem create_owner_and_frame (db : gmap N Expenditure) (caller fresh : N)
    (now : Z) (body : gmap string Value) (id : N) (e : Expenditure)
    (db' : gmap N Expenditure) :
  createExpenditure db caller fresh now body
  = (mkResponse 201 (PDoc id e), db') →
  user e = caller ∧ paidBy e = caller
  ∧ db' !! id = Some e
  ∧ ∀ k, k ≠ id → db' !! k = db !! k.
Proof.
  intros (-> & Hdoc & _ & ->)%createExpenditure_created.
  apply new_document_paths in Hdoc as (Hu & Hp & _).
  repeat split; try done.
  - by rewrite lookup_insert_eq.
  - intros k Hk. by rewrite lookup_insert_ne.
Qed.

(** Without a [totalAmount] in the body, or with a falsy one (0, null, the
    empty string, false), the stored totalAmount is the stored amount. *)
Theorem create_total_defaults_to_amount (db : gmap N Expenditure)
    (caller fresh : N) (now : Z) (body : gmap string Value) (id : N)
    (e : Expenditure) (db' : gmap N Expenditure) :
  truthy (body !! "totalAmount") = false →
  createExpenditure db caller fresh now body
  = (mkResponse 201 (PDoc id e), db') →
  totalAmount e = amount e.
Proof.
  intros Hfalsy (_ & Hdoc & _)%createExpenditure_created.
  apply new_document_paths in Hdoc as (_ & _ & Ha & Ht & _).
  rewrite create_input_other in Ha by done.
  assert (Hobj : create_input body !! "totalAmount" = body !! "amount").
  { unfold create_input.
    destruct (or_js (body !! "splits") (Some (VArr []))) as [sv|];
      unfold or_js; rewrite Hfalsy, !lookup_delete_ne by done;
      (destruct (body !! "amount") as [v|] eqn:Hv;
       [by rewrite ?lookup_insert_ne, lookup_insert_eq by done|]);
      apply number_path_Valid in Ha as [Ha _]; done. }
  rewrite Hobj in Ht.
  apply number_path_Valid in Ha as [Ha _].
  apply number_path_Valid in Ht as [Ht _]. congruence.
Qed.

(** A body without splits, or with falsy ones, is never rejected by the save
    hook: the answer is 201 with an empty split list, or the 400 of the field
    validation.  The empty array must cast to the empty list. *)
Theorem create_without_splits (db : gmap N Expenditure) (caller fresh : N)
    (now : Z) (body : gmap string Value) :
  castArray (VArr []) = CastOk [] →
  truthy (body !! "splits") = false →
  let r := createExpenditure db caller fresh now body in
  (∃ e, r = (mkResponse 201 (PDoc fresh e), <[fresh := e]> db)
        ∧ splits e = [])
  ∨ (∃ errors, r = (mkResponse 400 (PValidation errors), db)).
Proof.
  intros Hcast Hfalsy. cbv zeta. rewrite createExpenditure_cases.
  destruct (new_document _ _ _ _) as [errors|doc] eqn:Hdoc.
  { right. by exists errors. }
  assert (Hs : splits doc = []).
  { apply new_document_splits in Hdoc.
    assert (Hobj : create_input body !! "splits" = Some (VArr [])).
    { unfold create_input.
      assert (or_js (body !! "splits") (Some (VArr [])) = Some (VArr []))
        as -> by (unfold or_js; by rewrite Hfalsy).
      by rewrite lookup_insert_eq. }
    rewrite Hobj in Hdoc. unfold splits_path, cast_path in Hdoc.
    rewrite Hcast in Hdoc. cbn in Hdoc. congruence. }
  left. exists doc. split; [|done].
  assert (Hok : pre_save doc = None).
  { apply pre_save_accepts_iff. by left. }
  by rewrite Hok.
Qed.

(** Every created expenditure satisfies the validators of the schema: the
    amounts are not negative, category and payment method are of the
    enumerations, the description is not empty and has at most 500
    characters, a tag at most 20, the location at most 100. *)
Theorem create_stores_valid_document (db : gmap N Expenditure)
    (caller fresh : N) (now : Z) (body : gmap string Value) (id : N)
    (e : Expenditure) (db' : gmap N Expenditure) :
  createExpenditure db caller fresh now body
  = (mkResponse 201 (PDoc id e), db') →
  schema_valid e.
Proof.
  intros (_ & Hdoc & _)%createExpenditure_created.
  by eapply new_document_valid.
Qed.

End CreateMore.

(** ** An invariant of the collection *)

Section Invariant.
Context {casters : Casters}.

Lemma pre_save_ext (e e' : Expenditure) :
  split_amount <$> splits e' = split_amount <$> splits e →
  totalAmount e' = totalAmount e →
  pre_save e' = pre_save e.
Proof.
  intros Hs Ht. unfold pre_save. rewrite Ht.
  assert (Hlen : length (splits e') = length (splits e)).
  { by rewrite <- (length_fmap split_amount), Hs, length_fmap. }
  by rewrite Hlen, !reduce_sum_from, Hs.
Qed.

(** An assignment of updateExpenditure keeps a valid document valid: the
    value is written only when the validators of its path accept it. *)
Lemma assign_schema_valid (update : string) (value : Value)
    (acc : Expenditure * list (string * string)) :
  schema_valid acc.1 → schema_valid (assign update value acc).1.
Proof.
  destruct acc as [e errs]. cbn [fst].
  intros (Ha & Ht & Hc & Hp & Hd1 & Hd2 & Htg & Hl & Hs).
  unfold assign.
  repeat case_match; cbn [fst]; try done; unfold schema_valid; cbn.
  - match goal with H : number_path _ _ _ = Valid _ |- _ =>
      apply number_path_Valid in H as [_ ?] end. done.
  - match goal with H : enum_path _ _ _ _ = Valid _ |- _ =>
      apply enum_path_Valid in H end. done.
  - match goal with H : description_path _ = Valid _ |- _ =>
      apply description_path_Valid in H as [? ?] end. done.
  - match goal with H : enum_path _ _ _ _ = Valid _ |- _ =>
      apply enum_path_Valid in H end. done.
  - match goal with H : tags_path _ = Valid _ |- _ =>
      apply tags_path_Valid in H end. done.
  - match goal with H : location_path _ = Valid _ |- _ =>
      pose proof (location_path_Valid _ _ H) end. done.
Qed.

Lemma assign_all_schema_valid (l : list (string * Value))
    (acc : Expenditure * list (string * string)) :
  schema_valid acc.1 →
  schema_valid (fold_left (λ acc kv, assign kv.1 kv.2 acc) l acc).1.
Proof.
  revert acc. induction l as [|[k v] l IH]; intros acc Hv; [done|].
  cbn [fold_left]. by apply IH, assign_schema_valid.
Qed.

Lemma assign_all_user (l : list (string * Value))
    (acc : Expenditure * list (string * string)) :
  user (fold_left (λ acc kv, assign kv.1 kv.2 acc) l acc).1 = user acc.1.
Proof.
  revert acc. induction l as [|[k v] l IH]; intros acc; [done|].
  cbn [fold_left]. rewrite IH. apply assign_protected.
Qed.

(** What a successful updateExpenditure has read and written. *)
Lemma updateExpenditure_success (db : gmap N Expenditure) (caller : N)
    (id : string) (body : gmap string Value) (oid : N) (e' : Expenditure)
    (db' : gmap N Expenditure) :
  updateExpenditure db caller id body = (mkResponse 200 (PDoc oid e'), db') →
  castObjectId (VStr id) = CastOk oid
  ∧ (∀ k, is_Some (body !! k) → k ∈ allowedUpdates)
  ∧ ∃ e, db !! oid = Some e ∧ user e = caller
         ∧ fold_left (λ acc kv, assign kv.1 kv.2 acc) (map_to_list body)
             (e, []) = (e', [])
         ∧ pre_save e' = None
         ∧ db' = <[oid := e']> db.
Proof.
  unfold updateExpenditure.
  destruct (forallb _ _) eqn:Hkeys; cbn [negb]; [|done].
  unfold findOne_owned.
  destruct (castObjectId (VStr id)) as [o| |] eqn:Hc; try done.
  destruct (db !! o) as [e|] eqn:Hdb; [|done].
  destruct (user e =? caller)%N eqn:Hu; [|done].
  destruct (fold_left _ _ _) as [e2 errs] eqn:Hfold.
  destruct errs as [|err errs]; [|done].
  unfold save. destruct (pre_save e2) as [error|] eqn:Hs.
  { destruct (catch_validation_hook _ _ Hs) as [-> ->]. done. }
  intros [= <- <- <-]. split; [done|]. split.
  - intros k [v Hv]. rewrite forallb_forall in Hkeys.
    apply str_in_spec, Hkeys, list_elem_of_In, list_elem_of_fmap.
    exists (k, v). split; [done|]. by apply elem_of_map_to_list.
  - exists e. apply N.eqb_eq in Hu. done.
Qed.

Lemma ledger_ok_intro (e : Expenditure) :
  schema_valid e → pre_save e = None → paidBy e = user e → ledger_ok e.
Proof. intros Hv Hs%pre_save_accepts_iff Hp. done. Qed.

Lemma ledger_ok_pre_save (e : Expenditure) : ledger_ok e → pre_save e = None.
Proof. intros (_ & Hs & _). by apply pre_save_accepts_iff. Qed.

(** Each handler that writes keeps the property of every stored document. *)
Lemma handle_keeps_ledger_ok (db : gmap N Expenditure) (req : Request) :
  (∀ k e, db !! k = Some e → ledger_ok e) →
  ∀ k e, handle db req !! k = Some e → ledger_ok e.
Proof.
  intros Hdb k e. destruct req as [caller fresh now body|caller id body
                                  |caller id now|caller id]; cbn [handle].
  - destruct (createExpenditure_writes db caller fresh now body)
      as [[-> _]|(doc & Hdoc & Hs & ->)]; [apply Hdb|].
    cbn [snd]. destruct (decide (fresh = k)) as [->|Hne].
    + rewrite lookup_insert_eq. intros [= <-].
      apply ledger_ok_intro; [by eapply new_document_valid|done|].
      apply new_document_paths in Hdoc as (-> & -> & _). done.
    + rewrite lookup_insert_ne by done. apply Hdb.
  - destruct (updateExpenditure db caller id body) as [r db'] eqn:Hr.
    cbn [snd].
    destruct (updateExpenditure_cases db caller id body)
      as [[Hsame _]|(o & e0 & e1 & Hdb0 & Hp & Hs & Hw)];
      rewrite Hr in *; cbn [snd] in *.
    { subst db'. apply Hdb. }
    injection Hw as -> ->.
    destruct (decide (o = k)) as [->|Hne].
    + rewrite lookup_insert_eq. intros [= <-].
      apply updateExpenditure_success in Hr
        as (_ & _ & e2 & Hdb2 & Hu & Hfold & _ & _).
      rewrite Hdb0 in Hdb2. injection Hdb2 as <-.
      destruct (Hdb _ _ Hdb0) as (Hv & _ & Hpu).
      apply ledger_ok_intro; [|done|].
      * pose proof (assign_all_schema_valid (map_to_list body) (e0, []) Hv)
          as Hv'. by rewrite Hfold in Hv'.
      * pose proof (assign_all_user (map_to_list body) (e0, [])) as Hu'.
        rewrite Hfold in Hu'. cbn [fst] in Hu'.
        unfold protected_paths in Hp. injection Hp as _ _ Hpaid _.
        congruence.
    + rewrite lookup_insert_ne by done. apply Hdb.
  - destruct (markSplitAsPaid_cases db caller id now)
      as [(-> & _)|(o & e0 & i & s & e1 & Hq & Hf & HS & _ & Hsame & Hs & ->)];
      [apply Hdb|].
    cbn [snd]. destruct (decide (o = k)) as [->|Hne].
    + rewrite lookup_insert_eq. intros [= <-].
      apply findOne_unsettled_Some in Hq as (_ & Hdb0 & _).
      destruct (Hdb _ _ Hdb0) as (Hv & _ & Hpu).
      injection Hsame as Hu Ha Hc Hd Hdt Hpm Htg Hl Ht Hp.
      apply ledger_ok_intro; [|done|congruence].
      destruct Hv as (? & ? & ? & ? & ? & ? & ? & ? & Hnn).
      unfold schema_valid.
      rewrite Ha, Hc, Hd, Hpm, Htg, Hl, Ht, HS.
      repeat split; try done.
      apply list_find_Some in Hf as (Hi & _).
      apply Forall_insert; [done|]. cbn.
      rewrite Forall_forall in Hnn. apply Hnn.
      by eapply list_elem_of_lookup_2.
    + rewrite lookup_insert_ne by done. apply Hdb.
  - unfold deleteExpenditure.
    destruct (findOne_owned db id caller) as [error|[[o e0]|]];
      cbn [snd]; try apply Hdb.
    intros Hk. apply lookup_delete_Some in Hk as [_ Hk]. by eapply Hdb.
Qed.

Lemma handles_keep_ledger_ok (reqs : list Request) (db : gmap N Expenditure) :
  (∀ k e, db !! k = Some e → ledger_ok e) →
  ∀ k e, fold_left handle reqs db !! k = Some e → ledger_ok e.
Proof.
  revert db. induction reqs as [|req reqs IH]; intros db Hdb; [done|].
  cbn [fold_left]. by apply IH, handle_keeps_ledger_ok.
Qed.

Lemma serve_ledger_ok (reqs : list Request) (k : N) (e : Expenditure) :
  fold_left handle reqs ∅ !! k = Some e → ledger_ok e.
Proof.
  apply handles_keep_ledger_ok.
  intros k' e' Hk. by rewrite lookup_empty in Hk.
Qed.


End Invariant.

(** ** The owner's handlers: get, update, delete *)

(** *** One path through the assignments of updateExpenditure *)

Section OnePath.
Context {casters : Casters}.
Context {A : Type} (key : string) (get : Expenditure → A)
  (set : A → Expenditure → Expenditure) (check : Value → Checked A).
Hypothesis assign_key : ∀ v e errs,
  assign key v (e, errs)
  = match check v with
    | Valid a => (set a e, errs)
    | Invalid m => (e, errs ++ [(key, m)])
    end.
Hypothesis get_set : ∀ a e, get (set a e) = a.
Hypothesis assign_other : ∀ k v acc,
  k ≠ key → get (assign k v acc).1 = get acc.1.

Lemma assign_errs_grow (k : string) (v : Value)
    (acc : Expenditure * list (string * string)) :
  ∃ more, (assign k v acc).2 = acc.2 ++ more.
Proof.
  destruct acc as [e errs]. unfold assign.
  repeat case_match; cbn [snd];
    first [by exists []; rewrite app_nil_r | by eexists].
Qed.

Lemma assign_all_errs_grow (l : list (string * Value))
    (acc : Expenditure * list (string * string)) :
  ∃ more,
    (fold_left (λ acc kv, assign kv.1 kv.2 acc) l acc).2 = acc.2 ++ more.
Proof.
  revert acc. induction l as [|[k v] l IH]; intros acc.
  - exists []. by rewrite app_nil_r.
  - cbn [fold_left fst snd]. destruct (IH (assign k v acc)) as [m1 ->].
    destruct (assign_errs_grow k v acc) as [m2 ->].
    exists (m2 ++ m1). by rewrite app_assoc.
Qed.

(** A path whose key is not among the assignments keeps its value. *)
Lemma path_untouched (l : list (string * Value))
    (acc : Expenditure * list (string * string)) :
  key ∉ l.*1 →
  get (fold_left (λ acc kv, assign kv.1 kv.2 acc) l acc).1 = get acc.1.
Proof.
  revert acc. induction l as [|[k v] l IH]; intros acc Hk; [done|].
  cbn [fold_left fst snd]. cbn in Hk.
  apply not_elem_of_cons in Hk as [Hne Hk].
  rewrite IH by done. by apply assign_other.
Qed.

(** A path whose key is among the assignments, when no error results, holds
    the value its validators accepted. *)
Lemma path_written (l : list (string * Value)) (v : Value)
    (e e' : Expenditure) :
  NoDup l.*1 → (key, v) ∈ l →
  fold_left (λ acc kv, assign kv.1 kv.2 acc) l (e, []) = (e', []) →
  check v = Valid (get e').
Proof.
  revert e. induction l as [|[k v0] l IH]; intros e Hnd Hin Hfold.
  { by apply elem_of_nil in Hin. }
  cbn in Hnd. apply NoDup_cons in Hnd as [Hk Hnd].
  cbn [fold_left fst snd] in Hfold.
  apply elem_of_cons in Hin as [[= <- <-]|Hin].
  - rewrite assign_key in Hfold.
    destruct (check v) as [a|m] eqn:Hc.
    + pose proof (path_untouched l (set a e, []) Hk) as Hg.
      rewrite Hfold in Hg. cbn [fst] in Hg. by rewrite Hg, get_set.
    + destruct (assign_all_errs_grow l (e, [] ++ [(key, m)])) as [more Hm].
      rewrite Hfold in Hm. cbn in Hm. done.
  - assert (Hne : k ≠ key).
    { intros ->. apply Hk, list_elem_of_fmap. by exists (key, v). }
    destruct (assign k v0 (e, [])) as [e1 errs1] eqn:Ha.
    destruct (assign_all_errs_grow l (e1, errs1)) as [more Hm].
    rewrite Hfold in Hm. cbn [snd] in Hm.
    symmetry in Hm. apply app_eq_nil in Hm as [-> _].
    by eapply IH.
Qed.

(** A path whose value its validators reject leaves an error. *)
Lemma path_rejected (l : list (string * Value)) (v : Value) (m : string)
    (acc : Expenditure * list (string * string)) :
  (key, v) ∈ l → check v = Invalid m →
  (key, m) ∈ (fold_left (λ acc kv, assign kv.1 kv.2 acc) l acc).2.
Proof.
  revert acc. induction l as [|[k v0] l IH]; intros acc Hin Hc.
  { by apply elem_of_nil in Hin. }
  cbn [fold_left fst snd].
  apply elem_of_cons in Hin as [[= <- <-]|Hin]; [|by apply IH].
  destruct acc as [e errs]. rewrite assign_key, Hc.
  destruct (assign_all_errs_grow l (e, errs ++ [(key, m)])) as [more ->].
  cbn [snd]. rewrite !elem_of_app, list_elem_of_singleton. tauto.
Qed.

End OnePath.

Section OwnerFacts.
Context {casters : Casters}.

Lemma allowed_keys_valid (body : gmap string Value) :
  (∀ k, is_Some (body !! k) → k ∈ allowedUpdates) →
  forallb (λ update, str_in update allowedUpdates) (map_to_list body).*1
  = true.
Proof.
  intros Hk. apply forallb_forall. intros k Hin.
  apply list_elem_of_In, list_elem_of_fmap in Hin as ([k' v] & -> & Hin).
  apply elem_of_map_to_list in Hin. apply str_in_spec, Hk. by exists v.
Qed.

Lemma findOne_owned_Some (db : gmap N Expenditure) (id : string)
    (caller oid : N) (e : Expenditure) :
  findOne_owned db id caller = inr (Some (oid, e))
  ↔ castObjectId (VStr id) = CastOk oid ∧ db !! oid = Some e
    ∧ user e = caller.
Proof.
  unfold findOne_owned.
  destruct (castObjectId (VStr id)) as [o| |].
  2,3: split; [discriminate | intros [[=] _]].
  destruct (db !! o) as [e0|] eqn:Hdb.
  2:{ split; [discriminate|]. intros ([= ->] & Hl & _). congruence. }
  destruct (user e0 =? caller)%N eqn:Hu.
  - apply N.eqb_eq in Hu. split.
    + by intros [= -> ->].
    + intros ([= ->] & Hl & _). rewrite Hdb in Hl. by injection Hl as ->.
  - apply N.eqb_neq in Hu. split; [discriminate|].
    intros ([= ->] & Hl & Hu'). rewrite Hdb in Hl. injection Hl as ->. done.
Qed.

(** For a caller who does not own the document, the query answers as for an
    id that names nothing. *)
Lemma findOne_owned_hidden (db : gmap N Expenditure) (id : string)
    (caller oid : N) (e : Expenditure) :
  castObjectId (VStr id) = CastOk oid → db !! oid = Some e →
  user e ≠ caller →
  findOne_owned db id caller = inr None
  ∧ findOne_owned (delete oid db) id caller = inr None.
Proof.
  intros Hc Hdb Hu. unfold findOne_owned.
  rewrite Hc, Hdb, lookup_delete_eq.
  apply N.eqb_neq in Hu. by rewrite Hu.
Qed.

(** The documents of other users are invisible to the owner's handlers.  For
    a caller who is not the owner of an expenditure, whether a split
    participant or not, getExpenditure, updateExpenditure and
    deleteExpenditure answer exactly as they would if the expenditure did
    not exist, and leave the collection as it is. *)
Theorem owner_handlers_hide_foreign_documents (db : gmap N Expenditure)
    (caller oid : N) (id : string) (e : Expenditure)
    (body : gmap string Value) :
  castObjectId (VStr id) = CastOk oid →
  db !! oid = Some e →
  user e ≠ caller →
  getExpenditure db caller id = getExpenditure (delete oid db) caller id
  ∧ (updateExpenditure db caller id body).1
    = (updateExpenditure (delete oid db) caller id body).1
  ∧ (deleteExpenditure db caller id).1
    = (deleteExpenditure (delete oid db) caller id).1
  ∧ (updateExpenditure db caller id body).2 = db
  ∧ (deleteExpenditure db caller id).2 = db.
Proof.
  intros Hc Hdb Hu.
  destruct (findOne_owned_hidden db id caller oid e Hc Hdb Hu) as [H1 H2].
  unfold getExpenditure, updateExpenditure, deleteExpenditure.
  rewrite H1, H2. repeat split; by destruct (negb _).
Qed.

(** A PATCH that sets a negative amount is answered 400 with the message of
    the [min] validator under [amount], whatever else the body holds, and
    nothing is written. *)
Theorem update_rejects_negative_amount (db : gmap N Expenditure)
    (caller oid : N) (id : string) (e : Expenditure)
    (body : gmap string Value) (v : Value) (q : Q) :
  (∀ k, is_Some (body !! k) → k ∈ allowedUpdates) →
  castObjectId (VStr id) = CastOk oid →
  db !! oid = Some e →
  user e = caller →
  body !! "amount" = Some v →
  castNumber v = CastOk q →
  q < 0 →
  ∃ details,
    updateExpenditure db caller id body
    = (mkResponse 400 (PValidation details), db)
    ∧ ("amount", "Amount cannot be negative") ∈ details.
Proof.
  intros Hkeys Hc Hdb Hu Hv Hcast Hq.
  unfold updateExpenditure. rewrite allowed_keys_valid by done. cbn [negb].
  assert (Hfind : findOne_owned db id caller = inr (Some (oid, e)))
    by by apply findOne_owned_Some.
  rewrite Hfind.
  pose proof (path_rejected "amount" set_amount
                (λ v, number_path "Amount is required"
                        "Amount cannot be negative" (Some v))
                (λ v e errs, eq_refl)
                (map_to_list body) v "Amount cannot be negative" (e, []))
    as Herr.
  destruct (fold_left _ _ _) as [e' errs]. cbn [snd] in Herr.
  assert (Hin : ("amount", "Amount cannot be negative") ∈ errs).
  { apply Herr; [by apply elem_of_map_to_list|].
    unfold number_path, cast_path. rewrite Hcast.
    apply Qgtb_true_iff in Hq. unfold Qltb. by rewrite Hq. }
  destruct errs as [|err errs]; [by apply elem_of_nil in Hin|].
  by eexists.
Qed.

End OwnerFacts.

Section OwnerRoundTrips.
Context {casters : Casters}.

Lemma assign_other_path {A} (get : Expenditure → A) (key k : string)
    (v : Value) (acc : Expenditure * list (string * string)) :
  (∀ a e, key ≠ "amount" → get (set_amount a e) = get e) →
  (∀ a e, key ≠ "category" → get (set_category a e) = get e) →
  (∀ a e, key ≠ "description" → get (set_description a e) = get e) →
  (∀ a e, key ≠ "date" → get (set_date a e) = get e) →
  (∀ a e, key ≠ "paymentMethod" → get (set_paymentMethod a e) = get e) →
  (∀ a e, key ≠ "tags" → get (set_tags a e) = get e) →
  (∀ a e, key ≠ "location" → get (set_location a e) = get e) →
  k ≠ key → get (assign k v acc).1 = get acc.1.
Proof.
  intros H1 H2 H3 H4 H5 H6 H7 Hne. destruct acc as [e errs]. unfold assign.
  repeat case_match; cbn [fst]; try done;
    repeat match goal with
           | H : String.eqb _ _ = true |- _ => apply String.eqb_eq in H; subst
           end;
    first [apply H1|apply H2|apply H3|apply H4|apply H5|apply H6|apply H7];
    done.
Qed.

(** A successful PATCH writes exactly the paths its body names: each of them
    holds the body's value as its validators accepted it, and each allowed
    path the body does not name keeps its value. *)
Theorem update_writes_body_fields (db : gmap N Expenditure) (caller : N)
    (id : string) (body : gmap string Value) (oid : N) (e' : Expenditure)
    (db' : gmap N Expenditure) :
  updateExpenditure db caller id body = (mkResponse 200 (PDoc oid e'), db') →
  ∃ e, db !! oid = Some e
  ∧ match body !! "amount" with
    | Some v => number_path "Amount is required" "Amount cannot be negative"
                  (Some v) = Valid (amount e')
    | None => amount e' = amount e
    end
  ∧ match body !! "category" with
    | Some v => enum_path "Category is required" categories
                  " is not a valid category" (Some v) = Valid (category e')
    | None => category e' = category e
    end
  ∧ match body !! "description" with
    | Some v => description_path (Some v) = Valid (description e')
    | None => description e' = description e
    end
  ∧ match body !! "date" with
    | Some v => date_value v = Valid (date e')
    | None => date e' = date e
    end
  ∧ match body !! "paymentMethod" with
    | Some v => enum_path "Payment method is required" paymentMethods
                  " is not a valid payment method" (Some v)
                = Valid (paymentMethod e')
    | None => paymentMethod e' = paymentMethod e
    end
  ∧ match body !! "tags" with
    | Some v => tags_path (Some v) = Valid (tags e')
    | None => tags e' = tags e
    end
  ∧ match body !! "location" with
    | Some v => location_path (Some v) = Valid (location e')
    | None => location e' = location e
    end.
Proof.
  intros (_ & _ & e & Hdb & _ & Hfold & _ & _)%updateExpenditure_success.
  exists e. split; [done|].
  pose proof (NoDup_fst_map_to_list body) as Hnd.
  assert (Hnone : ∀ k, body !! k = None → k ∉ (map_to_list body).*1).
  { intros k Hk Hin. apply list_elem_of_fmap in Hin as ([k' v] & -> & Hin).
    apply elem_of_map_to_list in Hin. cbn in Hk. congruence. }
  repeat split.
  - destruct (body !! "amount") as [v|] eqn:Hv.
    + eapply (path_written "amount" amount set_amount
                (λ v, number_path _ _ (Some v))); try done.
      * intros k' v' acc Hne. by apply (assign_other_path amount "amount").
      * by apply elem_of_map_to_list.
    + pose proof (path_untouched "amount" amount
                    (λ k' v' acc Hne,
                       assign_other_path amount "amount" k' v' acc
                         ltac:(done) ltac:(done) ltac:(done) ltac:(done)
                         ltac:(done) ltac:(done) ltac:(done) Hne)
                    (map_to_list body) (e, []) (Hnone _ Hv)) as H.
      by rewrite Hfold in H.
  - destruct (body !! "category") as [v|] eqn:Hv.
    + eapply (path_written "category" category set_category
                (λ v, enum_path _ _ _ (Some v))); try done.
      * intros k' v' acc Hne. by apply (assign_other_path category "category").
      * by apply elem_of_map_to_list.
    + pose proof (path_untouched "category" category
                    (λ k' v' acc Hne,
                       assign_other_path category "category" k' v' acc
                         ltac:(done) ltac:(done) ltac:(done) ltac:(done)
                         ltac:(done) ltac:(done) ltac:(done) Hne)
                    (map_to_list body) (e, []) (Hnone _ Hv)) as H.
      by rewrite Hfold in H.
  - destruct (body !! "description") as [v|] eqn:Hv.
    + eapply (path_written "description" description set_description
                (λ v, description_path (Some v))); try done.
      * intros k' v' acc Hne.
        by apply (assign_other_path description "description").
      * by apply elem_of_map_to_list.
    + pose proof (path_untouched "description" description
                    (λ k' v' acc Hne,
                       assign_other_path description "description" k' v' acc
                         ltac:(done) ltac:(done) ltac:(done) ltac:(done)
                         ltac:(done) ltac:(done) ltac:(done) Hne)
                    (map_to_list body) (e, []) (Hnone _ Hv)) as H.
      by rewrite Hfold in H.
  - destruct (body !! "date") as [v|] eqn:Hv.
    + eapply (path_written "date" date set_date date_value); try done.
      * intros k' v' acc Hne. by apply (assign_other_path date "date").
      * by apply elem_of_map_to_list.
    + pose proof (path_untouched "date" date
                    (λ k' v' acc Hne,
                       assign_other_path date "date" k' v' acc
                         ltac:(done) ltac:(done) ltac:(done) ltac:(done)
                         ltac:(done) ltac:(done) ltac:(done) Hne)
                    (map_to_list body) (e, []) (Hnone _ Hv)) as H.
      by rewrite Hfold in H.
  - destruct (body !! "paymentMethod") as [v|] eqn:Hv.
    + eapply (path_written "paymentMethod" paymentMethod set_paymentMethod
                (λ v, enum_path _ _ _ (Some v))); try done.
      * intros k' v' acc Hne.
        by apply (assign_other_path paymentMethod "paymentMethod").
      * by apply elem_of_map_to_list.
    + pose proof (path_untouched "paymentMethod" paymentMethod
                    (λ k' v' acc Hne,
                       assign_other_path paymentMethod "paymentMethod" k' v'
                         acc
                         ltac:(done) ltac:(done) ltac:(done) ltac:(done)
                         ltac:(done) ltac:(done) ltac:(done) Hne)
                    (map_to_list body) (e, []) (Hnone _ Hv)) as H.
      by rewrite Hfold in H.
  - destruct (body !! "tags") as [v|] eqn:Hv.
    + eapply (path_written "tags" tags set_tags
                (λ v, tags_path (Some v))); try done.
      * intros k' v' acc Hne. by apply (assign_other_path tags "tags").
      * by apply elem_of_map_to_list.
    + pose proof (path_untouched "tags" tags
                    (λ k' v' acc Hne,
                       assign_other_path tags "tags" k' v' acc
                         ltac:(done) ltac:(done) ltac:(done) ltac:(done)
                         ltac:(done) ltac:(done) ltac:(done) Hne)
                    (map_to_list body) (e, []) (Hnone _ Hv)) as H.
      by rewrite Hfold in H.
  - destruct (body !! "location") as [v|] eqn:Hv.
    + eapply (path_written "location" location set_location
                (λ v, location_path (Some v))); try done.
      * intros k' v' acc Hne. by apply (assign_other_path location "location").
      * by apply elem_of_map_to_list.
    + pose proof (path_untouched "location" location
                    (λ k' v' acc Hne,
                       assign_other_path location "location" k' v' acc
                         ltac:(done) ltac:(done) ltac:(done) ltac:(done)
                         ltac:(done) ltac:(done) ltac:(done) Hne)
                    (map_to_list body) (e, []) (Hnone _ Hv)) as H.
      by rewrite Hfold in H.
Qed.

End OwnerRoundTrips.

Section OwnerCompose.
Context {casters : Casters}.

(** What a successful PATCH answers is what is stored, and what the owner's
    next GET of the same id answers. *)
Theorem update_then_get (db : gmap N Expenditure) (caller : N) (id : string)
    (body : gmap string Value) (oid : N) (e' : Expenditure)
    (db' : gmap N Expenditure) :
  updateExpenditure db caller id body = (mkResponse 200 (PDoc oid e'), db') →
  db' !! oid = Some e'
  ∧ (∀ k, k ≠ oid → db' !! k = db !! k)
  ∧ getExpenditure db' caller id = mkResponse 200 (PDoc oid e').
Proof.
  intros (Hc & _ & e & Hdb & Hu & Hfold & _ & ->)%updateExpenditure_success.
  split; [by rewrite lookup_insert_eq|]. split.
  - intros k Hk. by rewrite lookup_insert_ne.
  - unfold getExpenditure.
    assert (Hfind : findOne_owned (<[oid := e']> db) id caller
                    = inr (Some (oid, e'))).
    { apply findOne_owned_Some. split; [done|].
      split; [by rewrite lookup_insert_eq|].
      pose proof (assign_all_user (map_to_list body) (e, [])) as Hu'.
      rewrite Hfold in Hu'. cbn [fst] in Hu'. congruence. }
    by rewrite Hfind.
Qed.

(** A PATCH with an empty body on a document of the caller that the save
    hook accepts answers 200 with the document as it is, and the collection
    is the same afterwards. *)
Theorem update_empty_body (db : gmap N Expenditure) (caller oid : N)
    (id : string) (e : Expenditure) :
  castObjectId (VStr id) = CastOk oid →
  db !! oid = Some e →
  user e = caller →
  pre_save e = None →
  updateExpenditure db caller id ∅ = (mkResponse 200 (PDoc oid e), db).
Proof.
  intros Hc Hdb Hu Hs. unfold updateExpenditure.
  rewrite map_to_list_empty. cbn [fmap list_fmap forallb negb].
  assert (Hfind : findOne_owned db id caller = inr (Some (oid, e)))
    by by apply findOne_owned_Some.
  rewrite Hfind. cbn [fold_left]. unfold save. rewrite Hs.
  by rewrite insert_id.
Qed.

(** The creator's GET of the new id answers the created document. *)
Theorem create_then_get (db : gmap N Expenditure) (caller fresh : N)
    (now : Z) (body : gmap string Value) (id : string) (oid : N)
    (e : Expenditure) (db' : gmap N Expenditure) :
  createExpenditure db caller fresh now body
  = (mkResponse 201 (PDoc oid e), db') →
  castObjectId (VStr id) = CastOk oid →
  getExpenditure db' caller id = mkResponse 200 (PDoc oid e).
Proof.
  intros Hr Hc.
  destruct (createExpenditure_stored _ _ _ _ _ _ _ _ Hr) as (Hu & Hdb).
  unfold getExpenditure.
  assert (Hfind : findOne_owned db' id caller = inr (Some (oid, e)))
    by by apply findOne_owned_Some.
  by rewrite Hfind.
Qed.

(** The owner's DELETE removes the document and nothing else; afterwards the
    id answers 404 to GET and to a second DELETE, which writes nothing. *)
Theorem delete_removes_document (db : gmap N Expenditure) (caller oid : N)
    (id : string) (e : Expenditure) :
  castObjectId (VStr id) = CastOk oid →
  db !! oid = Some e →
  user e = caller →
  let r := deleteExpenditure db caller id in
  r = (Deleted "Expenditure deleted successfully", delete oid db)
  ∧ r.2 !! oid = None
  ∧ (∀ k, k ≠ oid → r.2 !! k = db !! k)
  ∧ getExpenditure r.2 caller id
    = mkResponse 404 (PError "Expenditure not found")
  ∧ deleteExpenditure r.2 caller id
    = (NotDeleted (mkResponse 404 (PError "Expenditure not found")), r.2).
Proof.
  intros Hc Hdb Hu. cbv zeta.
  assert (Hfind : findOne_owned db id caller = inr (Some (oid, e)))
    by by apply findOne_owned_Some.
  assert (Hgone : findOne_owned (delete oid db) id caller = inr None).
  { unfold findOne_owned. by rewrite Hc, lookup_delete_eq. }
  assert (Hr : deleteExpenditure db caller id
               = (Deleted "Expenditure deleted successfully", delete oid db)).
  { unfold deleteExpenditure. by rewrite Hfind. }
  rewrite Hr. cbn [snd].
  split; [done|]. split; [by rewrite lookup_delete_eq|]. split.
  - intros k Hk. by rewrite lookup_delete_ne.
  - unfold getExpenditure, deleteExpenditure. by rewrite Hgone.
Qed.

(** Creating an expenditure under an unused id and deleting it again gives
    back the collection. *)
Theorem create_then_delete (db : gmap N Expenditure) (caller fresh : N)
    (now : Z) (body : gmap string Value) (id : string) (oid : N)
    (e : Expenditure) (db' : gmap N Expenditure) :
  db !! fresh = None →
  createExpenditure db caller fresh now body
  = (mkResponse 201 (PDoc oid e), db') →
  castObjectId (VStr id) = CastOk oid →
  deleteExpenditure db' caller id
  = (Deleted "Expenditure deleted successfully", db).
Proof.
  intros Hfresh Hr Hc.
  destruct (createExpenditure_stored _ _ _ _ _ _ _ _ Hr) as (Hu & Hdb).
  apply createExpenditure_created in Hr as (-> & _ & _ & ->).
  unfold deleteExpenditure.
  assert (Hfind : findOne_owned (<[fresh := e]> db) id caller
                  = inr (Some (fresh, e)))
    by by apply findOne_owned_Some.
  rewrite Hfind. by rewrite delete_insert_id.
Qed.

End OwnerCompose.

(** ** More on markSplitAsPaid *)

Section MarkPaidMore.
Context {casters : Casters}.

Lemma mark_keeps_amounts (S : list Split) (i : nat) (s : Split) (now : Z) :
  S !! i = Some s →
  split_amount
    <$> <[i := mkSplit (split_user s) (split_amount s) (Some true) (Some now)]> S
  = split_amount <$> S
  ∧ split_user
      <$> <[i := mkSplit (split_user s) (split_amount s) (Some true) (Some now)]> S
    = split_user <$> S.
Proof.
  intros Hi. rewrite !list_fmap_insert. cbn [split_amount split_user].
  split; apply list_insert_id; by rewrite list_lookup_fmap, Hi.
Qed.

(** On a document that the save hook accepts, mark-paid by a participant of
    the unsettled bill succeeds. *)
Lemma markSplitAsPaid_succeeds (db : gmap N Expenditure) (caller oid : N)
    (id : string) (now : Z) (e : Expenditure) :
  castObjectId (VStr id) = CastOk oid →
  db !! oid = Some e →
  (∃ s, s ∈ splits e ∧ split_user s = caller) →
  isSettled e = Some false →
  pre_save e = None →
  ∃ e', markSplitAsPaid db caller id now
        = (mkResponse 200 (PDoc oid e'), <[oid := e']> db).
Proof.
  intros Hc Hdb Hsplit Hst Hs.
  assert (Hq : findOne_unsettled db id caller = inr (Some (oid, e)))
    by by apply findOne_unsettled_Some.
  unfold markSplitAsPaid. rewrite Hq.
  destruct (list_find _ (splits e)) as [[i s]|] eqn:Hf.
  2:{ exfalso. destruct Hsplit as (s0 & Hs0 & Hu).
      apply list_find_None in Hf. rewrite Forall_forall in Hf.
      by apply (Hf s0). }
  apply list_find_Some in Hf as (Hi & _).
  destruct (mark_keeps_amounts _ _ _ now Hi) as [Ha _].
  set (S' := <[i := _]> (splits e)) in *.
  assert (Hs1 : pre_save (set_splits S' e) = None).
  { rewrite <- Hs. by apply pre_save_ext. }
  assert (Hs2 : pre_save (set_isSettled (Some true) (set_splits S' e)) = None).
  { rewrite <- Hs. by apply pre_save_ext. }
  unfold save. destruct (forallb (λ s, holds (paid s)) _).
  - rewrite Hs2. by eexists.
  - rewrite Hs1. by eexists.
Qed.

(** Whatever requests were served, mark-paid by a participant of a stored,
    unsettled bill succeeds: it is answered 200 and the bill is written
    back with the same participants and amounts. *)
Theorem mark_paid_succeeds_on_served (reqs : list Request) (caller oid : N)
    (id : string) (now : Z) (e : Expenditure) :
  castObjectId (VStr id) = CastOk oid →
  serve reqs !! oid = Some e →
  (∃ s, s ∈ splits e ∧ split_user s = caller) →
  isSettled e = Some false →
  ∃ e', markSplitAsPaid (serve reqs) caller id now
        = (mkResponse 200 (PDoc oid e'), <[oid := e']> (serve reqs))
        ∧ split_user <$> splits e' = split_user <$> splits e
        ∧ split_amount <$> splits e' = split_amount <$> splits e
        ∧ totalAmount e' = totalAmount e.
Proof.
  intros Hc Hdb Hsplit Hst.
  pose proof (ledger_ok_pre_save _ (serve_ledger_ok _ _ _ Hdb)) as Hs.
  destruct (markSplitAsPaid_succeeds _ _ _ _ now _ Hc Hdb Hsplit Hst Hs)
    as [e' Hr].
  exists e'. split; [done|].
  destruct (markSplitAsPaid_cases (serve reqs) caller id now)
    as [(_ & Hne & _)|(o & e0 & i & s & e1 & Hq & Hf & HS & _ & Hsame & _ & Hw)];
    rewrite Hr in *; [done|].
  injection Hw as <- <-.
  apply findOne_unsettled_Some in Hq as (Hc' & Hdb' & _).
  rewrite Hdb in Hdb'. injection Hdb' as <-.
  apply list_find_Some in Hf as (Hi & _).
  destruct (mark_keeps_amounts _ _ _ now Hi) as [Ha Hu].
  rewrite HS. injection Hsame as _ _ _ _ _ _ _ _ Ht _. done.
Qed.

(** No request other than a DELETE, or a creation under the same [_id],
    takes anything back from a stored bill: it stays stored with the same
    participants and amounts, a split that is paid stays paid, and a bill
    that is settled stays settled with its splits untouched. *)
Theorem paid_and_settled_are_final (db : gmap N Expenditure) (req : Request)
    (k : N) (e : Expenditure) :
  db !! k = Some e →
  (∀ caller now body, req ≠ PostExpenditure caller k now body) →
  (∀ caller id, req ≠ DeleteExpenditure caller id) →
  ∃ e', handle db req !! k = Some e'
        ∧ split_user <$> splits e' = split_user <$> splits e
        ∧ split_amount <$> splits e' = split_amount <$> splits e
        ∧ (∀ j s, splits e !! j = Some s → paid s = Some true →
                  ∃ s', splits e' !! j = Some s' ∧ paid s' = Some true)
        ∧ (isSettled e = Some true →
           isSettled e' = Some true ∧ splits e' = splits e).
Proof.
  intros Hdb Hcreate Hdelete.
  assert (Hsame : ∃ e', Some e = Some e'
            ∧ split_user <$> splits e' = split_user <$> splits e
            ∧ split_amount <$> splits e' = split_amount <$> splits e
            ∧ (∀ j s, splits e !! j = Some s → paid s = Some true →
                      ∃ s', splits e' !! j = Some s' ∧ paid s' = Some true)
            ∧ (isSettled e = Some true →
               isSettled e' = Some true ∧ splits e' = splits e)).
  { exists e. repeat split; try done. intros j s Hj Hp. by exists s. }
  destruct req as [caller fresh now body|caller id body
                  |caller id now|caller id]; cbn [handle].
  - destruct (createExpenditure_writes db caller fresh now body)
      as [[-> _]|(doc & _ & _ & ->)]; [by rewrite Hdb|].
    cbn [snd]. rewrite lookup_insert_ne, Hdb; [done|].
    intros ->. by eapply Hcreate.
  - destruct (updateExpenditure_cases db caller id body)
      as [[-> _]|(o & e0 & e1 & Hdb0 & Hp & _ & ->)]; [by rewrite Hdb|].
    cbn [snd]. destruct (decide (o = k)) as [->|Hne].
    + rewrite lookup_insert_eq. rewrite Hdb in Hdb0. injection Hdb0 as <-.
      unfold protected_paths in Hp. injection Hp as HS _ _ Hst.
      exists e1. rewrite HS, Hst. repeat split; try done.
      intros j s Hj Hpaid. by exists s.
    + by rewrite lookup_insert_ne, Hdb.
  - destruct (markSplitAsPaid_cases db caller id now)
      as [(-> & _)|(o & e0 & i & s & e1 & Hq & Hf & HS & _ & _ & _ & ->)];
      [by rewrite Hdb|].
    cbn [snd]. destruct (decide (o = k)) as [->|Hne].
    2:{ by rewrite lookup_insert_ne, Hdb. }
    rewrite lookup_insert_eq.
    apply findOne_unsettled_Some in Hq as (_ & Hdb0 & _ & Hst).
    rewrite Hdb in Hdb0. injection Hdb0 as <-.
    apply list_find_Some in Hf as (Hi & _).
    destruct (mark_keeps_amounts _ _ _ now Hi) as [Ha Hu].
    exists e1. rewrite HS. repeat split; try done; try congruence.
    intros j s' Hj Hpaid. destruct (decide (i = j)) as [->|Hne].
    + exists (mkSplit (split_user s) (split_amount s) (Some true) (Some now)).
      split; [|done]. apply list_lookup_insert_eq. by eapply lookup_lt_Some.
    + exists s'. by rewrite list_lookup_insert_ne.
  - exfalso. by eapply Hdelete.
Qed.

(** A bill in which a participant holds two splits, the later one unpaid, is
    never settled by mark-paid: whoever calls, the later split stays as it
    is and the bill keeps its isSettled flag. *)
Theorem shadowed_split_never_settles (db : gmap N Expenditure) (caller : N)
    (id : string) (now : Z) (k : N) (e : Expenditure) :
  db !! k = Some e →
  shadowed_split e →
  isSettled e = Some false →
  ∃ e', (markSplitAsPaid db caller id now).2 !! k = Some e'
        ∧ shadowed_split e'
        ∧ isSettled e' = Some false.
Proof.
  intros Hdb Hsh Hst.
  destruct (markSplitAsPaid_cases db caller id now)
    as [(-> & _)|(o & e0 & ic & sc & e1 & Hq & Hf & HS & Hset & _ & _ & ->)].
  { by exists e. }
  cbn [snd]. destruct (decide (o = k)) as [->|Hne].
  2:{ exists e. by rewrite lookup_insert_ne. }
  rewrite lookup_insert_eq.
  apply findOne_unsettled_Some in Hq as (_ & Hdb0 & _).
  rewrite Hdb in Hdb0. injection Hdb0 as <-.
  destruct Hsh as (i & j & s & t & Hij & Hi & Hj & Hu & Hp).
  apply list_find_Some in Hf as (Hic & Huc & Hfirst).
  assert (Hne : ic ≠ j).
  { intros ->. apply (Hfirst i s Hi Hij). rewrite Hu.
    rewrite Hj in Hic. by injection Hic as ->. }
  assert (Hj' : splits e1 !! j = Some t).
  { rewrite HS. by rewrite list_lookup_insert_ne. }
  exists e1. split; [done|]. split.
  - destruct (decide (ic = i)) as [->|Hne'].
    + exists i, j,
        (mkSplit (split_user sc) (split_amount sc) (Some true) (Some now)), t.
      repeat split; try done.
      * rewrite HS. apply list_lookup_insert_eq. by eapply lookup_lt_Some.
      * cbn. rewrite Hi in Hic. injection Hic as <-. done.
    + exists i, j, s, t. repeat split; try done.
      rewrite HS. by rewrite list_lookup_insert_ne.
  - rewrite Hset. f_equal. apply not_true_iff_false. intros Hall.
    rewrite forallb_forall in Hall.
    assert (holds (paid t) = true).
    { apply Hall, list_elem_of_In. by eapply list_elem_of_lookup_2. }
    congruence.
Qed.

End MarkPaidMore.

(** ** More on getSettlementSummary *)

(** For an unsettled expenditure paid by somebody else (a known user) in
    which the querying user U holds a split, the aggregator records the bill
    once: by one transaction, of minus the amount of U's first split, in the
    row of the payer; no other row holds a transaction of the bill, and the
    net of the row is the sum of the amounts of its transactions. *)
Theorem participant_records_own_split (db : gmap N Expenditure)
    (users : gset N) (U id : N) (e : Expenditure) (s : Split) :
  db !! id = Some e →
  isSettled e = Some false →
  paidBy e ≠ U →
  paidBy e ∈ users →
  userSplit U e = Some s →
  ∃ g, g ∈ settlement_groups db users U
       ∧ counterparty g = Some (paidBy e)
       ∧ filter (λ tx, tx_id tx = id) (transactions g)
         = [mkTransaction id (description e)
              (Some (fmul (split_amount s) (-1))) (date e)]
       ∧ totalOwed g = fsum (omap tx_amount (transactions g))
       ∧ (∀ g' tx, g' ∈ settlement_groups db users U →
                   tx ∈ transactions g' → tx_id tx = id → g' = g).
Proof.
  intros Hdb Hst Hpayer Hknown HS.
  apply N.eqb_neq in Hpayer.
  assert (Hkey : group_userId U e = Some (paidBy e)).
  { unfold group_userId. by rewrite Hpayer. }
  assert (Hamt : owed_amount U e = Some (fmul (split_amount s) (-1))).
  { unfold owed_amount. by rewrite Hpayer, HS. }
  assert (Hin : (id, e) ∈ open_bills db users U).
  { apply pipeline_docs. cbn [fst snd]. split; [done|]. split; [|done].
    unfold match_unsettled.
    rewrite bool_decide_eq_true_2, Hpayer by done. cbn [andb orb].
    apply has_split_spec. unfold userSplit in HS.
    apply head_Some_elem_of, list_elem_of_filter in HS as [Hu Hs].
    by exists s. }
  destruct (bill_in_one_row U _ _ id e (settlement_groups_of db users U)
              (open_bills_NoDup db users U) Hin)
    as (g & Hg & Hk & Hone & Htot & Honly).
  exists g. split_and!; try done.
  - congruence.
  - rewrite Hone. unfold tx_of. cbn [fst snd]. by rewrite Hamt.
Qed.

(** The aggregator reads unsettled bills of the querying user only: every
    transaction of the grouping names a stored expenditure that is not
    settled, whose payer is a known user, and that the user paid or holds a
    split of. *)
Theorem settlements_from_open_bills (db : gmap N Expenditure)
    (users : gset N) (U : N) (g : Settlement) (tx : Transaction) :
  g ∈ settlement_groups db users U → tx ∈ transactions g →
  ∃ e, db !! tx_id tx = Some e
       ∧ isSettled e = Some false
       ∧ paidBy e ∈ users
       ∧ (paidBy e = U ∨ ∃ s, s ∈ splits e ∧ split_user s = U)
       ∧ tx_amount tx = owed_amount U e
       ∧ counterparty g = group_userId U e.
Proof.
  intros Hg Htx.
  destruct (group_stage_sound U _ g tx Hg Htx) as ([id e] & Hd & -> & Hk).
  apply pipeline_docs in Hd as (Hdb & Hm & Hknown). cbn [fst snd] in *.
  exists e. unfold match_unsettled in Hm.
  apply andb_true_iff in Hm as [Hst%bool_decide_eq_true Hinv].
  repeat split; try done.
  apply orb_true_iff in Hinv as [Hp%N.eqb_eq|Hs%has_split_spec]; eauto.
Qed.

(** When no stored expenditure is an unsettled bill that the user paid or
    holds a split of, the summary is empty and both totals are 0. *)
Theorem settlement_summary_uninvolved (db : gmap N Expenditure)
    (users : gset N) (caller : N) :
  (∀ k e, db !! k = Some e → match_unsettled caller e = false) →
  getSettlementSummary db users caller
  = mkResponse 200 (PSettlements (mkSummary [] 0 0)).
Proof.
  intros Hnone.
  assert (Hfilter : filter (λ d, match_unsettled caller d.2 = true)
                      (map_to_list db) = []).
  { assert (Hall : Forall (λ d, match_unsettled caller d.2 = false)
                     (map_to_list db)).
    { apply Forall_forall. intros [k e] Hin.
      apply elem_of_map_to_list in Hin. by apply (Hnone k). }
    induction Hall as [|d l Hd _ IH]; [done|].
    rewrite filter_cons, decide_False; [done|]. by rewrite Hd. }
  unfold getSettlementSummary, aggregate_settlements, settlement_groups.
  by rewrite Hfilter.
Qed.

(** ** The further properties on the sample data *)

(** The body names another user as owner and payer; the caller is stored. *)
Lemma create_owner_and_frame_witness :
  let body :=
    <["user" := VStr guest_hex]>
      (<["paidBy" := VStr guest_hex]> dinner_request) in
  let e := dinner_doc dinner_splits false in
  let db' : gmap N Expenditure := <[dinner_id := e]> ∅ in
  user e = payer ∧ paidBy e = payer
  ∧ db' !! dinner_id = Some e
  ∧ ∀ k, k ≠ dinner_id → db' !! k = (∅ : gmap N Expenditure) !! k.
Proof.
  apply (create_owner_and_frame ∅ payer dinner_id 0
           (<["user" := VStr guest_hex]>
              (<["paidBy" := VStr guest_hex]> dinner_request))).
  vm_compute. reflexivity.
Defined.

(** A totalAmount of 0 is falsy: the amount, 100, is stored as the total. *)
Lemma create_total_defaults_to_amount_witness :
  let e :=
    mkExpenditure payer 100 "food" "Dinner" 1700000000000 "cash" [] None []
      100 payer (Some false) in
  totalAmount e = amount e.
Proof.
  apply (create_total_defaults_to_amount ∅ payer dinner_id 0
           (<["totalAmount" := VNum 0]> (dinner_body 100)) dinner_id _
           (<[dinner_id := mkExpenditure payer 100 "food" "Dinner"
                             1700000000000 "cash" [] None [] 100 payer
                             (Some false)]> ∅)).
  - vm_compute. reflexivity.
  - vm_compute. reflexivity.
Defined.

(** [splits: ""] is falsy and read as no splits; the total of 100 is not
    compared with anything. *)
Lemma create_without_splits_witness :
  let r :=
    createExpenditure ∅ payer dinner_id 0
      (<["splits" := VStr ""]> (dinner_body 100)) in
  (∃ e, r = (mkResponse 201 (PDoc dinner_id e), <[dinner_id := e]> ∅)
        ∧ splits e = [])
  ∨ (∃ errors, r = (mkResponse 400 (PValidation errors), ∅)).
Proof.
  apply (create_without_splits ∅ payer dinner_id 0
           (<["splits" := VStr ""]> (dinner_body 100))).
  - reflexivity.
  - vm_compute. reflexivity.
Defined.


(** The friend holds a split of the dinner but does not own it. *)
Lemma owner_handlers_hide_foreign_documents_witness :
  let db := dinner_db dinner_splits false in
  getExpenditure db friend dinner_hex
  = getExpenditure (delete dinner_id db) friend dinner_hex
  ∧ (updateExpenditure db friend dinner_hex rename_body).1
    = (updateExpenditure (delete dinner_id db) friend dinner_hex
         rename_body).1
  ∧ (deleteExpenditure db friend dinner_hex).1
    = (deleteExpenditure (delete dinner_id db) friend dinner_hex).1
  ∧ (updateExpenditure db friend dinner_hex rename_body).2 = db
  ∧ (deleteExpenditure db friend dinner_hex).2 = db.
Proof.
  apply (owner_handlers_hide_foreign_documents
           (dinner_db dinner_splits false) friend dinner_id dinner_hex
           (dinner_doc dinner_splits false) rename_body).
  - vm_compute. reflexivity.
  - vm_compute. reflexivity.
  - discriminate.
Defined.

Lemma update_rejects_negative_amount_witness :
  let db := dinner_db dinner_splits false in
  let body : gmap string Value :=
    <["amount" := VNum (-5)]> (<["description" := VStr "Lunch"]> ∅) in
  ∃ details,
    updateExpenditure db payer dinner_hex body
    = (mkResponse 400 (PValidation details), db)
    ∧ ("amount", "Amount cannot be negative") ∈ details.
Proof.
  apply (update_rejects_negative_amount (dinner_db dinner_splits false)
           payer dinner_id dinner_hex (dinner_doc dinner_splits false)
           (<["amount" := VNum (-5)]> (<["description" := VStr "Lunch"]> ∅))
           (VNum (-5)) (-5)).
  - intros k [v Hk]. unfold allowedUpdates.
    destruct (decide (k = "amount")) as [->|H1]; [set_solver|].
    destruct (decide (k = "description")) as [->|H2]; [set_solver|].
    rewrite !lookup_insert_ne, lookup_empty in Hk by done. done.
  - vm_compute. reflexivity.
  - vm_compute. reflexivity.
  - reflexivity.
  - vm_compute. reflexivity.
  - reflexivity.
  - reflexivity.
Defined.

(** The description is stored trimmed, the amount as given; the total, which
    the body cannot name, stays 100. *)
Lemma update_then_get_witness :
  let db := dinner_db dinner_splits false in
  let e' :=
    mkExpenditure payer 120 "food" "Team dinner" 1700000000000 "cash" []
      None dinner_splits 100 payer (Some false) in
  let db' := <[dinner_id := e']> db in
  db' !! dinner_id = Some e'
  ∧ (∀ k, k ≠ dinner_id → db' !! k = db !! k)
  ∧ getExpenditure db' payer dinner_hex = mkResponse 200 (PDoc dinner_id e').
Proof.
  apply (update_then_get (dinner_db dinner_splits false) payer dinner_hex
           rename_body).
  vm_compute. reflexivity.
Defined.

Lemma update_writes_body_fields_witness :
  let db := dinner_db dinner_splits false in
  let e' :=
    mkExpenditure payer 120 "food" "Team dinner" 1700000000000 "cash" []
      None dinner_splits 100 payer (Some false) in
  ∃ e, db !! dinner_id = Some e
  ∧ match rename_body !! "amount" with
    | Some v => number_path "Amount is required" "Amount cannot be negative"
                  (Some v) = Valid (amount e')
    | None => amount e' = amount e
    end
  ∧ match rename_body !! "category" with
    | Some v => enum_path "Category is required" categories
                  " is not a valid category" (Some v) = Valid (category e')
    | None => category e' = category e
    end
  ∧ match rename_body !! "description" with
    | Some v => description_path (Some v) = Valid (description e')
    | None => description e' = description e
    end
  ∧ match rename_body !! "date" with
    | Some v => date_value v = Valid (date e')
    | None => date e' = date e
    end
  ∧ match rename_body !! "paymentMethod" with
    | Some v => enum_path "Payment method is required" paymentMethods
                  " is not a valid payment method" (Some v)
                = Valid (paymentMethod e')
    | None => paymentMethod e' = paymentMethod e
    end
  ∧ match rename_body !! "tags" with
    | Some v => tags_path (Some v) = Valid (tags e')
    | None => tags e' = tags e
    end
  ∧ match rename_body !! "location" with
    | Some v => location_path (Some v) = Valid (location e')
    | None => location e' = location e
    end.
Proof.
  apply (update_writes_body_fields (dinner_db dinner_splits false) payer
           dinner_hex rename_body dinner_id _
           (<[dinner_id := mkExpenditure payer 120 "food" "Team dinner"
                             1700000000000 "cash" [] None dinner_splits 100
                             payer (Some false)]>
              (dinner_db dinner_splits false))).
  vm_compute. reflexivity.
Defined.

Lemma update_empty_body_witness :
  let db := dinner_db dinner_splits false in
  updateExpenditure db payer dinner_hex ∅
  = (mkResponse 200 (PDoc dinner_id (dinner_doc dinner_splits false)), db).
Proof.
  apply (update_empty_body (dinner_db dinner_splits false) payer dinner_id
           dinner_hex (dinner_doc dinner_splits false)).
  - vm_compute. reflexivity.
  - vm_compute. reflexivity.
  - reflexivity.
  - vm_compute. reflexivity.
Defined.

Lemma create_then_get_witness :
  getExpenditure (<[dinner_id := dinner_doc dinner_splits false]> ∅) payer
    dinner_hex
  = mkResponse 200 (PDoc dinner_id (dinner_doc dinner_splits false)).
Proof.
  apply (create_then_get ∅ payer dinner_id 0 dinner_request dinner_hex).
  - vm_compute. reflexivity.
  - vm_compute. reflexivity.
Defined.

Lemma delete_removes_document_witness :
  let db := <[taxi_id := taxi_doc]> (dinner_db dinner_splits false) in
  let r := deleteExpenditure db payer dinner_hex in
  r = (Deleted "Expenditure deleted successfully", delete dinner_id db)
  ∧ r.2 !! dinner_id = None
  ∧ (∀ k, k ≠ dinner_id → r.2 !! k = db !! k)
  ∧ getExpenditure r.2 payer dinner_hex
    = mkResponse 404 (PError "Expenditure not found")
  ∧ deleteExpenditure r.2 payer dinner_hex
    = (NotDeleted (mkResponse 404 (PError "Expenditure not found")), r.2).
Proof.
  apply (delete_removes_document
           (<[taxi_id := taxi_doc]> (dinner_db dinner_splits false)) payer
           dinner_id dinner_hex (dinner_doc dinner_splits false)).
  - vm_compute. reflexivity.
  - vm_compute. reflexivity.
  - reflexivity.
Defined.

Lemma create_then_delete_witness :
  deleteExpenditure (<[dinner_id := dinner_doc dinner_splits false]> ∅) payer
    dinner_hex
  = (Deleted "Expenditure deleted successfully", ∅).
Proof.
  apply (create_then_delete ∅ payer dinner_id 0 dinner_request dinner_hex
           dinner_id (dinner_doc dinner_splits false)).
  - reflexivity.
  - vm_compute. reflexivity.
  - vm_compute. reflexivity.
Defined.

Lemma mark_paid_succeeds_on_served_witness :
  ∃ e', markSplitAsPaid (serve open_session) friend dinner_hex 77
        = (mkResponse 200 (PDoc dinner_id e'),
           <[dinner_id := e']> (serve open_session))
        ∧ split_user <$> splits e' = split_user <$> splits dinner_renamed
        ∧ split_amount <$> splits e' = split_amount <$> splits dinner_renamed
        ∧ totalAmount e' = totalAmount dinner_renamed.
Proof.
  apply (mark_paid_succeeds_on_served open_session friend dinner_id
           dinner_hex 77 dinner_renamed).
  - vm_compute. reflexivity.
  - vm_compute. reflexivity.
  - exists (mkSplit friend 60 (Some false) None). split; [left|reflexivity].
  - reflexivity.
Defined.

(** The payer marks again on the settled dinner: nothing is taken back. *)
Lemma paid_and_settled_are_final_witness :
  let db : gmap N Expenditure := {[dinner_id := dinner_settled]} in
  let req := PostMarkPaid payer dinner_hex 99 in
  ∃ e', handle db req !! dinner_id = Some e'
        ∧ split_user <$> splits e' = split_user <$> splits dinner_settled
        ∧ split_amount <$> splits e' = split_amount <$> splits dinner_settled
        ∧ (∀ j s, splits dinner_settled !! j = Some s → paid s = Some true →
                  ∃ s', splits e' !! j = Some s' ∧ paid s' = Some true)
        ∧ (isSettled dinner_settled = Some true →
           isSettled e' = Some true ∧ splits e' = splits dinner_settled).
Proof.
  apply (paid_and_settled_are_final {[dinner_id := dinner_settled]}
           (PostMarkPaid payer dinner_hex 99) dinner_id dinner_settled).
  - vm_compute. reflexivity.
  - discriminate.
  - discriminate.
Defined.

Lemma shadowed_split_never_settles_witness :
  let db : gmap N Expenditure := {[dinner_id := twice_listed]} in
  ∃ e', (markSplitAsPaid db friend dinner_hex 77).2 !! dinner_id = Some e'
        ∧ shadowed_split e'
        ∧ isSettled e' = Some false.
Proof.
  apply (shadowed_split_never_settles {[dinner_id := twice_listed]} friend
           dinner_hex 77 dinner_id twice_listed).
  - vm_compute. reflexivity.
  - exists 0%nat, 1%nat, (mkSplit friend 30 (Some false) None),
      (mkSplit friend 30 (Some false) None).
    repeat split. lia.
  - reflexivity.
Defined.

(** The taxi, paid by the guest: the payer of the dinner owes 25 of it. *)
Lemma participant_records_own_split_witness :
  ∃ g, g ∈ settlement_groups two_bills everyone payer
       ∧ counterparty g = Some guest
       ∧ filter (λ tx, tx_id tx = taxi_id) (transactions g)
         = [mkTransaction taxi_id "Taxi" (Some (-25)) 1700000100000%Z]
       ∧ totalOwed g = fsum (omap tx_amount (transactions g))
       ∧ (∀ g' tx, g' ∈ settlement_groups two_bills everyone payer →
                   tx ∈ transactions g' → tx_id tx = taxi_id → g' = g).
Proof.
  apply (participant_records_own_split two_bills everyone payer taxi_id
           taxi_doc (mkSplit payer 25 (Some false) None)).
  - vm_compute. reflexivity.
  - reflexivity.
  - discriminate.
  - apply (bool_decide_unpack (guest ∈ everyone)). vm_compute. exact I.
  - reflexivity.
Defined.

Lemma settlements_from_open_bills_witness :
  ∃ e, two_bills !! dinner_id = Some e
       ∧ isSettled e = Some false
       ∧ paidBy e ∈ everyone
       ∧ (paidBy e = payer ∨ ∃ s, s ∈ splits e ∧ split_user s = payer)
       ∧ Some 60 = owed_amount payer e
       ∧ Some friend = group_userId payer e.
Proof.
  apply (settlements_from_open_bills two_bills everyone payer
           (mkSettlement (Some friend) 60
              [mkTransaction dinner_id "Dinner" (Some 60) 1700000000000%Z]
              payer)
           (mkTransaction dinner_id "Dinner" (Some 60) 1700000000000%Z)).
  - assert (Hg : settlement_groups two_bills everyone payer
                 = [mkSettlement (Some friend) 60
                      [mkTransaction dinner_id "Dinner" (Some 60)
                         1700000000000%Z] payer;
                    mkSettlement (Some guest) (-25)
                      [mkTransaction taxi_id "Taxi" (Some (-25))
                         1700000100000%Z] guest])
      by (vm_compute; reflexivity).
    rewrite Hg. left.
  - left.
Defined.

(** The only bill is settled: nothing is open for the payer. *)
Lemma settlement_summary_uninvolved_witness :
  getSettlementSummary (dinner_db dinner_splits true) everyone payer
  = mkResponse 200 (PSettlements (mkSummary [] 0 0)).
Proof.
  apply (settlement_summary_uninvolved (dinner_db dinner_splits true)
           everyone payer).
  unfold dinner_db. intros k e [_ <-]%lookup_singleton_Some. reflexivity.
Defined.

(** Null flags, null tags, lengths and the CastError of a query.  A bill
    created with [isSettled: null] is stored with a null flag, which the
    filter [isSettled: false] of mark-paid does not match; [tags: null] is
    answered 400 on both write paths; a tag of 20 letters of two bytes each
    is accepted and one of 21 refused; an id that is no ObjectId is answered
    500 with the text of the CastError. *)
Example null_and_unicode_requests :
  let unsettled := createExpenditure ∅ payer dinner_id 0
                     (<["isSettled" := VNull]> dinner_request) in
  let tag := "éééééééééééééééééééé" in
  (status unsettled.1 = 201%N
   ∧ isSettled <$> unsettled.2 !! dinner_id = Some None
   ∧ (markSplitAsPaid unsettled.2 friend dinner_hex 5).1
     = mkResponse 404 (PError "Expenditure not found or already settled"))
  ∧ (createExpenditure ∅ payer dinner_id 0
       (<["tags" := VNull]> dinner_request)).1
    = mkResponse 400
        (PValidation
           [("tags", "Cannot read properties of null (reading 'every')")])
  ∧ (updateExpenditure (dinner_db dinner_splits false) payer dinner_hex
       (<["tags" := VNull]> ∅)).1
    = mkResponse 400
        (PValidation
           [("tags", "Cannot read properties of null (reading 'every')")])
  ∧ (String.length tag = 40%nat ∧ js_length tag = 20%nat
     ∧ tags <$> (createExpenditure ∅ payer dinner_id 0
                   (<["tags" := VArr [VStr tag]]> dinner_request)).2
                !! dinner_id
       = Some [tag]
     ∧ (createExpenditure ∅ payer dinner_id 0
          (<["tags" := VArr [VStr (tag +:+ "é")]]> dinner_request)).1
       = mkResponse 400
           (PValidation [("tags", "Each tag must be 20 characters or less")]))
  ∧ getExpenditure (dinner_db dinner_splits false) payer "xyz"
    = mkResponse 500
        (PUnhandled
           ("Cast to ObjectId failed for value " +:+ dquote +:+ "xyz"
            +:+ dquote +:+ " (type string) at path " +:+ dquote +:+ "_id"
            +:+ dquote +:+ " for model " +:+ dquote +:+ "Expenditure"
            +:+ dquote)).
Proof. split_and!; vm_compute; reflexivity. Qed.

(** * The listing *)

Lemma insert_by_date_perm (d : N * Expenditure) (l : list (N * Expenditure)) :
  insert_by_date d l ≡ₚ d :: l.
Proof.
  induction l as [|x l IH]; [done|]. cbn [insert_by_date].
  destruct (_ <? _)%Z; [|done].
  rewrite IH. apply perm_swap.
Qed.

Lemma sort_by_date_perm (l : list (N * Expenditure)) : sort_by_date l ≡ₚ l.
Proof.
  induction l as [|x l IH]; [done|]. cbn [sort_by_date foldr].
  fold (sort_by_date l). by rewrite insert_by_date_perm, IH.
Qed.

Lemma insert_by_date_sorted (d : N * Expenditure)
    (l : list (N * Expenditure)) :
  StronglySorted newer_first l → StronglySorted newer_first (insert_by_date d l).
Proof.
  induction l as [|x l IH]; intros Hl; cbn [insert_by_date].
  - repeat constructor.
  - apply StronglySorted_inv in Hl as [Hl Hx].
    destruct (date d.2 <? date x.2)%Z eqn:E.
    + apply Z.ltb_lt in E. constructor; [by apply IH|].
      rewrite insert_by_date_perm. constructor; [|done].
      unfold newer_first. lia.
    + apply Z.ltb_ge in E.
      constructor; [by constructor|].
      constructor; [done|].
      eapply Forall_impl; [exact Hx|]. intros y Hy. unfold newer_first in *.
      lia.
Qed.

Lemma sort_by_date_sorted (l : list (N * Expenditure)) :
  StronglySorted newer_first (sort_by_date l).
Proof.
  induction l as [|x l IH]; [constructor|].
  cbn [sort_by_date foldr]. by apply insert_by_date_sorted.
Qed.

Lemma sort_by_date_length (l : list (N * Expenditure)) :
  length (sort_by_date l) = length l.
Proof. by rewrite sort_by_date_perm. Qed.

Lemma StronglySorted_app_parts {A} (R : relation A) (l1 l2 : list A) :
  StronglySorted R (l1 ++ l2) → StronglySorted R l1 ∧ StronglySorted R l2.
Proof.
  induction l1 as [|x l1 IH]; cbn [app]; intros Hl.
  - split; [constructor|done].
  - apply StronglySorted_inv in Hl as [Hl Hx].
    destruct (IH Hl) as [H1 H2]. split; [|done].
    constructor; [done|]. by apply Forall_app in Hx as [Hx _].
Qed.

Lemma page_sorted {A} (R : relation A) (n m : nat) (l : list A) :
  StronglySorted R l → StronglySorted R (take n (drop m l)).
Proof.
  intros Hl.
  rewrite <- (take_drop m l) in Hl.
  apply StronglySorted_app_parts in Hl as [_ Hl].
  rewrite <- (take_drop n (drop m l)) in Hl.
  by apply StronglySorted_app_parts in Hl as [Hl _].
Qed.

Lemma elem_of_matching (db : gmap N Expenditure) (U : ObjectId) (f : Filter)
    (id : N) (e : Expenditure) :
  (id, e) ∈ matching db U f ↔ db !! id = Some e ∧ matches U f e = true.
Proof.
  unfold matching. rewrite list_elem_of_filter, elem_of_map_to_list.
  cbn [snd]. tauto.
Qed.

Lemma has_split_true (U : ObjectId) (e : Expenditure) :
  has_split U e = true ↔ ∃ s, s ∈ splits e ∧ split_user s = U.
Proof.
  unfold has_split. rewrite existsb_exists. split.
  - intros (s & Hin & Hs). exists s. split; [by apply list_elem_of_In|].
    by apply N.eqb_eq.
  - intros (s & Hin & Hs). exists s. split; [by apply list_elem_of_In|].
    by apply N.eqb_eq.
Qed.

(** What [matches] asks of a document, clause by clause. *)
Lemma matches_true (U : ObjectId) (f : Filter) (e : Expenditure) :
  matches U f e = true →
  (user e = U ∨ ∃ s, s ∈ splits e ∧ split_user s = U)
  ∧ (∀ d, f_date_gte f = Some d → (d ≤ date e)%Z)
  ∧ (∀ d, f_date_lte f = Some d → (date e ≤ d)%Z)
  ∧ (∀ c, f_category f = Some c → category e = c)
  ∧ (∀ t, f_tags f = Some t → t ∈ tags e)
  ∧ (∀ m, f_total_gte f = Some m → m <= totalAmount e)
  ∧ (∀ m, f_total_lte f = Some m → totalAmount e <= m)
  ∧ (f_splitType f = Some "paid" → paidBy e = U)
  ∧ (f_splitType f = Some "owed" →
     paidBy e ≠ U ∧ ∃ s, s ∈ splits e ∧ split_user s = U)
  ∧ (∀ b, f_isSettled f = Some b → isSettled e = Some b).
Proof.
  unfold matches. rewrite !andb_true_iff.
  intros ((((((((H1 & H2) & H3) & H4) & H5) & H6) & H7) & H8) & H9).
  split_and!.
  - apply orb_true_iff in H1 as [H1|H1]; [left; by apply N.eqb_eq|right].
    by apply has_split_true.
  - intros d Hd. rewrite Hd in H2. by apply Z.leb_le.
  - intros d Hd. rewrite Hd in H3. by apply Z.leb_le.
  - intros c Hc. rewrite Hc in H4. by apply String.eqb_eq.
  - intros t Ht. rewrite Ht in H5. unfold str_in in H5.
    apply existsb_exists in H5 as (x & Hin & Hx).
    apply String.eqb_eq in Hx as ->. by apply list_elem_of_In.
  - intros m Hm. rewrite Hm in H6. by apply Qle_bool_iff.
  - intros m Hm. rewrite Hm in H7. by apply Qle_bool_iff.
  - intros Hp. rewrite Hp in H8. by apply N.eqb_eq.
  - intros Hp. rewrite Hp in H8. apply andb_true_iff in H8 as [H8 H8'].
    split; [|by apply has_split_true].
    apply negb_true_iff in H8'. by apply N.eqb_neq.
  - intros b Hb. rewrite Hb in H9. by apply bool_decide_eq_true in H9.
Qed.

Lemma ceil_div_bounds (t l : Z) :
  (1 ≤ l)%Z → ((ceil_div t l - 1) * l < t ≤ ceil_div t l * l)%Z.
Proof.
  intros Hl. unfold ceil_div.
  pose proof (Z.div_mod (- t) l ltac:(lia)) as Hdm.
  pose proof (Z.mod_pos_bound (- t) l ltac:(lia)) as Hm.
  nia.
Qed.

Section ListingFacts.
Context {runtime : Runtime}.

Lemma getExpenditures_Listed (db : gmap N Expenditure) (caller : ObjectId)
    (q : ListQuery) (f : Filter) :
  build_filter q = inr f →
  (0 ≤ (int_or (q_page q) 1 - 1) * int_or (q_limit q) 10)%Z →
  getExpenditures db caller q
  = Listed
      (mkList
         (take (Z.to_nat (Z.abs (int_or (q_limit q) 10)))
            (drop (Z.to_nat ((int_or (q_page q) 1 - 1) * int_or (q_limit q) 10))
               (sort_by_date (matching db caller f))))
         (mkPagination (Z.of_nat (length (matching db caller f)))
            (int_or (q_page q) 1)
            (ceil_div (Z.of_nat (length (matching db caller f)))
               (int_or (q_limit q) 10))
            (int_or (q_page q) 1 * int_or (q_limit q) 10
             <? Z.of_nat (length (matching db caller f)))%Z)
         (summarize ((λ d, totalAmount d.2) <$> matching db caller f))
         (split_summary db caller)).
Proof.
  intros Hf Hskip. unfold getExpenditures, skip_limit. rewrite Hf.
  destruct (_ <? 0)%Z eqn:E; [apply Z.ltb_lt in E; lia|]. reflexivity.
Qed.

Lemma getExpenditures_Listed_inv (db : gmap N Expenditure) (caller : ObjectId)
    (q : ListQuery) (body : ExpenditureList) :
  getExpenditures db caller q = Listed body →
  ∃ f, build_filter q = inr f
       ∧ (0 ≤ (int_or (q_page q) 1 - 1) * int_or (q_limit q) 10)%Z.
Proof.
  unfold getExpenditures, skip_limit.
  destruct (build_filter q) as [error|f]; [done|].
  destruct (_ <? 0)%Z eqn:E; [done|]. apply Z.ltb_ge in E.
  intros _. by exists f.
Qed.

Lemma listed_in_matching (db : gmap N Expenditure) (caller : ObjectId)
    (q : ListQuery) (body : ExpenditureList) (f : Filter) (d : N * Expenditure) :
  getExpenditures db caller q = Listed body →
  build_filter q = inr f →
  d ∈ expenditures body → d ∈ matching db caller f.
Proof.
  intros Hr Hf Hin.
  destruct (getExpenditures_Listed_inv _ _ _ _ Hr) as (f' & Hf' & Hskip).
  rewrite Hf in Hf'. injection Hf' as <-.
  rewrite (getExpenditures_Listed _ _ _ _ Hf Hskip) in Hr.
  injection Hr as <-. cbn [expenditures] in Hin.
  apply (sublist_subseteq _ _ (sublist_take _ _)) in Hin.
  apply (sublist_subseteq _ _ (sublist_drop _ _)) in Hin.
  by rewrite sort_by_date_perm in Hin.
Qed.

Lemma build_filter_inr (q : ListQuery) (f : Filter) :
  build_filter q = inr f →
  f_category f = present (q_category q)
  ∧ f_tags f = present (q_tag q)
  ∧ f_total_gte f = bound_of (q_minAmount q)
  ∧ f_total_lte f = bound_of (q_maxAmount q)
  ∧ f_splitType f = q_splitType q
  ∧ f_isSettled f = (λ s, String.eqb s "true") <$> q_isSettled q
  ∧ date_bound (q_startDate q) = inr (f_date_gte f)
  ∧ date_bound (q_endDate q) = inr (f_date_lte f).
Proof.
  unfold build_filter.
  destruct (date_bound (q_startDate q)) as [?|gte]; [done|].
  destruct (date_bound (q_endDate q)) as [?|lte]; [done|].
  intros [= <-]. cbn. by destruct (q_isSettled q).
Qed.

(** Whatever the query, every listed document is a stored one that the
    caller owns or has a split in, and it passes each filter of the query:
    the category and the tag that are given and not empty, the amount bounds
    that are given and neither 0 nor NaN, the split type, and isSettled,
    which is compared with the string [true]. *)
Theorem listed_documents_match_query (db : gmap N Expenditure)
    (caller : ObjectId) (q : ListQuery) (body : ExpenditureList)
    (id : N) (e : Expenditure) :
  getExpenditures db caller q = Listed body →
  (id, e) ∈ expenditures body →
  db !! id = Some e
  ∧ (user e = caller ∨ ∃ s, s ∈ splits e ∧ split_user s = caller)
  ∧ (∀ c, present (q_category q) = Some c → category e = c)
  ∧ (∀ t, present (q_tag q) = Some t → t ∈ tags e)
  ∧ (∀ m, bound_of (q_minAmount q) = Some m → m <= totalAmount e)
  ∧ (∀ m, bound_of (q_maxAmount q) = Some m → totalAmount e <= m)
  ∧ (q_splitType q = Some "paid" → paidBy e = caller)
  ∧ (q_splitType q = Some "owed" →
     paidBy e ≠ caller ∧ ∃ s, s ∈ splits e ∧ split_user s = caller)
  ∧ (∀ s, q_isSettled q = Some s → isSettled e = Some (String.eqb s "true")).
Proof.
  intros Hr Hin.
  destruct (getExpenditures_Listed_inv _ _ _ _ Hr) as (f & Hf & _).
  pose proof (listed_in_matching _ _ _ _ _ _ Hr Hf Hin) as Hd.
  apply elem_of_matching in Hd as [Hdb Hm].
  apply matches_true in Hm
    as (H1 & _ & _ & H4 & H5 & H6 & H7 & H8 & H9 & H10).
  apply build_filter_inr in Hf as (F1 & F2 & F3 & F4 & F5 & F6 & _).
  rewrite F1 in H4. rewrite F2 in H5. rewrite F3 in H6. rewrite F4 in H7.
  rewrite F5 in H8, H9. rewrite F6 in H10.
  split_and!; try done.
  intros s Hs. apply H10. by rewrite Hs.
Qed.

(** The pages are in order of date, the newest first. *)
Lemma listed_newest_first (db : gmap N Expenditure) (caller : ObjectId)
    (q : ListQuery) (body : ExpenditureList) :
  getExpenditures db caller q = Listed body →
  StronglySorted newer_first (expenditures body).
Proof.
  intros Hr.
  destruct (getExpenditures_Listed_inv _ _ _ _ Hr) as (f & Hf & Hskip).
  rewrite (getExpenditures_Listed _ _ _ _ Hf Hskip) in Hr.
  injection Hr as <-. cbn [expenditures].
  apply page_sorted, sort_by_date_sorted.
Qed.

(** With a page and a limit of at least 1 and date bounds that are dates,
    the listing succeeds; [total] counts the matching documents, [pages] is
    the least number of pages of [limit] documents that hold them,
    [hasMore] tells whether the page is before the last one, and the page
    holds [limit] documents, or what is left of them, newest first. *)
Theorem listing_pagination (db : gmap N Expenditure) (caller : ObjectId)
    (q : ListQuery) (f : Filter) :
  build_filter q = inr f →
  (1 ≤ int_or (q_page q) 1)%Z →
  (1 ≤ int_or (q_limit q) 10)%Z →
  ∃ body,
    getExpenditures db caller q = Listed body
    ∧ total (pagination body) = Z.of_nat (length (matching db caller f))
    ∧ page (pagination body) = int_or (q_page q) 1
    ∧ ((pages (pagination body) - 1) * int_or (q_limit q) 10
       < total (pagination body)
       ≤ pages (pagination body) * int_or (q_limit q) 10)%Z
    ∧ (hasMore (pagination body) = true
       ↔ (page (pagination body) < pages (pagination body))%Z)
    ∧ Z.of_nat (length (expenditures body))
      = Z.max 0
          (Z.min (int_or (q_limit q) 10)
             (total (pagination body)
              - (int_or (q_page q) 1 - 1) * int_or (q_limit q) 10))
    ∧ StronglySorted newer_first (expenditures body).
Proof.
  intros Hf Hp Hl.
  assert (Hskip : (0 ≤ (int_or (q_page q) 1 - 1) * int_or (q_limit q) 10)%Z)
    by nia.
  pose proof (getExpenditures_Listed db caller q f Hf Hskip) as Hr.
  eexists. split; [exact Hr|].
  cbn [pagination total page pages hasMore expenditures].
  pose proof (ceil_div_bounds (Z.of_nat (length (matching db caller f)))
                (int_or (q_limit q) 10) Hl) as Hc.
  split_and!; try done; try lia.
  - rewrite Z.ltb_lt. nia.
  - rewrite length_take, length_drop, sort_by_date_length. lia.
  - apply page_sorted, sort_by_date_sorted.
Qed.

(** No matching document is left out of the pages: each one is on one of
    the pages 1 to [pages], whatever string of the page number is sent.  The
    requests for the pages sort documents of equal date alike. *)
Theorem every_match_is_on_a_page (db : gmap N Expenditure) (caller : ObjectId)
    (q : ListQuery) (f : Filter) (id : N) (e : Expenditure) :
  build_filter q = inr f →
  (1 ≤ int_or (q_limit q) 10)%Z →
  db !! id = Some e →
  matches caller f e = true →
  ∃ p, (1 ≤ p ≤ ceil_div (Z.of_nat (length (matching db caller f)))
                   (int_or (q_limit q) 10))%Z
       ∧ ∀ s, parseInt s = Some p →
              (id, e) ∈ listed (getExpenditures db caller
                                  (with_page (Some s) q)).
Proof.
  intros Hf Hl Hdb Hm.
  set (L := int_or (q_limit q) 10) in *.
  assert (Hin : (id, e) ∈ sort_by_date (matching db caller f)).
  { rewrite sort_by_date_perm. by apply elem_of_matching. }
  apply list_elem_of_lookup_1 in Hin as [i Hi].
  pose proof (lookup_lt_Some _ _ _ Hi) as Hlt.
  rewrite sort_by_date_length in Hlt.
  pose proof (ceil_div_bounds (Z.of_nat (length (matching db caller f))) L Hl)
    as Hc.
  pose proof (Z.div_mod (Z.of_nat i) L ltac:(lia)) as Hdm.
  pose proof (Z.mod_pos_bound (Z.of_nat i) L ltac:(lia)) as Hmod.
  assert (Hq : (0 ≤ Z.of_nat i / L)%Z) by (apply Z.div_pos; lia).
  exists (Z.of_nat i / L + 1)%Z. split; [nia|].
  intros s Hs.
  assert (Hpage : int_or (q_page (with_page (Some s) q)) 1
                  = (Z.of_nat i / L + 1)%Z).
  { cbn [with_page q_page]. unfold int_or. rewrite Hs.
    destruct (_ =? 0)%Z eqn:E; [apply Z.eqb_eq in E; lia|done]. }
  assert (Hf' : build_filter (with_page (Some s) q) = inr f) by exact Hf.
  assert (Hlim : int_or (q_limit (with_page (Some s) q)) 10 = L) by done.
  rewrite (getExpenditures_Listed db caller _ f Hf')
    by (rewrite Hpage, Hlim; nia).
  cbn [listed expenditures]. rewrite Hpage, Hlim.
  apply elem_of_take. exists (i - Z.to_nat ((Z.of_nat i / L + 1 - 1) * L))%nat.
  split.
  - rewrite lookup_drop. rewrite <- Hi. f_equal. nia.
  - nia.
Qed.

(** An amount bound that [parseFloat] reads as 0 or as NaN is no bound at
    all: the listing is the one of the query without it. *)
Theorem falsy_amount_bound_is_ignored (db : gmap N Expenditure)
    (caller : ObjectId) (q : ListQuery) (s : string) :
  (∀ m, parseFloat s = Some m → m == 0) →
  getExpenditures db caller (with_maxAmount (Some s) q)
  = getExpenditures db caller (with_maxAmount None q)
  ∧ getExpenditures db caller (with_minAmount (Some s) q)
    = getExpenditures db caller (with_minAmount None q).
Proof.
  intros Hs.
  assert (Hb : bound_of (Some s) = None).
  { unfold bound_of, present. destruct (String.eqb s ""); [done|].
    unfold nonzero. destruct (parseFloat s) as [m|]; [|done].
    destruct (Qeq_bool m 0) eqn:E; [done|].
    apply Qeq_bool_neq in E. destruct E. by apply Hs. }
  unfold getExpenditures, build_filter.
  cbn [with_maxAmount with_minAmount q_page q_limit q_startDate q_endDate
       q_category q_tag q_minAmount q_maxAmount q_splitType q_isSettled].
  by rewrite Hb.
Qed.

(** An isSettled parameter other than the string [true], such as 1, yes
    or the empty string, selects the unsettled expenditures. *)
Theorem isSettled_other_than_true_lists_unsettled (db : gmap N Expenditure)
    (caller : ObjectId) (q : ListQuery) (s : string) :
  s ≠ "true" →
  getExpenditures db caller (with_isSettled (Some s) q)
  = getExpenditures db caller (with_isSettled (Some "false") q)
  ∧ ∀ body id e,
      getExpenditures db caller (with_isSettled (Some s) q) = Listed body →
      (id, e) ∈ expenditures body → isSettled e = Some false.
Proof.
  intros Hs.
  assert (Heq : String.eqb s "true" = false) by by apply String.eqb_neq.
  assert (Hr : getExpenditures db caller (with_isSettled (Some s) q)
               = getExpenditures db caller (with_isSettled (Some "false") q)).
  { unfold getExpenditures, build_filter.
    cbn [with_isSettled q_page q_limit q_startDate q_endDate
         q_category q_tag q_minAmount q_maxAmount q_splitType q_isSettled].
    by rewrite Heq. }
  split; [exact Hr|].
  intros body id e Hb Hin.
  destruct (getExpenditures_Listed_inv _ _ _ _ Hb) as (f & Hf & _).
  pose proof (listed_in_matching _ _ _ _ _ _ Hb Hf Hin) as Hd.
  apply elem_of_matching in Hd as [_ Hm].
  apply matches_true in Hm as (_ & _ & _ & _ & _ & _ & _ & _ & _ & H10).
  apply build_filter_inr in Hf as (_ & _ & _ & _ & _ & F6 & _).
  cbn [with_isSettled q_isSettled fmap option_fmap option_map] in F6.
  rewrite Heq in F6. by apply H10.
Qed.

End ListingFacts.

(** * The group of all matched documents *)

Lemma Qmax2_ge (a b : Q) : a <= Qmax2 a b ∧ b <= Qmax2 a b.
Proof.
  unfold Qmax2. destruct (Qle_bool a b) eqn:E.
  - apply Qle_bool_iff in E. split; [done|apply Qle_refl].
  - split; [apply Qle_refl|]. apply Qlt_le_weak, Qnot_le_lt.
    intros H. apply Qle_bool_iff in H. congruence.
Qed.

Lemma Qmin2_le (a b : Q) : Qmin2 a b <= a ∧ Qmin2 a b <= b.
Proof.
  unfold Qmin2. destruct (Qle_bool a b) eqn:E.
  - apply Qle_bool_iff in E. split; [apply Qle_refl|done].
  - split; [|apply Qle_refl]. apply Qlt_le_weak, Qnot_le_lt.
    intros H. apply Qle_bool_iff in H. congruence.
Qed.

Lemma fold_Qmax2 (l : list Q) (a : Q) :
  a <= fold_left Qmax2 l a
  ∧ (∀ x, x ∈ l → x <= fold_left Qmax2 l a)
  ∧ fold_left Qmax2 l a ∈ a :: l.
Proof.
  revert a. induction l as [|y l IH]; intros a; cbn [fold_left].
  - split_and!; [apply Qle_refl| |by left].
    intros x Hx. by apply elem_of_nil in Hx.
  - destruct (IH (Qmax2 a y)) as (H1 & H2 & H3).
    destruct (Qmax2_ge a y) as [Ha Hy]. split_and!.
    + by eapply Qle_trans.
    + intros x Hx. apply elem_of_cons in Hx as [->|Hx]; [|by apply H2].
      by eapply Qle_trans.
    + apply elem_of_cons in H3 as [H3|H3].
      * rewrite H3. unfold Qmax2. destruct (Qle_bool a y).
        -- right. by left.
        -- by left.
      * do 2 right. done.
Qed.

Lemma fold_Qmin2 (l : list Q) (a : Q) :
  fold_left Qmin2 l a <= a
  ∧ (∀ x, x ∈ l → fold_left Qmin2 l a <= x)
  ∧ fold_left Qmin2 l a ∈ a :: l.
Proof.
  revert a. induction l as [|y l IH]; intros a; cbn [fold_left].
  - split_and!; [apply Qle_refl| |by left].
    intros x Hx. by apply elem_of_nil in Hx.
  - destruct (IH (Qmin2 a y)) as (H1 & H2 & H3).
    destruct (Qmin2_le a y) as [Ha Hy]. split_and!.
    + by eapply Qle_trans.
    + intros x Hx. apply elem_of_cons in Hx as [->|Hx]; [|by apply H2].
      by eapply Qle_trans.
    + apply elem_of_cons in H3 as [H3|H3].
      * rewrite H3. unfold Qmin2. destruct (Qle_bool a y).
        -- by left.
        -- right. by left.
      * do 2 right. done.
Qed.

(** What the group of all documents computes from their amounts: the sum is
    the binary64 sum in the order of the documents, the average that sum
    divided, in binary64, by their number. *)
Lemma summarize_spec (l : list Q) :
  count (summarize l) = Z.of_nat (length l)
  ∧ sum_amount (summarize l) = fsum l
  ∧ (l ≠ [] →
     avgAmount (summarize l)
     = fdiv (fsum l) (inject_Z (Z.of_nat (length l))))
  ∧ (∀ x, x ∈ l → minAmount (summarize l) <= x ∧ x <= maxAmount (summarize l))
  ∧ (l ≠ [] → minAmount (summarize l) ∈ l ∧ maxAmount (summarize l) ∈ l)
  ∧ (l = [] → summarize l = mkAmounts 0 0 0 0 0).
Proof.
  destruct l as [|a rest].
  { cbn [summarize count sum_amount avgAmount minAmount maxAmount length].
    split_and!; try done.
    intros x Hx. by apply elem_of_nil in Hx. }
  set (l := a :: rest).
  assert (Hb : ∀ x, x ∈ l →
             fold_left Qmin2 rest a <= x ∧ x <= fold_left Qmax2 rest a).
  { intros x Hx.
    destruct (fold_Qmax2 rest a) as (M1 & M2 & _).
    destruct (fold_Qmin2 rest a) as (m1 & m2 & _).
    apply elem_of_cons in Hx as [->|Hx]; [done|].
    split; [by apply m2|by apply M2]. }
  cbn [summarize count sum_amount avgAmount minAmount maxAmount].
  fold l.
  split_and!; try done.
  intros _.
  destruct (fold_Qmax2 rest a) as (_ & _ & M3).
  destruct (fold_Qmin2 rest a) as (_ & _ & m3).
  done.
Qed.

Section ListingSummary.
Context {runtime : Runtime}.


End ListingSummary.

(** * The statistics *)

Section Buckets.
Context {K : Type} `{EqDecision K}.
Implicit Types (bs : list (Bucket K)) (k : K) (a : Q).

Lemma bucket_add_ids k a bs :
  bucket_id <$> bucket_add k a bs
  = if decide (k ∈ bucket_id <$> bs) then bucket_id <$> bs
    else (bucket_id <$> bs) ++ [k].
Proof.
  induction bs as [|b bs IH]; cbn [bucket_add fmap list_fmap].
  - rewrite decide_False; [done|]. apply not_elem_of_nil.
  - destruct (decide (bucket_id b = k)) as [<-|Hne].
    + cbn [fmap list_fmap bucket_id]. rewrite decide_True; [done|by left].
    + cbn [fmap list_fmap]. change (list_fmap _ _ bucket_id) with (fmap (M:=list) (@bucket_id K)).
      rewrite IH. destruct (decide (k ∈ bucket_id <$> bs)) as [Hin|Hnin].
      * rewrite decide_True; [done|by right].
      * rewrite decide_False; [done|].
        intros Hin. apply elem_of_cons in Hin as [->|Hin]; done.
Qed.

Lemma bucket_add_NoDup k a bs :
  NoDup (bucket_id <$> bs) → NoDup (bucket_id <$> bucket_add k a bs).
Proof.
  intros Hnd. rewrite bucket_add_ids. destruct (decide _) as [|Hnin]; [done|].
  apply NoDup_app. split_and!; [done| |apply NoDup_singleton].
  intros x Hx Hk. apply list_elem_of_singleton in Hk as ->. done.
Qed.

Lemma bucket_add_id_in k a bs x :
  x ∈ bucket_id <$> bucket_add k a bs ↔ x = k ∨ x ∈ bucket_id <$> bs.
Proof.
  rewrite bucket_add_ids. destruct (decide _) as [Hin|Hnin].
  - split; [by right|]. by intros [->|].
  - rewrite elem_of_app, list_elem_of_singleton. tauto.
Qed.

Lemma bucket_add_Forall (P P' : Bucket K → Prop) k a bs :
  NoDup (bucket_id <$> bs) →
  Forall P bs →
  (∀ b, bucket_id b ≠ k → P b → P' b) →
  (∀ b, bucket_id b = k → P b →
        P' (mkBucket k (fadd (bucket_total b) a) (bucket_count b + 1))) →
  (k ∉ bucket_id <$> bs → P' (mkBucket k (fadd 0 a) 1)) →
  Forall P' (bucket_add k a bs).
Proof.
  intros Hnd HP Hother Hsame Hnew.
  induction bs as [|b bs IH]; cbn [bucket_add].
  - constructor; [|constructor]. apply Hnew, not_elem_of_nil.
  - cbn [fmap list_fmap] in Hnd. apply NoDup_cons in Hnd as [Hb Hnd].
    apply Forall_cons in HP as [HPb HP].
    destruct (decide (bucket_id b = k)) as [Hk|Hne].
    + constructor; [by apply Hsame|].
      apply Forall_forall. intros b' Hb'. apply Hother.
      * intros Hk'. apply Hb. rewrite Hk, <- Hk'.
        by apply list_elem_of_fmap_2.
      * by eapply Forall_forall in HP.
    + constructor; [by apply Hother|]. apply IH; [done..|].
      intros Hnin. apply Hnew. cbn [fmap list_fmap].
      intros Hin. apply elem_of_cons in Hin as [->|Hin]; done.
Qed.

Lemma bucket_add_counts k a bs :
  Zsum (bucket_count <$> bucket_add k a bs)
  = (Zsum (bucket_count <$> bs) + 1)%Z.
Proof.
  unfold Zsum.
  induction bs as [|b bs IH];
    cbn [bucket_add fmap list_fmap foldr bucket_count].
  - lia.
  - destruct (decide (bucket_id b = k));
      cbn [fmap list_fmap foldr bucket_count].
    + lia.
    + change (list_fmap _ _ bucket_count)
        with (fmap (M:=list) (@bucket_count K)).
      rewrite IH. lia.
Qed.

Variable key : Expenditure → K.

Lemma amounts_of_snoc k (docs : list (N * Expenditure)) (d : N * Expenditure) :
  amounts_of key k (docs ++ [d])
  = amounts_of key k docs ++ (if decide (key d.2 = k) then [amount d.2] else []).
Proof.
  unfold amounts_of. rewrite filter_app, fmap_app. f_equal.
  rewrite filter_cons, filter_nil. by destruct (decide (key d.2 = k)).
Qed.

Lemma amounts_of_nil k (docs : list (N * Expenditure)) :
  (∀ d, d ∈ docs → key d.2 ≠ k) → amounts_of key k docs = [].
Proof.
  intros Hk. unfold amounts_of.
  induction docs as [|d docs IH]; [done|].
  rewrite filter_cons, decide_False by (apply Hk; by left).
  apply IH. intros d' Hd'. apply Hk. by right.
Qed.

Lemma group_step (docs : list (N * Expenditure)) (d : N * Expenditure) bs :
  rows_of key docs bs →
  rows_of key (docs ++ [d]) (bucket_add (key d.2) (amount d.2) bs).
Proof.
  intros (Hnd & Hrows & Hkeys). split_and!.
  - by apply bucket_add_NoDup.
  - apply Forall_forall.
    apply (bucket_add_Forall
             (λ row,
                bucket_total row = fsum (amounts_of key (bucket_id row) docs)
                ∧ bucket_count row
                  = Z.of_nat (length (amounts_of key (bucket_id row) docs))
                ∧ (1 ≤ bucket_count row)%Z)); [done|by apply Forall_forall|..].
    + intros b Hne (H1 & H2 & H3). rewrite amounts_of_snoc.
      rewrite decide_False by done. by rewrite app_nil_r.
    + intros b Hk (H1 & H2 & H3). cbn [bucket_id bucket_total bucket_count].
      rewrite amounts_of_snoc, decide_True by done.
      rewrite fsum_snoc, length_app, <- Hk, <- H1.
      split_and!; [done|cbn [length]; lia|lia].
    + intros Hnin. cbn [bucket_id bucket_total bucket_count].
      rewrite amounts_of_snoc, decide_True by done.
      rewrite amounts_of_nil.
      * split_and!; done.
      * intros d' Hd' Hk. apply Hnin. rewrite <- Hk. by apply Hkeys.
  - intros d' Hd'. apply bucket_add_id_in.
    apply elem_of_app in Hd' as [Hd'|Hd'].
    + right. by apply Hkeys.
    + left. by apply list_elem_of_singleton in Hd' as ->.
Qed.

Lemma group_fold (docs0 docs : list (N * Expenditure)) bs :
  rows_of key docs0 bs →
  rows_of key (docs0 ++ docs)
    (fold_left (λ buckets d, bucket_add (key d.2) (amount d.2) buckets)
       docs bs).
Proof.
  revert docs0 bs. induction docs as [|d docs IH]; intros docs0 bs Hinv.
  - by rewrite app_nil_r.
  - cbn [fold_left]. rewrite (cons_middle d docs0 docs), app_assoc.
    apply IH. by apply group_step.
Qed.

Lemma group_by_rows (docs : list (N * Expenditure)) :
  rows_of key docs (group_by key docs).
Proof.
  apply (group_fold [] docs []). split_and!.
  - constructor.
  - intros row Hrow. by apply elem_of_nil in Hrow.
  - intros d Hd. by apply elem_of_nil in Hd.
Qed.

Lemma group_fold_counts (docs : list (N * Expenditure)) bs :
  Zsum (bucket_count <$>
          fold_left (λ buckets d, bucket_add (key d.2) (amount d.2) buckets)
            docs bs)
  = (Zsum (bucket_count <$> bs) + Z.of_nat (length docs))%Z.
Proof.
  revert bs. induction docs as [|d docs IH]; intros bs.
  - cbn [fold_left length]. lia.
  - cbn [fold_left]. rewrite IH, bucket_add_counts. cbn [length]. lia.
Qed.

Lemma insert_row_perm (before : Bucket K → Bucket K → bool) (r : Bucket K) bs :
  insert_row before r bs ≡ₚ r :: bs.
Proof.
  induction bs as [|x bs IH]; [done|]. cbn [insert_row].
  destruct (before x r); [|done].
  rewrite IH. apply perm_swap.
Qed.

Lemma sort_rows_perm (before : Bucket K → Bucket K → bool) bs :
  sort_rows before bs ≡ₚ bs.
Proof.
  induction bs as [|x bs IH]; [done|]. cbn [sort_rows foldr].
  fold (sort_rows before bs). by rewrite insert_row_perm, IH.
Qed.

Lemma sort_rows_sorted (before : Bucket K → Bucket K → bool)
    (R : relation (Bucket K)) bs :
  Transitive R →
  (∀ x r, before x r = true → R x r) →
  (∀ x r, before x r = false → R r x) →
  StronglySorted R (sort_rows before bs).
Proof.
  intros Htrans Htrue Hfalse.
  assert (Hins : ∀ r l, StronglySorted R l →
                        StronglySorted R (insert_row before r l)).
  { intros r l. induction l as [|x l IH]; intros Hl; cbn [insert_row].
    - repeat constructor.
    - apply StronglySorted_inv in Hl as [Hl Hx].
      destruct (before x r) eqn:E.
      + constructor; [by apply IH|].
        rewrite insert_row_perm. constructor; [by apply Htrue|done].
      + constructor; [by constructor|].
        constructor; [by apply Hfalse|].
        eapply Forall_impl; [exact Hx|]. intros y Hy.
        by etrans; [apply Hfalse|]. }
  induction bs as [|x bs IH]; [constructor|].
  cbn [sort_rows foldr]. by apply Hins.
Qed.

Lemma rows_of_perm (docs : list (N * Expenditure)) bs bs' :
  bs ≡ₚ bs' → rows_of key docs bs → rows_of key docs bs'.
Proof.
  intros Hp (H1 & H2 & H3). split_and!.
  - by rewrite <- Hp.
  - intros row Hrow. apply H2. by rewrite Hp.
  - intros d Hd. rewrite <- Hp. by apply H3.
Qed.

End Buckets.

Lemma civil_month (ms : Z) : (1 ≤ (civil_of_ms ms).2 ≤ 12)%Z.
Proof.
  unfold civil_of_ms. cbn [snd].
  set (doe := ((ms / 86400000 + 719468) mod 146097)%Z).
  assert (Hdoe : (0 ≤ doe < 146097)%Z) by (apply Z.mod_pos_bound; lia).
  clearbody doe.
  set (yoe := ((doe - doe / 1460 + doe / 36524 - doe / 146096) / 365)%Z).
  set (doy := (doe - (365 * yoe + yoe / 4 - yoe / 100))%Z).
  assert (Hdoy : (0 ≤ doy ≤ 365)%Z).
  { subst doy yoe. Z.div_mod_to_equations; lia. }
  clearbody doy.
  destruct (_ <? 10)%Z eqn:E.
  - apply Z.ltb_lt in E. Z.div_mod_to_equations; lia.
  - apply Z.ltb_ge in E. Z.div_mod_to_equations; lia.
Qed.

Lemma larger_first_trans {K} : Transitive (@larger_first K).
Proof. intros a b c Hab Hbc. unfold larger_first in *. by eapply Qle_trans. Qed.

Lemma later_first_trans : Transitive later_first.
Proof. intros a b c Hab Hbc. unfold later_first in *. lia. Qed.

Lemma by_total_desc_sorted {K} (bs : list (Bucket K)) :
  StronglySorted larger_first (sort_rows by_total_desc bs).
Proof.
  apply sort_rows_sorted; [apply larger_first_trans|..];
    intros x r Hb; unfold by_total_desc, Qltb, larger_first in *.
  - by apply Qgtb_true_iff, Qlt_le_weak in Hb.
  - by apply Qgtb_false_iff in Hb.
Qed.

Lemma by_month_desc_sorted (bs : list (Bucket (Z * Z))) :
  StronglySorted later_first (sort_rows by_month_desc bs).
Proof.
  apply sort_rows_sorted; [apply later_first_trans|..];
    intros x r Hb; unfold by_month_desc, later_first in *.
  - apply orb_true_iff in Hb as [Hb|Hb]; [left; by apply Z.ltb_lt|].
    apply andb_true_iff in Hb as [H1 H2].
    apply Z.eqb_eq in H1. apply Z.ltb_lt in H2. lia.
  - apply orb_false_iff in Hb as [H1 H2]. apply Z.ltb_ge in H1.
    apply andb_false_iff in H2 as [H2|H2].
    + apply Z.eqb_neq in H2. lia.
    + apply Z.ltb_ge in H2. lia.
Qed.

Lemma elem_of_own_docs (db : gmap N Expenditure) (U : ObjectId)
    (gte lte : option Date) (id : N) (e : Expenditure) :
  (id, e) ∈ own_docs db U gte lte
  ↔ db !! id = Some e ∧ user e = U
    ∧ (∀ d, gte = Some d → (d ≤ date e)%Z)
    ∧ (∀ d, lte = Some d → (date e ≤ d)%Z).
Proof.
  unfold own_docs. rewrite list_elem_of_filter, elem_of_map_to_list.
  cbn [snd]. unfold own_in_range. rewrite !andb_true_iff, N.eqb_eq.
  assert (Hg : match gte with Some d => (d <=? date e)%Z | None => true end
               = true ↔ ∀ d, gte = Some d → (d ≤ date e)%Z).
  { destruct gte as [d|]; [|done]. rewrite Z.leb_le. split.
    - by intros Hd d' [= <-].
    - intros Hd. by apply Hd. }
  assert (Hl : match lte with Some d => (date e <=? d)%Z | None => true end
               = true ↔ ∀ d, lte = Some d → (date e ≤ d)%Z).
  { destruct lte as [d|]; [|done]. rewrite Z.leb_le. split.
    - by intros Hd d' [= <-].
    - intros Hd. by apply Hd. }
  rewrite Hg, Hl. tauto.
Qed.

Section StatisticsFacts.
Context {runtime : Runtime}.

Lemma getStatistics_Computed_inv (db : gmap N Expenditure) (caller : ObjectId)
    (startDate endDate : option string) (body : Statistics) :
  getStatistics db caller startDate endDate = Computed body →
  ∃ gte lte,
    pipeline_bound startDate = inr gte ∧ pipeline_bound endDate = inr lte
    ∧ body
      = mkStatistics
          (summarize ((λ d, amount d.2) <$> own_docs db caller gte lte))
          (sort_rows by_total_desc
             (group_by category (own_docs db caller gte lte)))
          (sort_rows by_month_desc
             (group_by (λ e, civil_of_ms (date e))
                (own_docs db caller gte lte))).
Proof.
  unfold getStatistics.
  destruct (pipeline_bound startDate) as [?|gte]; [done|].
  destruct (pipeline_bound endDate) as [?|lte]; [done|].
  intros [= <-]. by exists gte, lte.
Qed.



End StatisticsFacts.

(** * The authentication middleware *)

Lemma append_String (a : Ascii.ascii) (p t : string) :
  String a p +:+ t = String a (p +:+ t).
Proof. reflexivity. Qed.

Lemma startsWith_true (p s : string) :
  startsWith p s = true → s = p +:+ string_drop (String.length p) s.
Proof.
  revert s. induction p as [|a p IH]; intros s; [done|].
  destruct s as [|b s]; cbn [startsWith]; [done|].
  intros H. apply andb_true_iff in H as [Hab Hp].
  apply Ascii.eqb_eq in Hab as ->.
  cbn [String.length string_drop]. rewrite append_String. f_equal.
  by apply IH.
Qed.

Lemma startsWith_append (p t : string) :
  startsWith p (p +:+ t) = true
  ∧ string_drop (String.length p) (p +:+ t) = t.
Proof.
  induction p as [|a p [IH1 IH2]].
  - split; [done|]. by destruct t.
  - rewrite append_String. cbn [startsWith String.length string_drop].
    by rewrite Ascii.eqb_refl, IH1.
Qed.

Lemma replace_prefix (p r s : string) :
  startsWith p s = true →
  replace p r s = r +:+ string_drop (String.length p) s.
Proof. intros H. destruct s; cbn [replace]; by rewrite H. Qed.

Lemma present_Some (s : option string) (h : string) :
  present s = Some h ↔ s = Some h ∧ h ≠ "".
Proof.
  unfold present. destruct s as [s|]; [|split; [done|by intros [? _]]].
  destruct (String.eqb s "") eqn:E.
  - apply String.eqb_eq in E. split; [done|]. intros [[= ->] ?]. done.
  - apply String.eqb_neq in E. split.
    + by intros [= <-].
    + by intros [[= ->] _].
Qed.

Section AuthFacts.
Context {casters : Casters} {jwt : Jwt}.
Variable User : Type.

(** The middleware lets a request pass exactly when its Authorization header
    is [Bearer ] followed by a token that [jwt.verify] accepts and whose
    [userId] is the [_id] of a stored user; [req.user] is then that user and
    [req.token] the token, that is the header without the prefix. *)
Theorem auth_passes_iff (users : gmap N User) (authHeader : option string)
    (id : N) (user : User) (token : string) :
  auth User users authHeader = Next id user token
  ↔ authHeader = Some ("Bearer " +:+ token)
    ∧ ∃ userId, jwt_verify token = Verified userId
                ∧ castObjectId (VStr userId) = CastOk id
                ∧ users !! id = Some user.
Proof.
  unfold auth. split.
  - destruct (present authHeader) as [h|] eqn:Hh; [|done].
    apply present_Some in Hh as [-> Hne].
    destruct (startsWith "Bearer " h) eqn:Hs; cbn [negb]; [|done].
    rewrite (replace_prefix _ _ _ Hs).
    apply startsWith_true in Hs.
    change ("" +:+ ?x) with x.
    destruct (jwt_verify _) as [userId| | |] eqn:Hv; try done.
    destruct (castObjectId _) as [oid| |] eqn:Hc; try done.
    destruct (users !! oid) as [u|] eqn:Hu; [|done].
    intros [= <- <- <-]. split; [f_equal; exact Hs|].
    by exists userId.
  - intros (-> & userId & Hv & Hc & Hu).
    destruct (startsWith_append "Bearer " token) as [Hs Hd].
    assert (Hp : present (Some ("Bearer " +:+ token))
                 = Some ("Bearer " +:+ token)) by done.
    rewrite Hp, Hs. cbn [negb].
    rewrite (replace_prefix _ _ _ Hs), Hd.
    change ("" +:+ token) with token.
    by rewrite Hv, Hc, Hu.
Qed.

(** A token made by [generateToken], sent back under the Bearer scheme while
    [jwt.verify] accepts it: the request passes when the id is the one of a
    stored user, is answered 401 when it is a well-formed id of no user, and
    500 when it is not an ObjectId. *)
Theorem auth_of_generated_token (users : gmap N User) (userId : string) :
  jwt_verify (generateToken userId) = Verified userId →
  auth User users (Some ("Bearer " +:+ generateToken userId))
  = match castObjectId (VStr userId) with
    | CastOk id =>
        match users !! id with
        | Some user => Next id user (generateToken userId)
        | None => Refused 401 "User not found"
        end
    | CastNull => Refused 401 "User not found"
    | CastError => Refused 500 "Internal server error during authentication"
    end.
Proof.
  intros Hv. unfold auth.
  destruct (startsWith_append "Bearer " (generateToken userId)) as [Hs Hd].
  assert (Hp : present (Some ("Bearer " +:+ generateToken userId))
               = Some ("Bearer " +:+ generateToken userId)) by done.
  rewrite Hp, Hs. cbn [negb].
  rewrite (replace_prefix _ _ _ Hs), Hd.
  change ("" +:+ ?x) with x.
  by rewrite Hv.
Qed.

(** The middleware never lets a request pass without a verified token: a
    missing or empty header, a header of another scheme, and a token that
    [jwt.verify] rejects are answered 401, each with its own message, and
    the users are not read. *)
Theorem auth_refuses_unverified (users : gmap N User)
    (authHeader : option string) :
  (present authHeader = None →
   auth User users authHeader
   = Refused 401 "No authorization token provided")
  ∧ (∀ h, present authHeader = Some h → startsWith "Bearer " h = false →
          auth User users authHeader
          = Refused 401 "Invalid token format. Use Bearer scheme")
  ∧ (∀ token, authHeader = Some ("Bearer " +:+ token) →
       (jwt_verify token = TokenExpiredError →
        auth User users authHeader = Refused 401 "Token has expired")
       ∧ (jwt_verify token = JsonWebTokenError →
          auth User users authHeader = Refused 401 "Invalid token")
       ∧ (jwt_verify token = OtherError →
          auth User users authHeader
          = Refused 500 "Internal server error during authentication")).
Proof.
  unfold auth. split_and!.
  - by intros ->.
  - intros h -> Hs. by rewrite Hs.
  - intros token ->.
    destruct (startsWith_append "Bearer " token) as [Hs Hd].
    assert (Hp : present (Some ("Bearer " +:+ token))
                 = Some ("Bearer " +:+ token)) by done.
    rewrite Hp, Hs. cbn [negb].
    rewrite (replace_prefix _ _ _ Hs), Hd.
    change ("" +:+ token) with token.
    split_and!; by intros ->.
Qed.

End AuthFacts.

(** ** The listing, the statistics and the middleware on the two bills *)

Lemma two_bills_food :
  getExpenditures two_bills payer food_query
  = Listed (listing_of (getExpenditures two_bills payer food_query)).
Proof. vm_compute. reflexivity. Qed.

Lemma two_bills_food_page :
  expenditures (listing_of (getExpenditures two_bills payer food_query))
  = [(dinner_id,
      dinner_doc [mkSplit friend 60 (Some false) None; mkSplit payer 40 (Some true) None]
        false)].
Proof. vm_compute. reflexivity. Qed.

Lemma listed_documents_match_query_witness :
  let e :=
    dinner_doc [mkSplit friend 60 (Some false) None; mkSplit payer 40 (Some true) None]
      false in
  two_bills !! dinner_id = Some e
  ∧ (user e = payer ∨ ∃ s, s ∈ splits e ∧ split_user s = payer)
  ∧ (∀ c, present (q_category food_query) = Some c → category e = c)
  ∧ (∀ t, present (q_tag food_query) = Some t → t ∈ tags e)
  ∧ (∀ m, bound_of (q_minAmount food_query) = Some m → m <= totalAmount e)
  ∧ (∀ m, bound_of (q_maxAmount food_query) = Some m → totalAmount e <= m)
  ∧ (q_splitType food_query = Some "paid" → paidBy e = payer)
  ∧ (q_splitType food_query = Some "owed" →
     paidBy e ≠ payer ∧ ∃ s, s ∈ splits e ∧ split_user s = payer)
  ∧ (∀ s, q_isSettled food_query = Some s →
          isSettled e = Some (String.eqb s "true")).
Proof.
  apply (listed_documents_match_query two_bills payer food_query
           (listing_of (getExpenditures two_bills payer food_query))).
  - vm_compute. reflexivity.
  - rewrite two_bills_food_page. left.
Defined.

Lemma listing_pagination_witness :
  ∃ body,
    getExpenditures two_bills payer food_query = Listed body
    ∧ total (pagination body)
      = Z.of_nat (length (matching two_bills payer food_filter))
    ∧ page (pagination body) = int_or (q_page food_query) 1
    ∧ ((pages (pagination body) - 1) * int_or (q_limit food_query) 10
       < total (pagination body)
       ≤ pages (pagination body) * int_or (q_limit food_query) 10)%Z
    ∧ (hasMore (pagination body) = true
       ↔ (page (pagination body) < pages (pagination body))%Z)
    ∧ Z.of_nat (length (expenditures body))
      = Z.max 0
          (Z.min (int_or (q_limit food_query) 10)
             (total (pagination body)
              - (int_or (q_page food_query) 1 - 1)
                * int_or (q_limit food_query) 10))
    ∧ StronglySorted newer_first (expenditures body).
Proof.
  apply (listing_pagination two_bills payer food_query food_filter).
  - vm_compute. reflexivity.
  - vm_compute. discriminate.
  - vm_compute. discriminate.
Defined.

(** With a limit of 1, the two bills of the payer are on two pages. *)
Lemma every_match_is_on_a_page_witness :
  let q := with_limit (Some "1") no_query in
  let f := mkFilter None None None None None None None None in
  ∃ p, (1 ≤ p ≤ ceil_div (Z.of_nat (length (matching two_bills payer f)))
                   (int_or (q_limit q) 10))%Z
       ∧ ∀ s, parseInt s = Some p →
              (dinner_id,
               dinner_doc
                 [mkSplit friend 60 (Some false) None; mkSplit payer 40 (Some true) None]
                 false)
              ∈ listed (getExpenditures two_bills payer
                          (with_page (Some s) q)).
Proof.
  apply (every_match_is_on_a_page two_bills payer
           (with_limit (Some "1") no_query)
           (mkFilter None None None None None None None None)).
  - vm_compute. reflexivity.
  - vm_compute. discriminate.
  - vm_compute. reflexivity.
  - vm_compute. reflexivity.
Defined.

(** [maxAmount=0] does not ask for the expenditures of total 0. *)
Lemma falsy_amount_bound_is_ignored_witness :
  getExpenditures two_bills payer (with_maxAmount (Some "0") no_query)
  = getExpenditures two_bills payer (with_maxAmount None no_query)
  ∧ getExpenditures two_bills payer (with_minAmount (Some "0") no_query)
    = getExpenditures two_bills payer (with_minAmount None no_query).
Proof.
  apply (falsy_amount_bound_is_ignored two_bills payer no_query "0").
  intros m Hm. vm_compute in Hm. injection Hm as <-. reflexivity.
Defined.

Lemma isSettled_other_than_true_lists_unsettled_witness :
  getExpenditures two_bills payer (with_isSettled (Some "yes") no_query)
  = getExpenditures two_bills payer (with_isSettled (Some "false") no_query)
  ∧ ∀ body id e,
      getExpenditures two_bills payer (with_isSettled (Some "yes") no_query)
      = Listed body →
      (id, e) ∈ expenditures body → isSettled e = Some false.
Proof.
  apply (isSettled_other_than_true_lists_unsettled two_bills payer no_query
           "yes").
  discriminate.
Defined.




(** The payer's token passes; [req.user] is the payer. *)
Lemma auth_of_generated_token_witness :
  auth string names (Some ("Bearer " +:+ generateToken payer_hex))
  = match castObjectId (VStr payer_hex) with
    | CastOk id =>
        match names !! id with
        | Some user => Next id user (generateToken payer_hex)
        | None => Refused 401 "User not found"
        end
    | CastNull => Refused 401 "User not found"
    | CastError => Refused 500 "Internal server error during authentication"
    end.
Proof.
  apply (auth_of_generated_token string names payer_hex).
  vm_compute. reflexivity.
Defined.

Example auth_lets_the_payer_pass :
  auth string names (Some ("Bearer " +:+ generateToken payer_hex))
  = Next payer "ann" (generateToken payer_hex).
Proof. vm_compute. reflexivity. Qed.
